(** * tk-rumba: the Shotgun toolkit hooks for Rumba, as a shallow embedding

    The hooks of this repository are thin adapters over the scripting API of
    the host application.  The host is modelled as an explicit [World]: the
    active document (a tree of nodes with plugs), the file system predicate
    the hooks consult, the journal of mutating host calls and the log.  A
    hook is a function from [World] to a result and a new [World]; a Python
    exception is the [Raise] result and keeps the world reached so far. *)

From Stdlib Require Import ZArith List Bool Lia Ascii String.
From stdpp Require Import base option list strings gmap.
Import ListNotations.

Set Warnings "-register-all".

Local Open Scope string_scope.
Local Open Scope list_scope.

(** ** Python values and exceptions *)

Module Py.

Inductive exn : Type :=
| Exception (msg : string)
| RuntimeError (msg : string)
| TypeError (msg : string)
| KeyError (key : string)
| AttributeError (attr : string).

Inductive result (A : Type) : Type :=
| Ok (a : A)
| Raise (e : exn).
Arguments Ok {A} a.
Arguments Raise {A} e.

(** Truth value of a [str]: only the empty string is false. *)
Definition truthy (s : string) : bool := negb (String.eqb s "").

(** Truth value of a value that is a [str] or [None]. *)
Definition truthy_opt (o : option string) : bool :=
  match o with
  | Some s => truthy s
  | None => false
  end.

(** [x in l] for a list or tuple of strings. *)
Definition str_in (x : string) (l : list string) : bool :=
  existsb (String.eqb x) l.

(** The arguments the frame range hook is called with: an [int], or the
    default [None]. *)
Inductive value : Type :=
| PyNone
| PyInt (z : Z).

(** [int(v)] *)
Definition int (v : value) : result Z :=
  match v with
  | PyInt z => Ok z
  | PyNone =>
      Raise (TypeError "int() argument must be a string, a bytes-like object or a number, not 'NoneType'")
  end.

End Py.
Export Py.

(** ** Characters

    A Python [str] is a sequence of code points.  It is held here as the
    bytes of its UTF-8 encoding, and a character is one UTF-8 sequence; what
    [re] and [str] do character by character is modelled on the list of
    these sequences. *)

Module Utf8.

(** The length of the sequence that a byte begins: a byte below [0xC0]
    stands alone, and so does a byte from [0xF8] on, which begins no
    sequence. *)
Definition width (a : ascii) : nat :=
  let n := nat_of_ascii a in
  if Nat.ltb n 192 then 1
  else if Nat.ltb n 224 then 2
  else if Nat.ltb n 240 then 3
  else if Nat.ltb n 248 then 4
  else 1.

(** The bytes of [s] that end the sequence under way, of which [left]
    bytes are still to come, and the sequences after it. *)
Fixpoint scan (s : string) (left : nat) : string * list string :=
  match s with
  | EmptyString => (EmptyString, [])
  | String a s' =>
      match left with
      | S l => let (k, cs) := scan s' l in (String a k, cs)
      | O => let (k, cs) := scan s' (width a - 1) in (EmptyString, String a k :: cs)
      end
  end.

(** The characters of a string, in order. *)
Definition chars (s : string) : list string := snd (scan s 0).

(** [''.join(l)] *)
Fixpoint join (l : list string) : string :=
  match l with
  | [] => EmptyString
  | c :: l' => c +:+ join l'
  end.

End Utf8.


(** ** The scene graph of the host *)

(** A node of a Rumba document, as the hooks see it through the scripting
    API: [full_document_name()], [type_name()], [reference_filename()]
    (empty when the node is not the root of a reference), the string plugs
    reached with [has_plug(name)] and [plug(name)], and [children()]. *)
Inductive Node : Type := mkNode {
  full_document_name : string;
  type_name : string;
  reference_filename : string;
  plugs : gmap string string;
  children : list Node }.


(** [node.has_plug(name)] *)
Definition has_plug (node : Node) (name : string) : bool :=
  bool_decide (is_Some (plugs node !! name)).

(** [node.plug(name).as_string()]: the host raises when the node has no
    plug of that name. *)
Definition plug_as_string (node : Node) (name : string) : result string :=
  match plugs node !! name with
  | Some v => Ok v
  | None => Raise (RuntimeError ("no plug named " +:+ name))
  end.

(** The nodes of a hierarchy in the order a depth-first walk meets them. *)
Fixpoint preorder (node : Node) : list Node :=
  node :: flat_map preorder (children node).

(** The active document: the root node of the scene graph together with the
    integer plugs [start_frame], [end_frame], [range_start_frame] and
    [range_end_frame] that every document carries. *)
Record Document : Type := mkDocument {
  doc_node : Node;
  start_frame : Z;
  end_frame : Z;
  range_start_frame : Z;
  range_end_frame : Z }.

(** ** Values that cross the framework boundary *)

(** [BreakdownSceneItem]: a [str] (its [text]) that carries the full
    document name and the type of the node it stands for. *)
Record BreakdownSceneItem : Type := mkItem {
  text : string;
  node : string;
  node_type : string }.

(** The values found in a scan result or an update item. *)
Inductive dict_value : Type :=
| VItem (i : BreakdownSceneItem)
| VStr (s : string).

(** A Python dict with string keys, in insertion order. *)
Definition scene_dict : Type := list (string * dict_value).

(** [d[key]] *)
Fixpoint getitem (d : scene_dict) (key : string) : result dict_value :=
  match d with
  | [] => Raise (KeyError key)
  | (k, v) :: d' => if String.eqb k key then Ok v else getitem d' key
  end.

(** [d.keys()] *)
Definition keys (d : scene_dict) : list string := map fst d.

(** The Shotgun publish record handed to the loader: the local path the
    framework's [get_publish_path] resolves it to, and its ["code"] entry:
    [None] when the dictionary has no such key, and otherwise the value
    under the key, which is [None] or a string. *)
Record PublishData : Type := mkPublishData {
  local_path : string;
  code : option (option string) }.

(** [sg_publish_data.get("code", default)] *)
Definition get_code (d : PublishData) (default : string) : option string :=
  match code d with
  | Some value => value
  | None => Some default
  end.

(** One entry of the list given to [execute_multiple_actions]. *)
Record Action : Type := mkAction {
  name : string;
  sg_publish_data : PublishData;
  params : option string }.

(** ** Logging *)

Inductive LogLevel : Type := Debug | Info | Warning | Error.

(** The values interpolated into a log message. *)
Inductive LogArg : Type :=
| AStr (s : string)
| ARefs (refs : list scene_dict)
| AAction (a : Action)
| AParams (p : option string)
| AData (d : PublishData).

(** The callback of an action button attached to a log record. *)
Inductive Callback : Type :=
| cb_save_as
| cb_show_file_save_dlg.

Record ActionButton : Type := mkActionButton {
  label : string;
  tooltip : string;
  callback : Callback }.

(** A log record: level, format string, the arguments of [%], and the
    [extra] mapping, which here only ever holds an ["action_button"]. *)
Record LogRecord : Type := mkLog {
  level : LogLevel;
  fmt : string;
  args : list LogArg;
  extra : option ActionButton }.

(** ** The host *)

(** The calls to the host that the hooks make to change the active
    document, and the two calls of the bracket around them. *)
Inductive HostCall : Type :=
| ModifyBegin (label : string)
| ModifyEnd
| ReplaceReference (node_name path : string)
| SetValue (node_name plug_name value : string)
| SetFrameValue (plug_name : string) (value : Z)
| Reference (path namespace : string)
| LoadNode (path namespace : string)
| AddMediaLayer (layer_name : option string)
| GetMedia (path : string)
| AddMediaClip (media_layer : option string) (path : string) (frame : Z).

(** An app registered on the engine; [show_file_save_dlg] tells whether it
    has that attribute. *)
Record App : Type := mkApp { show_file_save_dlg : bool }.

(** The platform [os.path] is bound to. *)
Inductive Platform : Type := Posix | Nt.

(** What the hooks import and do not own: the platform, its
    [os.path.basename], the extension lists of [rumba_media] (the second
    component of [audio_formats()], [image_formats()], [video_formats()]),
    [sgtk.util.ShotgunPath.normalize], the engine's [get_template_by_name],
    and the class of alphanumeric characters that [re] consults under
    [re.UNICODE], as a test on one character. *)
Record Runtime : Type := mkRuntime {
  platform : Platform;
  basename : string -> string;
  audio_formats : list string;
  image_formats : list string;
  video_formats : list string;
  normalize : string -> string;
  get_template_by_name : option string -> option string;
  isalnum : string -> bool }.

Record World : Type := mkWorld {
  runtime : Runtime;
  active_document : option Document;
  active_document_filename : string;
  current_frame : Z;
  path_exists : string -> bool;
  engine_apps : gmap string App;
  journal : list HostCall;
  log : list LogRecord }.

Definition set_document (d : option Document) (w : World) : World :=
  mkWorld (runtime w) d (active_document_filename w) (current_frame w) (path_exists w)
          (engine_apps w) (journal w) (log w).

Definition add_call (c : HostCall) (w : World) : World :=
  mkWorld (runtime w) (active_document w) (active_document_filename w) (current_frame w)
          (path_exists w) (engine_apps w) (journal w ++ [c]) (log w).

Definition add_log (r : LogRecord) (w : World) : World :=
  mkWorld (runtime w) (active_document w) (active_document_filename w) (current_frame w)
          (path_exists w) (engine_apps w) (journal w) (log w ++ [r]).

(** A hook method: it runs in a world and leaves a result and a world. *)
Definition M (A : Type) : Type := World -> result A * World.

Definition ret {A} (a : A) : M A := fun w => (Ok a, w).
Definition raise {A} (e : exn) : M A := fun w => (Raise e, w).
Definition bind {A B} (m : M A) (k : A -> M B) : M B :=
  fun w =>
    match m w with
    | (Ok a, w') => k a w'
    | (Raise e, w') => (Raise e, w')
    end.
Definition lift {A} (r : result A) : M A := fun w => (r, w).
Definition host (c : HostCall) : M unit := fun w => (Ok tt, add_call c w).
Definition emit (l : LogLevel) (f : string) (a : list LogArg)
                (x : option ActionButton) : M unit :=
  fun w => (Ok tt, add_log (mkLog l f a x) w).
Definition log_debug (f : string) (a : list LogArg) : M unit := emit Debug f a None.
Definition log_warning (f : string) (a : list LogArg) : M unit := emit Warning f a None.

Notation "x <-- m ;; k" := (bind m (fun x => k))
  (at level 100, m at next level, right associativity).
Notation "m ;;; k" := (bind m (fun _ => k))
  (at level 100, right associativity).

(** [for x in l: body x] *)
Fixpoint for_each {A} (l : list A) (body : A -> M unit) : M unit :=
  match l with
  | [] => ret tt
  | x :: l' => body x ;;; for_each l' body
  end.

(** ** Node handles

    A node handle obtained from the document stays attached to the node: a
    write through the handle changes the node in the document, wherever it
    sits in the tree.  Handles are resolved by full document name, first
    match of a depth-first walk, for reading and for writing alike. *)

Fixpoint find_node (target : string) (n : Node) : option Node :=
  if String.eqb (full_document_name n) target then Some n
  else
    (fix go (cs : list Node) : option Node :=
       match cs with
       | [] => None
       | c :: cs' =>
           match find_node target c with
           | Some r => Some r
           | None => go cs'
           end
       end) (children n).

Definition find_first (target : string) : list Node -> option Node :=
  fix go (cs : list Node) : option Node :=
    match cs with
    | [] => None
    | c :: cs' =>
        match find_node target c with
        | Some r => Some r
        | None => go cs'
        end
    end.

Definition set_children (n : Node) (cs : list Node) : Node :=
  mkNode (full_document_name n) (type_name n) (reference_filename n) (plugs n) cs.

Fixpoint modify_node (target : string) (f : Node -> Node) (n : Node) : option Node :=
  if String.eqb (full_document_name n) target then Some (f n)
  else
    match
      (fix go (cs : list Node) : option (list Node) :=
         match cs with
         | [] => None
         | c :: cs' =>
             match modify_node target f c with
             | Some c' => Some (c' :: cs')
             | None =>
                 match go cs' with
                 | Some cs'' => Some (c :: cs'')
                 | None => None
                 end
             end
         end) (children n)
    with
    | Some cs' => Some (set_children n cs')
    | None => None
    end.

Definition modify_first (target : string) (f : Node -> Node)
  : list Node -> option (list Node) :=
  fix go (cs : list Node) : option (list Node) :=
    match cs with
    | [] => None
    | c :: cs' =>
        match modify_node target f c with
        | Some c' => Some (c' :: cs')
        | None =>
            match go cs' with
            | Some cs'' => Some (c :: cs'')
            | None => None
            end
        end
    end.

Definition set_doc_children (d : Document) (cs : list Node) : Document :=
  mkDocument (set_children (doc_node d) cs)
             (start_frame d) (end_frame d) (range_start_frame d) (range_end_frame d).

(** [active_document.child(name)]: the node of that full document name
    below the document; the host raises when there is none. *)
Definition child (d : Document) (target : string) : M Node :=
  match find_first target (children (doc_node d)) with
  | Some n => ret n
  | None => raise (RuntimeError ("no child named " +:+ target))
  end.

(** A write through the handle [target]: [f] is applied to the node in the
    active document and the host call [c] is recorded. *)
Definition write_node (target : string) (f : Node -> Node) (c : HostCall) : M unit :=
  fun w =>
    match active_document w with
    | Some d =>
        match modify_first target f (children (doc_node d)) with
        | Some cs' => (Ok tt, add_call c (set_document (Some (set_doc_children d cs')) w))
        | None => (Raise (RuntimeError ("invalid node " +:+ target)), w)
        end
    | None => (Raise (RuntimeError "no active document"), w)
    end.

(** What the host is taken to do to a node (the host is not part of the
    repository, so this is an assumption of the model and of what is proved
    from it): [replace_reference] changes the reference filename of the
    node, [set_value] the value of the plug, and both leave the name, the
    type and the children of the node as they are. *)
Definition set_reference (path : string) (n : Node) : Node :=
  mkNode (full_document_name n) (type_name n) path (plugs n) (children n).

Definition set_plug (plug_name value : string) (n : Node) : Node :=
  mkNode (full_document_name n) (type_name n) (reference_filename n)
         (<[plug_name := value]> (plugs n)) (children n).

(** [node.replace_reference(path)] *)
Definition replace_reference (n : Node) (path : string) : M unit :=
  write_node (full_document_name n) (set_reference path)
             (ReplaceReference (full_document_name n) path).

(** [node.plug(plug_name).set_value(value)] *)
Definition plug_set_value (n : Node) (plug_name value : string) : M unit :=
  _ <-- lift (plug_as_string n plug_name) ;;
  write_node (full_document_name n) (set_plug plug_name value)
             (SetValue (full_document_name n) plug_name value).

(** * tk-multi-breakdown: [tk-rumba_scene_operations.py] *)

Module Breakdown.

(** [results] is the list the recursive calls append to. *)
Fixpoint find_nodes_with_reference (node : Node) (results : list Node) : list Node :=
  let results :=
    if truthy (reference_filename node) then results ++ [node] else results in
  fold_left (fun results child_node => find_nodes_with_reference child_node results)
            (children node) results.

(** [(type_names and node.type_name() in type_names) or type_names is None] *)
Definition type_filter (type_names : option (list string)) (node : Node) : bool :=
  match type_names with
  | None => true
  | Some [] => false
  | Some l => str_in (type_name node) l
  end.

Fixpoint find_nodes_with_plug (node : Node) (plug_name : string)
         (type_names : option (list string)) (results : list Node) : list Node :=
  let results :=
    if has_plug node plug_name then
      if type_filter type_names node then results ++ [node] else results
    else results in
  fold_left
    (fun results child_node =>
       find_nodes_with_plug child_node plug_name type_names results)
    (children node) results.

(** The result is [None] for a node of any other type. *)
Definition get_node_file_path (node : Node) : result (option string) :=
  if str_in (type_name node) ["Asset"] then Ok (Some (reference_filename node))
  else if str_in (type_name node) ["UsdAsset"] then
    match plug_as_string node "file_path" with
    | Ok s => Ok (Some s)
    | Raise e => Raise e
    end
  else if str_in (type_name node) ["Media"] then
    match plug_as_string node "file" with
    | Ok s => Ok (Some s)
    | Raise e => Raise e
    end
  else Ok None.

Definition set_node_file_path (node : Node) (path : string) : M unit :=
  if str_in (type_name node) ["Asset"] then replace_reference node path
  else if str_in (type_name node) ["UsdAsset"] then plug_set_value node "file_path" path
  else if str_in (type_name node) ["Media"] then plug_set_value node "file" path
  else ret tt.

Definition ITEM_COLORS : list (string * string) :=
  [ ("Asset", "#e7a81d"); ("UsdAsset", "#a8e71d");
    ("Media", "#1da8e7"); ("default", "#a81de7") ].

(** [ITEM_COLORS.get(key, default)] *)
Fixpoint colors_get (colors : list (string * string)) (key default : string) : string :=
  match colors with
  | [] => default
  | (k, v) :: colors' => if String.eqb k key then v else colors_get colors' key default
  end.

(** [BreakdownSceneItem(node, file_path)] *)
Definition new_item (n : Node) (file_path : string) : BreakdownSceneItem :=
  let node_name := full_document_name n in
  let node_type := type_name n in
  let node_color :=
    colors_get ITEM_COLORS node_type (colors_get ITEM_COLORS "default" "") in
  mkItem ("<span style='color:" +:+ node_color +:+ "'><b>" +:+ node_name
            +:+ "</b></span><br/><nobr><b><sub>" +:+ node_type
            +:+ "</sub></b></nobr>")
         node_name node_type.

(** The dictionary appended for a node whose path is [ref_path]. *)
Definition ref_entry (n : Node) (ref_path : string) : scene_dict :=
  [ ("node", VItem (new_item n ref_path)); ("type", VStr "file"); ("path", VStr ref_path) ].

(** The loop over the collected nodes; [refs] is the list appended to. *)
Fixpoint scan_nodes (nodes : list Node) (refs : list scene_dict)
  : result (list scene_dict) :=
  match nodes with
  | [] => Ok refs
  | n :: nodes' =>
      match get_node_file_path n with
      | Raise e => Raise e
      | Ok ref_path =>
          if truthy_opt ref_path
          then scan_nodes nodes' (refs ++ [ref_entry n (default "" ref_path)])
          else scan_nodes nodes' refs
      end
  end.

(** The list [nodes] that [scan_scene] builds from the three walks. *)
Definition scanned_nodes (d : Document) : list Node :=
  let nodes := find_nodes_with_reference (doc_node d) [] in
  let nodes := nodes ++ find_nodes_with_plug (doc_node d) "file_path" (Some ["UsdAsset"]) [] in
  nodes ++ find_nodes_with_plug (doc_node d) "file" (Some ["Media"]) [].

Definition scan_scene : M (list scene_dict) :=
  fun w =>
    (refs <-- lift (match active_document w with
                    | Some d => scan_nodes (scanned_nodes d) []
                    | None => Ok []
                    end) ;;
     log_debug "refs: %s" [ARefs refs] ;;;
     ret refs) w.

(** [str(v)] of a dictionary value. *)
Definition str_of (v : dict_value) : string :=
  match v with
  | VStr s => s
  | VItem i => text i
  end.

(** [v.node] *)
Definition attr_node (v : dict_value) : result string :=
  match v with
  | VItem i => Ok (node i)
  | VStr _ => Raise (AttributeError "node")
  end.

(** [active_document.child(node_name)] on the document object bound before
    the loop, which is the live active document. *)
Definition child_of_active (node_name : string) : M Node :=
  fun w =>
    match active_document w with
    | Some d => child d node_name w
    | None => (Raise (RuntimeError "no active document"), w)
    end.

(** The body of the loop of [update]. *)
Definition update_item (i : scene_dict) : M unit :=
  new_path <-- lift (getitem i "path") ;;
  node_value <-- lift (getitem i "node") ;;
  node_name <-- lift (attr_node node_value) ;;
  n <-- child_of_active node_name ;;
  log_debug "Updating node: %s to path %s" [AStr node_name; AStr (str_of new_path)] ;;;
  set_node_file_path n (str_of new_path).

Definition update (items : list scene_dict) : M unit :=
  log_debug "items: %s" [ARefs items] ;;;
  fun w =>
    match active_document w with
    | Some _ =>
        (host (ModifyBegin "Shotgun Update References") ;;;
         for_each items update_item ;;;
         host ModifyEnd) w
    | None => (Ok tt, w)
    end.

End Breakdown.

(** ** What [scan_scene] is to return, stated without accumulators *)

Module BreakdownSpec.
Import Breakdown.


Definition referenced (n : Node) : bool := truthy (reference_filename n).

Definition plug_of_type (plug_name : string) (type_names : option (list string))
           (n : Node) : bool :=
  has_plug n plug_name && type_filter type_names n.

(** The collected list: the referenced nodes, then the [UsdAsset] nodes
    with a [file_path] plug, then the [Media] nodes with a [file] plug,
    each in depth-first order. *)
Definition collected_nodes (d : Document) : list Node :=
  List.filter referenced (preorder (doc_node d))
  ++ List.filter (plug_of_type "file_path" (Some ["UsdAsset"])) (preorder (doc_node d))
  ++ List.filter (plug_of_type "file" (Some ["Media"])) (preorder (doc_node d)).

(** The entries one collected node gives rise to: one when its path is a
    non-empty string, none otherwise. *)
Definition entries_of (n : Node) : list scene_dict :=
  match get_node_file_path n with
  | Ok (Some p) => if truthy p then [ref_entry n p] else []
  | _ => []
  end.

Definition resolves (n : Node) : Prop :=
  exists p, get_node_file_path n = Ok p.

(** The shape of one scan result for the document [d]: the three keys in
    the order of the dictionary display, the item built for a node of the
    document, the constant type and the node's non-empty path. *)
Definition scan_result_shape (d : Document) (e : scene_dict) : Prop :=
  keys e = ["node"; "type"; "path"] /\
  exists n p,
    In n (preorder (doc_node d)) /\
    get_node_file_path n = Ok (Some p) /\ p <> "" /\
    getitem e "node" = Ok (VItem (new_item n p)) /\
    getitem e "type" = Ok (VStr "file") /\
    getitem e "path" = Ok (VStr p).

(** [e] has the keys [ks] and no other. *)
Definition has_exactly_keys (e : scene_dict) (ks : list string) : Prop :=
  forall k, In k (keys e) <-> In k ks.

(** The node resolves to a non-empty path. *)
Definition has_file_path (n : Node) : bool :=
  match get_node_file_path n with
  | Ok (Some p) => truthy p
  | _ => false
  end.

(** The scan result [e] stands for the node [n]. *)
Definition entry_is_for (n : Node) (e : scene_dict) : bool :=
  match getitem e "node" with
  | Ok (VItem i) => String.eqb (node i) (full_document_name n)
  | _ => false
  end.

(** One entry for each node of the document that resolves to a non-empty
    path, and none for the other nodes. *)
Definition one_entry_per_node (d : Document) (refs : list scene_dict) : Prop :=
  forall n, In n (preorder (doc_node d)) ->
    length (List.filter (entry_is_for n) refs) = (if has_file_path n then 1 else 0)%nat.

(** No [UsdAsset] or [Media] node of the document is the root of a
    reference: the three walks then meet disjoint sets of file nodes. *)
Definition walks_disjoint (d : Document) : Prop :=
  forall n, In n (preorder (doc_node d)) ->
    truthy (reference_filename n) = true ->
    str_in (type_name n) ["UsdAsset"; "Media"] = false.

(** The nodes below the document node. *)
Definition descendants (d : Document) : list Node :=
  flat_map preorder (children (doc_node d)).

(** The host gives every node below the document its own full document
    name. *)
Definition unique_names (d : Document) : Prop :=
  List.NoDup (map full_document_name (descendants d)).

(** The node carries the full document name [target]. *)
Definition named (target : string) (x : Node) : bool :=
  String.eqb (full_document_name x) target.

(** [after] is what a write of [f] at the handle [target] made of
    [before], [found] being the node the handle reaches: when the write
    gives the node back unchanged, nothing changes; when the handle reaches
    nothing, there is no write. *)
Definition fixes_found (target : string) (f : Node -> Node) (found : option Node)
           {A} (before : A) (after : option A) : Prop :=
  match found with
  | Some x => f x = x -> after = Some before
  | None => after = None
  end.

End BreakdownSpec.

(** * tk-multi-setframerange: [frame_operations_tk-rumba.py] *)

Module FrameOperation.

(** The four frame plugs of a document. *)
Inductive FramePlug : Type :=
| start_frame_plug
| end_frame_plug
| range_start_frame_plug
| range_end_frame_plug.

Definition frame_plug_name (p : FramePlug) : string :=
  match p with
  | start_frame_plug => "start_frame"
  | end_frame_plug => "end_frame"
  | range_start_frame_plug => "range_start_frame"
  | range_end_frame_plug => "range_end_frame"
  end.

Definition write_frame (p : FramePlug) (v : Z) (d : Document) : Document :=
  match p with
  | start_frame_plug =>
      mkDocument (doc_node d) v (end_frame d) (range_start_frame d) (range_end_frame d)
  | end_frame_plug =>
      mkDocument (doc_node d) (start_frame d) v (range_start_frame d) (range_end_frame d)
  | range_start_frame_plug =>
      mkDocument (doc_node d) (start_frame d) (end_frame d) v (range_end_frame d)
  | range_end_frame_plug =>
      mkDocument (doc_node d) (start_frame d) (end_frame d) (range_start_frame d) v
  end.

(** [active_doc.<plug>.set_value(v)] *)
Definition set_value (p : FramePlug) (v : Z) : M unit :=
  fun w =>
    match active_document w with
    | Some d =>
        (Ok tt, add_call (SetFrameValue (frame_plug_name p) v)
                         (set_document (Some (write_frame p v d)) w))
    | None => (Raise (RuntimeError "no active document"), w)
    end.

Definition get_frame_range : M (Z * Z) :=
  fun w =>
    let current_in := 0%Z in
    let current_out := 0%Z in
    match active_document w with
    | Some active_doc => (Ok (start_frame active_doc, end_frame active_doc), w)
    | None => (Ok (current_in, current_out), w)
    end.

Definition set_frame_range (in_frame out_frame : value) : M unit :=
  fun w =>
    match active_document w with
    | Some _ =>
        (start <-- lift (int in_frame) ;;
         end_ <-- lift (int out_frame) ;;
         host (ModifyBegin "Shotgun Update Frame Range") ;;;
         set_value start_frame_plug start ;;;
         set_value end_frame_plug end_ ;;;
         set_value range_start_frame_plug start ;;;
         set_value range_end_frame_plug end_ ;;;
         host ModifyEnd) w
    | None => (Ok tt, w)
    end.

End FrameOperation.

(** * The [str] and [os.path] functions the loader hook calls *)

Module Str.

(** [s.lower()] on the ASCII letters, which is what [str.lower] does to
    the extensions the hook declares; a letter outside ASCII is left as it
    is, where [str.lower] would lower it too. *)
Definition lower_ascii (a : ascii) : ascii :=
  let n := nat_of_ascii a in
  if Nat.leb 65 n && Nat.leb n 90 then ascii_of_nat (n + 32) else a.

Fixpoint lower (s : string) : string :=
  match s with
  | EmptyString => EmptyString
  | String a s' => String (lower_ascii a) (lower s')
  end.

(** [s.replace(old, new)] for one-character [old] and [new]. *)
Fixpoint replace (s : string) (old new : ascii) : string :=
  match s with
  | EmptyString => EmptyString
  | String a s' => String (if Ascii.eqb a old then new else a) (replace s' old new)
  end.

(** [s.rfind(c)]: the highest index of [c] in [s], or [-1]. *)
Fixpoint rfind_from (s : string) (c : ascii) (i last : Z) : Z :=
  match s with
  | EmptyString => last
  | String a s' => rfind_from s' c (i + 1) (if Ascii.eqb a c then i else last)
  end.

Definition rfind (s : string) (c : ascii) : Z := rfind_from s c 0 (-1).

(** [s[:i]] and [s[i:]] for [0 <= i]. *)
Definition slice_to (s : string) (i : Z) : string :=
  String.substring 0 (Z.to_nat i) s.
Definition slice_from (s : string) (i : Z) : string :=
  String.substring (Z.to_nat i) (String.length s - Z.to_nat i) s.

End Str.

Module OsPath.

Definition sep (p : Platform) : ascii :=
  match p with
  | Posix => "/"%char
  | Nt => "\"%char
  end.

Definition altsep (p : Platform) : option ascii :=
  match p with
  | Posix => None
  | Nt => Some "/"%char
  end.

Definition extsep : ascii := "."%char.

(** The loop of [genericpath._splitext] that skips the leading dots of the
    file name: [n] iterations remain; the answer is [true] when a character
    other than the dot stands before [dotIndex]. *)
Fixpoint name_before_dot (p : string) (filenameIndex : Z) (n : nat) : bool :=
  match n with
  | O => false
  | S n' =>
      match String.get (Z.to_nat filenameIndex) p with
      | Some a =>
          if Ascii.eqb a extsep then name_before_dot p (filenameIndex + 1) n'
          else true
      | None => true
      end
  end.

(** [genericpath._splitext(p, sep, altsep, extsep)] *)
Definition _splitext (p : string) (sep : ascii) (altsep : option ascii)
  : string * string :=
  let sepIndex := Str.rfind p sep in
  let sepIndex :=
    match altsep with
    | Some a => Z.max sepIndex (Str.rfind p a)
    | None => sepIndex
    end in
  let dotIndex := Str.rfind p extsep in
  if (dotIndex >? sepIndex)%Z then
    let filenameIndex := (sepIndex + 1)%Z in
    if name_before_dot p filenameIndex (Z.to_nat (dotIndex - filenameIndex))
    then (Str.slice_to p dotIndex, Str.slice_from p dotIndex)
    else (p, "")
  else (p, "").

(** [os.path.splitext(p)] *)
Definition splitext (pf : Platform) (p : string) : string * string :=
  _splitext p (sep pf) (altsep pf).

End OsPath.

(** * tk-multi-loader2: [tk-rumba_actions.py] *)

Module RumbaActions.

Definition RUMBA_SUPPORTED_FORMATS : list string :=
  [".rumbanode"; ".abc"; ".usd"; ".usda"; ".usdc"].

Definition RUMBA_SUPPORTED_MEDIA_FORMATS (rt : Runtime) : list string :=
  audio_formats rt ++ image_formats rt ++ video_formats rt.

(** The framework's [get_publish_path]. *)
Definition get_publish_path (sg_publish_data : PublishData) : string :=
  local_path sg_publish_data.

Definition _is_a_supported_extension (rt : Runtime) (path : string)
           (sg_publish_data : PublishData) : bool :=
  let ext := snd (OsPath.splitext (platform rt) path) in
  str_in (Str.lower ext) RUMBA_SUPPORTED_FORMATS.

Definition _is_a_supported_media_extension (rt : Runtime) (path : string)
           (sg_publish_data : PublishData) : bool :=
  let ext := snd (OsPath.splitext (platform rt) path) in
  str_in (Str.lower ext) (RUMBA_SUPPORTED_MEDIA_FORMATS rt).

Definition _reference_into_current_document (path : string)
           (sg_publish_data : PublishData) : M unit :=
  fun w =>
    match active_document w with
    | Some _ =>
        if path_exists w path then
          (log_debug "Referencing path: %s" [AStr path] ;;;
           host (ModifyBegin "Shotgun Reference File") ;;;
           host (Reference path "") ;;;
           host ModifyEnd) w
        else log_warning "Referencing path not found!: %s" [AStr path] w
    | None => (Ok tt, w)
    end.

Definition _import_into_current_document (path : string)
           (sg_publish_data : PublishData) : M unit :=
  fun w =>
    match active_document w with
    | Some _ =>
        if path_exists w path then
          (log_debug "Importing path: %s" [AStr path] ;;;
           host (ModifyBegin "Shotgun Import File") ;;;
           host (LoadNode path "") ;;;
           host ModifyEnd) w
        else log_warning "Path to import not found!: %s" [AStr path] w
    | None => (Ok tt, w)
    end.

Definition _import_media_into_new_media_layer (path : string)
           (sg_publish_data : PublishData) : M unit :=
  fun w =>
    match active_document w with
    | Some _ =>
        if path_exists w path then
          (host (ModifyBegin "Shotgun Import File") ;;;
           let layer_name := get_code sg_publish_data (basename (runtime w) path) in
           host (AddMediaLayer layer_name) ;;;
           let frame := current_frame w in
           host (GetMedia path) ;;;
           host (AddMediaClip layer_name path frame) ;;;
           host ModifyEnd) w
        else log_warning "Path to import not found!: %s" [AStr path] w
    | None => (Ok tt, w)
    end.

Definition unsupported (path : string) : exn :=
  Exception ("Unsupported file extension for '" +:+ path +:+ "'!").

Definition execute_action (name : string) (params : option string)
           (sg_publish_data : PublishData) : M unit :=
  fun w =>
    (log_debug "Execute action called for action `%s`. Parameters: %s. Publish Data: %s"
               [AStr name; AParams params; AData sg_publish_data] ;;;
     let path :=
       Str.replace (get_publish_path sg_publish_data)
                   (OsPath.sep (platform (runtime w))) "/"%char in
     log_debug "Publish path: %s" [AStr path] ;;;
     if String.eqb name "reference" then
       if negb (_is_a_supported_extension (runtime w) path sg_publish_data)
       then raise (unsupported path)
       else _reference_into_current_document path sg_publish_data
     else if String.eqb name "import" then
       if negb (_is_a_supported_extension (runtime w) path sg_publish_data)
       then raise (unsupported path)
       else _import_into_current_document path sg_publish_data
     else if String.eqb name "import_media" then
       if negb (_is_a_supported_media_extension (runtime w) path sg_publish_data)
       then raise (unsupported path)
       else _import_media_into_new_media_layer path sg_publish_data
     else ret tt) w.

Definition execute_multiple_actions (actions : list Action) : M unit :=
  for_each actions
    (fun single_action =>
       log_debug "Single Action: %s" [AAction single_action] ;;;
       let name := name single_action in
       let sg_publish_data := sg_publish_data single_action in
       let params := params single_action in
       execute_action name params sg_publish_data).

End RumbaActions.

(** * tk-multi-publish2: publish items *)

(** The values the hooks store in [item.properties]. *)
Inductive PropValue : Type :=
| PStr (s : string)
| PTemplate (t : option string)
| PNodes (l : list Node)
| PFields (f : list (string * string)).

(** A publish item: what [create_item] was given, the icon file set on
    it, and its [properties]. *)
Record PublishItem : Type := mkPublishItem {
  item_type : string;
  type_display : string;
  display_name : string;
  icon : string;
  properties : gmap string PropValue }.

Definition set_property (key : string) (v : PropValue) (item : PublishItem) : PublishItem :=
  mkPublishItem (item_type item) (type_display item) (display_name item) (icon item)
                (<[key := v]> (properties item)).

(** * [publish_base.py] *)

Module RumbaBasePublishPlugin.

Definition _session_path : M (option string) :=
  fun w =>
    let path := Some (active_document_filename w) in
    let path := if String.eqb (active_document_filename w) "untitled" then None else path in
    (Ok path, w).

Definition _get_save_as_action : M ActionButton :=
  fun w =>
    let callback := cb_save_as in
    let callback :=
      match engine_apps w !! "tk-multi-workfiles2" with
      | Some app => if show_file_save_dlg app then cb_show_file_save_dlg else callback
      | None => callback
      end in
    (Ok (mkActionButton "Save As..." "Save the current session" callback), w).

Definition error_msg : string :=
  "The Rumba session has not been saved. Please save your session before publishing.".

(** The item is changed in place; the result carries it back. *)
Definition session_validate (item : PublishItem) : M (bool * PublishItem) :=
  session_path <-- _session_path ;;
  if negb (truthy_opt session_path) then
    action <-- _get_save_as_action ;;
    emit Error error_msg [] (Some action) ;;;
    raise (Exception error_msg)
  else
    fun w =>
      let session_path := normalize (runtime w) (default "" session_path) in
      (Ok (true, set_property "path" (PStr session_path) item), w).

End RumbaBasePublishPlugin.

(** * [collector.py] *)

Module RumbaSessionCollector.

Definition _session_path : M (option string) := RumbaBasePublishPlugin._session_path.

(** [\w] with [re.UNICODE]: an alphanumeric character or the underscore. *)
Definition is_word (rt : Runtime) (c : string) : bool :=
  isalnum rt c || String.eqb c "_".

(** The class [[\W_]]. *)
Definition non_word_or_underscore (rt : Runtime) (c : string) : bool :=
  negb (is_word rt c) || String.eqb c "_".

(** [re.compile("[...]+").sub(repl, s)] for a character class [cls], on
    the characters of [s]: every maximal run of characters of the class is
    replaced by [repl]; [in_run] tells that the previous character belonged
    to the class. *)
Fixpoint sub_runs (cls : string -> bool) (repl : string) (in_run : bool)
         (cs : list string) : string :=
  match cs with
  | [] => EmptyString
  | c :: cs' =>
      if cls c then
        (if in_run then "" else repl) +:+ sub_runs cls repl true cs'
      else c +:+ sub_runs cls repl false cs'
  end.

(** [re.compile(r"[\W_]+", re.UNICODE).sub(repl, s)] *)
Definition alphanumeric_sub (rt : Runtime) (repl s : string) : string :=
  sub_runs (non_word_or_underscore rt) repl false (Utf8.chars s).

(** [parent_item.create_item(item_type, type_display, display_name)] *)
Definition create_item (item_type type_display display_name : string) : PublishItem :=
  mkPublishItem item_type type_display display_name "" ∅.

(** [item.set_icon_from_path(os.path.join(disk_location, os.pardir, "icons", file))]:
    the item keeps the name of the icon file. *)
Definition set_icon (file : string) (item : PublishItem) : PublishItem :=
  mkPublishItem (item_type item) (type_display item) (display_name item) file
                (properties item).

(** [for asset_name, nodes in by_asset_node.items(): ... items.append(item)] *)
Fixpoint for_items (body : string -> list Node -> M PublishItem)
         (by_asset_node : list (string * list Node)) (items : list PublishItem)
  : M (list PublishItem) :=
  match by_asset_node with
  | [] => ret items
  | (asset_name, nodes) :: rest =>
      item <-- body asset_name nodes ;;
      for_items body rest (items ++ [item])
  end.

(** In the three collectors, [work_template_setting] is
    [settings.get("Work Template")]: [None] when the setting is absent, its
    value otherwise; [by_asset_node] is what
    [find_geometry_nodes_by_asset()] returned, in the order of [items()].
    The result is [None] when there is no session path. *)
Definition collect_rumba_fbx_assets (work_template_setting : option (option string))
           (by_asset_node : list (string * list Node))
  : M (option (list PublishItem)) :=
  path <-- _session_path ;;
  if negb (truthy_opt path) then ret None
  else
    items <-- for_items
      (fun asset_name nodes w =>
         let asset_name := alphanumeric_sub (runtime w) "" asset_name in
         let display_name := asset_name +:+ " FBX Animation" in
         let item := create_item "rumba.animation.fbx" "FBX File" display_name in
         let item := set_icon "fbx.png" item in
         let item :=
           match work_template_setting with
           | Some value =>
               let work_template := get_template_by_name (runtime w) value in
               set_property "publish_type" (PStr "FBX File")
                 (set_property "work_template" (PTemplate work_template) item)
           | None => item
           end in
         let item := set_property "nodes" (PNodes nodes) item in
         let item := set_property "extra_fields" (PFields [("name", asset_name)]) item in
         (emit Info "Asset '%s' collected for FBX publishings" [AStr asset_name] None ;;;
          ret item) w)
      by_asset_node [] ;;
    ret (Some items).

Definition collect_rumba_usd_assets (work_template_setting : option (option string))
           (by_asset_node : list (string * list Node))
  : M (option (list PublishItem)) :=
  path <-- _session_path ;;
  if negb (truthy_opt path) then ret None
  else
    items <-- for_items
      (fun asset_name nodes w =>
         let asset_name := alphanumeric_sub (runtime w) "" asset_name in
         let display_name := asset_name +:+ " USD File" in
         let item := create_item "rumba.animation.usd" "USD File" display_name in
         let item := set_icon "usd.png" item in
         let item :=
           match work_template_setting with
           | Some value =>
               let work_template := get_template_by_name (runtime w) value in
               set_property "publish_type" (PStr "USD File")
                 (set_property "work_template" (PTemplate work_template) item)
           | None => item
           end in
         let item := set_property "nodes" (PNodes nodes) item in
         let item := set_property "extra_fields" (PFields [("name", asset_name)]) item in
         (emit Info "Asset '%s' collected for USD publishings" [AStr asset_name] None ;;;
          ret item) w)
      by_asset_node [] ;;
    ret (Some items).

Definition collect_rumba_abc_assets (work_template_setting : option (option string))
           (by_asset_node : list (string * list Node))
  : M (option (list PublishItem)) :=
  path <-- _session_path ;;
  if negb (truthy_opt path) then ret None
  else
    items <-- for_items
      (fun asset_name nodes w =>
         let asset_name := alphanumeric_sub (runtime w) "" asset_name in
         let display_name := asset_name +:+ " Alembic Cache" in
         let item :=
           create_item "rumba.animation.alembic_cache" "Alembic Cache" display_name in
         let item := set_icon "alembic.png" item in
         let item :=
           match work_template_setting with
           | Some value =>
               let work_template := get_template_by_name (runtime w) value in
               set_property "publish_type" (PStr "Alembic Cache")
                 (set_property "work_template" (PTemplate work_template) item)
           | None => item
           end in
         let item := set_property "nodes" (PNodes nodes) item in
         let item := set_property "extra_fields" (PFields [("name", asset_name)]) item in
         (emit Info "Asset '%s' collected for Alembic Cache publishings"
               [AStr asset_name] None ;;;
          ret item) w)
      by_asset_node [] ;;
    ret (Some items).

(** The [name] stored in the [extra_fields] of an item. *)
Definition extra_name (item : PublishItem) : option string :=
  match properties item !! "extra_fields" with
  | Some (PFields [(k, v)]) => if String.eqb k "name" then Some v else None
  | _ => None
  end.

End RumbaSessionCollector.

(** * Vocabulary of the properties *)

Module LoaderSpec.
Import RumbaActions.

(** The path [execute_action] works on: the publish path with the
    platform separator replaced by a slash. *)
Definition resolved_path (rt : Runtime) (sg_publish_data : PublishData) : string :=
  Str.replace (get_publish_path sg_publish_data) (OsPath.sep (platform rt)) "/"%char.

(** The lowercased extension of that path. *)
Definition extension (rt : Runtime) (sg_publish_data : PublishData) : string :=
  Str.lower (snd (OsPath.splitext (platform rt) (resolved_path rt sg_publish_data))).

(** The format list declared for an action. *)
Definition formats_for (rt : Runtime) (name : string) : list string :=
  if String.eqb name "import_media" then RUMBA_SUPPORTED_MEDIA_FORMATS rt
  else RUMBA_SUPPORTED_FORMATS.

(** The operation behind an action. *)
Definition operation (name : string) : string -> PublishData -> M unit :=
  if String.eqb name "reference" then _reference_into_current_document
  else if String.eqb name "import" then _import_into_current_document
  else _import_media_into_new_media_layer.

(** The world in which the operation, or the raise, takes place: the two
    debug records have been written. *)
Definition announced (name : string) (params : option string)
           (sg_publish_data : PublishData) (w : World) : World :=
  add_log (mkLog Debug "Publish path: %s"
                 [AStr (resolved_path (runtime w) sg_publish_data)] None)
    (add_log (mkLog Debug
                "Execute action called for action `%s`. Parameters: %s. Publish Data: %s"
                [AStr name; AParams params; AData sg_publish_data] None) w).

(** The actions [execute_multiple_actions] has dispatched, read off the
    debug records it writes before each dispatch. *)
Definition dispatched_by (r : LogRecord) : list Action :=
  if String.eqb (fmt r) "Single Action: %s" then
    match args r with
    | [AAction a] => [a]
    | _ => []
    end
  else [].

Definition dispatched (l : list LogRecord) : list Action := flat_map dispatched_by l.

Definition single_action_record (a : Action) : LogRecord :=
  mkLog Debug "Single Action: %s" [AAction a] None.

(** One dispatch: the record of the action is written and
    [execute_action] is called on its entries. *)
Definition dispatch (a : Action) (w : World) : result unit * World :=
  execute_action (name a) (params a) (sg_publish_data a)
                 (add_log (single_action_record a) w).

(** The world after the actions of [l] have been executed one by one in
    list order, each in the world the one before it left. *)
Fixpoint executed (l : list Action) (w : World) : World :=
  match l with
  | [] => w
  | a :: l' => executed l' (snd (dispatch a w))
  end.

(** Every action of [l] returns when its turn comes. *)
Fixpoint all_return (l : list Action) (w : World) : Prop :=
  match l with
  | [] => True
  | a :: l' => fst (dispatch a w) = Ok tt /\ all_return l' (snd (dispatch a w))
  end.

End LoaderSpec.

Module Brackets.

Definition is_bracket (c : HostCall) : bool :=
  match c with
  | ModifyBegin _ | ModifyEnd => true
  | _ => false
  end.

(** Every call that is not a bracket call comes after a [modify_begin]
    and before a [modify_end]. *)
Definition between_begin_and_end (calls : list HostCall) : Prop :=
  forall pre c post,
    calls = pre ++ c :: post -> is_bracket c = false ->
    (exists label, In (ModifyBegin label) pre) /\ In ModifyEnd post.

(** Every call that is not a bracket call comes after a [modify_begin]
    that no [modify_end] has closed yet. *)
Definition inside_open_bracket (calls : list HostCall) : Prop :=
  forall pre c post,
    calls = pre ++ c :: post -> is_bracket c = false ->
    (exists label, In (ModifyBegin label) pre) /\ ~ In ModifyEnd pre.

(** The adapters that change the active document. *)
Inductive Adapter : Type :=
| Update (items : list scene_dict)
| SetFrameRange (in_frame out_frame : value)
| ReferenceFile (path : string) (sg_publish_data : PublishData)
| ImportFile (path : string) (sg_publish_data : PublishData)
| ImportMedia (path : string) (sg_publish_data : PublishData).

Definition run (a : Adapter) : M unit :=
  match a with
  | Update items => Breakdown.update items
  | SetFrameRange in_frame out_frame => FrameOperation.set_frame_range in_frame out_frame
  | ReferenceFile path d => RumbaActions._reference_into_current_document path d
  | ImportFile path d => RumbaActions._import_into_current_document path d
  | ImportMedia path d => RumbaActions._import_media_into_new_media_layer path d
  end.

Definition plain (calls : list HostCall) : Prop :=
  Forall (fun c => is_bracket c = false) calls.

(** A computation that adds no bracket call to the journal. *)
Definition quiet {A} (m : M A) : Prop :=
  forall w, exists calls, journal (snd (m w)) = journal w ++ calls /\ plain calls.

(** The calls of one run: none, or a [modify_begin], calls that are no
    bracket calls and, when the run returned, the [modify_end]. *)
Definition shape (returned : bool) (calls : list HostCall) : Prop :=
  calls = [] \/
  exists label muts,
    plain muts /\
    calls = ModifyBegin label :: muts ++ (if returned then [ModifyEnd] else []).

Definition returned {A} (r : result A) : bool :=
  match r with
  | Ok _ => true
  | Raise _ => false
  end.

End Brackets.

Module PublishSpec.

(** The record [session_validate] logs for an unsaved session. *)
Definition unsaved_record (w : World) : LogRecord :=
  mkLog Error RumbaBasePublishPlugin.error_msg []
        (Some (mkActionButton "Save As..." "Save the current session"
                 (match engine_apps w !! "tk-multi-workfiles2" with
                  | Some app => if show_file_save_dlg app then cb_show_file_save_dlg
                                else cb_save_as
                  | None => cb_save_as
                  end))).

Definition raises {A} (r : result A * World) : Prop :=
  exists e, fst r = Raise e.

(** The session has no path: the document is untitled, or its filename
    is empty. *)
Definition unsaved (w : World) : bool :=
  String.eqb (active_document_filename w) "untitled"
  || String.eqb (active_document_filename w) "".

End PublishSpec.

Module CollectorSpec.

(** A sequence: a byte, and no more bytes after it than the byte asks
    for; it is complete when it has them all. *)
Definition sequence (c : string) : Prop :=
  match c with
  | String a k => String.length k <= Utf8.width a - 1
  | EmptyString => False
  end.

Definition complete (c : string) : Prop :=
  match c with
  | String a k => String.length k = Utf8.width a - 1
  | EmptyString => False
  end.

(** A list of sequences of which only the last may lack bytes. *)
Fixpoint segmented (l : list string) : Prop :=
  match l with
  | [] => True
  | c :: l' =>
      match l' with
      | [] => sequence c
      | _ :: _ => complete c /\ segmented l'
      end
  end.

(** The characters that stay: the alphanumeric ones, the underscore
    apart. *)
Definition stays (rt : Runtime) (c : string) : bool :=
  isalnum rt c && negb (String.eqb c "_").

(** The characters of [s] that are alphanumeric, in order. *)
Definition keep_alnum (rt : Runtime) (s : string) : string :=
  Utf8.join (List.filter (stays rt) (Utf8.chars s)).

(** Every character of [s] is in the class [p]. *)
Definition all_chars (p : string -> bool) (s : string) : bool :=
  forallb p (Utf8.chars s).

(** A loop body that stores the sanitized name and only writes the log. *)
Definition names_asset (body : string -> list Node -> M PublishItem) : Prop :=
  forall asset_name nodes w,
  exists item w',
    body asset_name nodes w = (Ok item, w') /\
    runtime w' = runtime w /\
    RumbaSessionCollector.extra_name item = Some (keep_alnum (runtime w) asset_name).

(** What a per-asset collector does with the asset names: without a
    session path it returns [None]; otherwise it returns one item per
    asset, in order, whose [extra_fields] hold under [name] the asset name
    with everything but its alphanumeric characters removed. *)
Definition stores_alphanumeric_names
           (collect : option (option string) -> list (string * list Node)
                      -> M (option (list PublishItem))) : Prop :=
  forall work_template_setting by_asset_node w,
  exists r w',
    collect work_template_setting by_asset_node w = (Ok r, w') /\
    if PublishSpec.unsaved w then r = None
    else
      exists items,
        r = Some items /\
        map RumbaSessionCollector.extra_name items
        = map (fun an => Some (keep_alnum (runtime w) (fst an))) by_asset_node /\
        Forall (fun item =>
                  exists s, RumbaSessionCollector.extra_name item = Some s /\
                            all_chars (isalnum (runtime w)) s = true) items.

End CollectorSpec.

(** ** Sample scenes *)

Module Scenes.

Definition document_of (cs : list Node) : Document :=
  mkDocument (mkNode "" "Document" "" ∅ cs) 1 100 1 100.

(** The ASCII letters and digits. *)
Definition ascii_isalnum (a : ascii) : bool :=
  let n := nat_of_ascii a in
  (Nat.leb 48 n && Nat.leb n 57) || (Nat.leb 65 n && Nat.leb n 90)
  || (Nat.leb 97 n && Nat.leb n 122).

(** The alphanumeric characters up to U+00FF, as [str.isalnum] and [\w]
    have them: the ASCII ones, the letters of Latin-1 (all of U+00C0 to
    U+00FF but the signs U+00D7 and U+00F7), and U+00AA, U+00B2, U+00B3,
    U+00B5, U+00B9, U+00BA, U+00BC, U+00BD and U+00BE.  The characters
    above U+00FF are outside the class of this sample. *)
Definition latin1_isalnum (c : string) : bool :=
  match c with
  | String a EmptyString => ascii_isalnum a
  | String a (String b EmptyString) =>
      let n := nat_of_ascii b in
      if Nat.eqb (nat_of_ascii a) 195 then
        Nat.leb 128 n && Nat.leb n 191 && negb (Nat.eqb n 151) && negb (Nat.eqb n 183)
      else if Nat.eqb (nat_of_ascii a) 194 then
        existsb (Nat.eqb n) [170; 178; 179; 181; 185; 186; 188; 189; 190]
      else false
  | _ => false
  end.

Definition posix : Runtime :=
  mkRuntime Posix (fun p => p) [".wav"; ".mp3"] [".png"; ".jpg"] [".mov"; ".mp4"]
            (fun p => p) (fun _ => None) latin1_isalnum.

Definition world_of (d : option Document) (filename : string) : World :=
  mkWorld posix d filename 1 (fun _ => true) ∅ [] [].

(** A referenced asset holding a USD stage and an unreferenced group. *)
Definition stage : Node :=
  mkNode "hero/stage" "UsdAsset" "" {[ "file_path" := "/assets/hero.usd" ]} [].
Definition hero : Node :=
  mkNode "hero" "Asset" "/assets/hero.rumbanode" ∅ [stage].
Definition clip : Node :=
  mkNode "clip" "Media" "" {[ "file" := "/media/clip.mov" ]} [].
Definition group : Node :=
  mkNode "group" "Node" "" ∅ [clip].
Definition shot : Document := document_of [hero; group].

(** A [UsdAsset] node that is itself the root of a reference. *)
Definition prop_node : Node :=
  mkNode "prop" "UsdAsset" "/assets/prop.rumbanode"
         {[ "file_path" := "/assets/prop.usd" ]} [].
Definition prop_scene : Document := document_of [prop_node].

(** A batch for the loader: a USD reference, a text file to import, an
    Alembic reference. *)
Definition load_usd : Action :=
  mkAction "reference" (mkPublishData "/publish/hero.usd" (Some (Some "hero"))) None.
Definition load_txt : Action :=
  mkAction "import" (mkPublishData "/publish/notes.txt" None) None.
Definition load_abc : Action :=
  mkAction "reference" (mkPublishData "/publish/hero.ABC" None) None.

Definition studio : World := world_of (Some shot) "shot.rumba".

(** Update items of which the second names a node the document no longer
    has. *)
Definition ghost : Node :=
  mkNode "ghost" "Asset" "/assets/ghost_v001.rumbanode" ∅ [].
Definition stale_items : list scene_dict :=
  [ Breakdown.ref_entry hero "/assets/hero_v002.rumbanode";
    Breakdown.ref_entry ghost "/assets/ghost_v002.rumbanode" ].

End Scenes.

(** * Further vocabulary: what a write leaves alone *)

Module BreakdownViews.
Import Breakdown BreakdownSpec.

(** The file path every node below the document resolves to. *)
Definition file_view (n : Node) : string * result (option string) :=
  (full_document_name n, get_node_file_path n).

Definition file_paths (d : Document) : list (string * result (option string)) :=
  map file_view (descendants d).

(** The same, with the path [p] for the node named [target]. *)
Definition repathed (target p : string) (d : Document)
  : list (string * result (option string)) :=
  map (fun m => if named target m then (full_document_name m, Ok (Some p))
                else file_view m)
      (descendants d).

(** The host call behind [set_node_file_path] for a node of a file type. *)
Definition write_call (n : Node) (p : string) : HostCall :=
  if str_in (type_name n) ["Asset"] then ReplaceReference (full_document_name n) p
  else if str_in (type_name n) ["UsdAsset"]
       then SetValue (full_document_name n) "file_path" p
       else SetValue (full_document_name n) "file" p.

Definition names (l : list Node) : list string := map full_document_name l.

(** What is seen of the node [m] after a write of [f] at the handle
    [target], when [g] is what one looks at. *)
Definition rewritten {K} (g : Node -> K) (f : Node -> Node) (target : string)
           (m : Node) : K :=
  if named target m then g (f m) else g m.

(** The outcome of a write on the nodes [before]: it reaches the name
    or not; when it does, only the node of that name is seen changed. *)
Definition written {K} (g : Node -> K) (f : Node -> Node) (target : string)
           (before : list Node) (after : option (list Node)) : Prop :=
  match after with
  | Some l => In target (names before) /\ map g l = map (rewritten g f target) before
  | None => ~ In target (names before)
  end.

(** What an item asks for: the name of its node and its path. *)
Definition item_target (i : scene_dict) : option (string * string) :=
  match getitem i "path", getitem i "node" with
  | Ok p, Ok (VItem it) => Some (node it, str_of p)
  | _, _ => None
  end.

(** A host call that writes the path of one of the items to the node that
    item names, as a reference or under one of the two file plugs. *)
Definition asked (items : list scene_dict) (c : HostCall) : Prop :=
  match c with
  | ReplaceReference n p => In (Some (n, p)) (map item_target items)
  | SetValue n plug_name p =>
      (plug_name = "file_path" \/ plug_name = "file") /\
      In (Some (n, p)) (map item_target items)
  | _ => False
  end.

(** A computation whose host calls are writes that [items] ask for, at
    most [k] of them. *)
Definition writes_at_most (items : list scene_dict) (k : nat) {A} (m : M A) : Prop :=
  forall w,
  exists calls,
    journal (snd (m w)) = journal w ++ calls /\
    length calls <= k /\
    Forall (asked items) calls.

End BreakdownViews.

(** * tk-multi-loader2, continued: [generate_actions] *)

Module LoaderMenu.

(** One entry of the list [generate_actions] returns. *)
Record ActionInstance : Type := mkInstance {
  name : string;
  params : option string;
  caption : string;
  description : string }.

(** The value [generate_actions] returns; [actions] is the list of action
    names of the configuration.  The debug record the method writes first
    takes no part in the result. *)
Definition generate_actions (sg_publish_data : PublishData) (actions : list string)
           (ui_area : string) : list ActionInstance :=
  let action_instances := [] in
  let action_instances :=
    if str_in "reference" actions then
      action_instances
      ++ [ mkInstance "reference" None "Reference into the current Document"
                      "This file will be referenced into the current Document" ]
    else action_instances in
  let action_instances :=
    if str_in "import" actions then
      action_instances
      ++ [ mkInstance "import" None "Import into the current Document"
                      "This file will be imported into the current Document" ]
    else action_instances in
  let action_instances :=
    if str_in "import_media" actions then
      action_instances
      ++ [ mkInstance "import_media" None "Import media into the current Session"
                      "This file will be imported as a media into the current session" ]
    else action_instances in
  action_instances.

End LoaderMenu.

Module LoaderSpec2.
Import RumbaActions LoaderSpec.

Definition known_actions : list string := ["reference"; "import"; "import_media"].

(** [execute_action] gets as far as the host: the action is one of the
    three, the extension is supported, there is an active document and the
    file is on disk. *)
Definition performs (w : World) (name : string) (d : PublishData) : bool :=
  str_in name known_actions
  && str_in (extension (runtime w) d) (formats_for (runtime w) name)
  && match active_document w with Some _ => true | None => false end
  && path_exists w (resolved_path (runtime w) d).

(** There is a document, but the file of a known action is not on disk. *)
Definition misses (w : World) (name : string) (d : PublishData) : bool :=
  str_in name known_actions
  && match active_document w with Some _ => true | None => false end
  && negb (path_exists w (resolved_path (runtime w) d)).

(** The records written since the two that announce the call. *)
Definition said (name : string) (params : option string) (d : PublishData)
           (w w' : World) : list LogRecord :=
  skipn (length (log (announced name params d w))) (log w').

(** A studio in which no file is on disk. *)
Definition empty_disk : World :=
  mkWorld Scenes.posix (Some Scenes.shot) "shot.rumba" 1 (fun _ => false) ∅ [] [].

(** The action is one [execute_action] refuses: one of the three, with an
    extension outside its format list. *)
Definition refused (rt : Runtime) (a : Action) : bool :=
  str_in (name a) known_actions
  && negb (str_in (extension rt (sg_publish_data a)) (formats_for rt (name a))).

(** [s] ends with [suffix]. *)
Definition ends_with (s suffix : string) : Prop :=
  exists stem, s = stem +:+ suffix.

End LoaderSpec2.

(** * tk-multi-publish2, continued *)

(** A publish plugin fails with a Python exception or with the
    framework's [TankError]. *)
Inductive failure : Type :=
| Python (e : exn)
| TankError (msg : string).

Inductive outcome (A : Type) : Type :=
| Returned (a : A)
| Failed (f : failure).
Arguments Returned {A} a.
Arguments Failed {A} f.

(** Truth value of a property value; a template object is true. *)
Definition prop_truthy (v : PropValue) : bool :=
  match v with
  | PStr s => truthy s
  | PTemplate t => match t with Some _ => true | None => false end
  | PNodes l => match l with [] => false | _ => true end
  | PFields f => match f with [] => false | _ => true end
  end.

(** * [publish_session.py] *)

Module RumbaSessionPublishPlugin.

Definition _session_path : M (option string) :=
  fun w =>
    let path := Some (active_document_filename w) in
    let path := if String.eqb (active_document_filename w) "untitled" then None else path in
    (Ok path, w).

Definition _get_save_as_action : M ActionButton :=
  fun w =>
    let callback := cb_save_as in
    let callback :=
      match engine_apps w !! "tk-multi-workfiles2" with
      | Some app => if show_file_save_dlg app then cb_show_file_save_dlg else callback
      | None => callback
      end in
    (Ok (mkActionButton "Save As..." "Save the current session" callback), w).

(** The method returns [None]; the item is changed in place and handed
    back with the result. *)
Definition session_validate (item : PublishItem) : M (unit * PublishItem) :=
  session_path <-- _session_path ;;
  if negb (truthy_opt session_path) then
    let error_msg :=
      "The Rumba session has not been saved. Please save your session before publishing." in
    action <-- _get_save_as_action ;;
    emit Error error_msg [] (Some action) ;;;
    raise (Exception error_msg)
  else
    fun w =>
      let session_path := normalize (runtime w) (default "" session_path) in
      let item := set_property "path" (PStr session_path) item in
      (emit Debug "Session Path: %s " [AStr session_path] None ;;; ret (tt, item)) w.

(** [get_publish_template(settings, item)]: [publish_template_setting] is
    [settings.get("Publish Template")], [None] when the setting is absent
    and its value otherwise.  The result is the value returned, which is
    [None] when no template is configured, and the item, changed in place. *)
Definition get_publish_template (rt : Runtime)
           (publish_template_setting : option (option string)) (item : PublishItem)
  : outcome (option PropValue * PublishItem) :=
  let cached := properties item !! "publish_template" in
  if match cached with Some v => prop_truthy v | None => false end
  then Returned (cached, item)
  else
    let configured :=
      match publish_template_setting with
      | Some (Some value) => if truthy value then Some value else None
      | _ => None
      end in
    match configured with
    | Some value =>
        match get_template_by_name rt (Some value) with
        | Some t =>
            Returned (Some (PTemplate (Some t)),
                      set_property "publish_template" (PTemplate (Some t)) item)
        | None =>
            Failed (TankError ("Missing Publish Template in templates.yml: "
                                 +:+ value +:+ " "))
        end
    | None =>
        Returned (None, set_property "publish_template" (PTemplate None) item)
    end.




End RumbaSessionPublishPlugin.

(** * [collector.py], continued: visible geometry by asset *)

Module Geometry.

(** A node handle that knows where it hangs: the node and the nodes above
    it, the nearest first; the last one is the document. *)
Record Placed : Type := mkPlaced {
  here : Node;
  above : list Node }.

(** [node.children()] *)
Definition placed_children (pl : Placed) : list Placed :=
  map (fun c => mkPlaced c (here pl :: above pl)) (children (here pl)).

(** The handles of a hierarchy in depth-first order. *)
Fixpoint placed_preorder (up : list Node) (n : Node) : list Placed :=
  mkPlaced n up :: flat_map (placed_preorder (n :: up)) (children n).

(** [all_ascendants(node, result)]: [node.parent()] raises [RuntimeError]
    on the document, which ends the climb. *)
Fixpoint climb (up : list Node) (result : list Placed) : list Placed :=
  match up with
  | [] => result
  | parent :: up' => climb up' (result ++ [mkPlaced parent up'])
  end.

Definition all_ascendants (pl : Placed) (result : list Placed) : list Placed :=
  climb (above pl) result.

(** [find_nodes_with_plug] of this file, on handles. *)
Fixpoint walk_with_plug (up : list Node) (n : Node) (plug_name : string)
         (type_names : option (list string)) (results : list Placed) : list Placed :=
  let results :=
    if has_plug n plug_name then
      if Breakdown.type_filter type_names n then results ++ [mkPlaced n up] else results
    else results in
  fold_left
    (fun results child_node =>
       walk_with_plug (n :: up) child_node plug_name type_names results)
    (children n) results.

Definition find_nodes_with_plug (pl : Placed) (plug_name : string)
           (type_names : option (list string)) (results : list Placed) : list Placed :=
  walk_with_plug (above pl) (here pl) plug_name type_names results.

Section Plugs.
(** [plug.as_bool()], on the value the plug holds. *)
Variable as_bool : string -> bool.

(** The loop of [is_node_visible]. *)
Fixpoint all_shown (nodes : list Placed) : bool :=
match nodes with
| [] => true
| pl :: nodes' =>
    match plugs (here pl) !! "show" with
    | Some v => if negb (as_bool v) then false else all_shown nodes'
    | None => all_shown nodes'
    end
end.

Definition is_node_visible (pl : Placed) : bool :=
let nodes := [pl] ++ all_ascendants pl [] in
all_shown nodes.

(** [by_asset_node[pname].append(node)], after the key was added with an
  empty list if it was new. *)
Fixpoint file_under (by_asset_node : list (string * list Placed)) (pname : string)
       (pl : Placed) : list (string * list Placed) :=
match by_asset_node with
| [] => [(pname, [pl])]
| (k, l) :: rest =>
    if String.eqb k pname then (k, l ++ [pl]) :: rest
    else (k, l) :: file_under rest pname pl
end.

(** The inner loop: the first [Asset] among the ascendants decides. *)
Fixpoint file_by_first_asset (ascendants : list Placed) (pl : Placed)
       (by_asset_node : list (string * list Placed))
: result (list (string * list Placed)) :=
match ascendants with
| [] => Ok by_asset_node
| p :: ascendants' =>
    if String.eqb (type_name (here p)) "Asset" then
      match plugs (here p) !! "asset_name" with
      | Some pname => Ok (file_under by_asset_node pname pl)
      | None => Raise (AttributeError "asset_name")
      end
    else file_by_first_asset ascendants' pl by_asset_node
end.

(** The outer loop. *)
Fixpoint file_all (nodes : list Placed) (by_asset_node : list (string * list Placed))
: result (list (string * list Placed)) :=
match nodes with
| [] => Ok by_asset_node
| pl :: nodes' =>
    match file_by_first_asset (all_ascendants pl []) pl by_asset_node with
    | Ok by_asset_node' => file_all nodes' by_asset_node'
    | Raise e => Raise e
    end
end.

(** The visible geometry of the document. *)
Definition visible_geometry (d : Document) : list Placed :=
let nodes := find_nodes_with_plug (mkPlaced (doc_node d) []) "show" (Some ["Geometry"]) [] in
List.filter is_node_visible nodes.

Definition find_geometry_nodes_by_asset (w : World)
: result (list (string * list Placed)) :=
match active_document w with
| Some active_document => file_all (visible_geometry active_document) []
| None => Raise (AttributeError "has_plug")
end.

End Plugs.

End Geometry.

Module GeometrySpec.
Import Geometry.

(** A node and the nodes above it are shown: none has a [show] plug that
    is off. *)
Definition shown (as_bool : string -> bool) (n : Node) : bool :=
  match plugs n !! "show" with
  | Some v => as_bool v
  | None => true
  end.

(** The geometry that is sorted, said without the walk: the handles, in
    depth-first order, of the nodes of type [Geometry] that have a [show]
    plug and are shown, they and every node above them.  A [Geometry] node
    without the plug is not among them. *)
Definition shown_geometry (as_bool : string -> bool) (d : Document) : list Placed :=
  List.filter
    (fun pl => has_plug (here pl) "show"
               && String.eqb (type_name (here pl)) "Geometry"
               && forallb (shown as_bool) (here pl :: above pl))
    (placed_preorder [] (doc_node d)).

(** The nearest [Asset] above a handle. *)
Definition first_asset (pl : Placed) : option Node :=
  List.find (fun p => String.eqb (type_name p) "Asset") (above pl).

(** The name under which a handle is filed: the [asset_name] of the nearest
    [Asset] above it. *)
Definition filed_under (pl : Placed) : option string :=
  match first_asset pl with
  | Some a => plugs a !! "asset_name"
  | None => None
  end.

(** [by_asset_node.get(key)] *)
Fixpoint group (by_asset_node : list (string * list Placed)) (key : string)
  : option (list Placed) :=
  match by_asset_node with
  | [] => None
  | (k, l) :: rest => if String.eqb k key then Some l else group rest key
  end.

(** The handles of [nodes] that are filed under [key], in order. *)
Definition members (nodes : list Placed) (key : string) : list Placed :=
  List.filter
    (fun pl => match filed_under pl with
               | Some k => String.eqb k key
               | None => false
               end) nodes.

(** Every [Asset] above a handle of [nodes] has an [asset_name] plug, at
    least the nearest one. *)
Definition assets_named (nodes : list Placed) : Prop :=
  Forall (fun pl => match first_asset pl with
                    | Some a => is_Some (plugs a !! "asset_name")
                    | None => True
                    end) nodes.

(** The dictionary [d] sorts exactly [nodes]: its keys are distinct, no
    list is empty, and the list of a key holds the handles filed under it,
    in their order. *)
Definition sorts (d : list (string * list Placed)) (nodes : list Placed) : Prop :=
  List.NoDup (map fst d) /\
  forall key,
    match group d key with
    | Some l => l <> [] /\ l = members nodes key
    | None => members nodes key = []
    end.

End GeometrySpec.

(** * [collector.py], continued: [process_current_session] *)

Module Session.
Import RumbaSessionCollector.

(** A selected node, as [collect_rumba_selection_as_nodes] looks at it:
    [name()], [is_referenced()] and [full_document_name()]. *)
Record Selected : Type := mkSelected {
  sel_name : string;
  sel_is_referenced : bool;
  sel_full_document_name : string }.

(** The settings of the collector: [settings.get("Work Template")], [None]
    when absent and its value otherwise, and the value of
    ["Collect Individual Assets"]. *)
Record Settings : Type := mkSettings {
  work_template_setting : option (option string);
  collect_individual_assets : bool }.

Section Framework.
(** [plug.as_bool()] on the value of a plug. *)
Variable as_bool : string -> bool.
(** [publisher.util.get_file_path_components(path)["filename"]] *)
Variable filename_of : string -> string.
(** [sgtk.util.filesystem.create_valid_filename] *)
Variable create_valid_filename : string -> string.
(** [rumba.selection()] *)
Variable selection : list Selected.

(** The lines every collector has: the work template and the publish type
    are stored when the setting is there. *)
Definition with_work_template (rt : Runtime) (setting : option (option string))
           (publish_type : string) (item : PublishItem) : PublishItem :=
  match setting with
  | Some value =>
      let work_template := get_template_by_name rt value in
      set_property "publish_type" (PStr publish_type)
        (set_property "work_template" (PTemplate work_template) item)
  | None => item
  end.

Definition collect_current_rumba_session (settings : Settings) : M (option PublishItem) :=
  path <-- _session_path ;;
  if negb (truthy_opt path) then ret None
  else
    fun w =>
      let display_name := filename_of (default "" path) in
      let session_item := create_item "rumba.session" "Rumba Document" display_name in
      let session_item := set_icon "rumba.png" session_item in
      let session_item :=
        with_work_template (runtime w) (work_template_setting settings)
                           "Rumba Document" session_item in
      ((match work_template_setting settings with
        | Some _ => emit Debug "Work template defined for Rumba collection." [] None
        | None => ret tt
        end) ;;;
       emit Info "Collected current Rumba scene" [] None ;;;
       ret (Some session_item)) w.

(** The three collectors of the whole scene differ in their constants. *)
Definition collect_scene (item_type type_display display_name icon_file message : string)
           (settings : Settings) : M (option PublishItem) :=
  path <-- _session_path ;;
  if negb (truthy_opt path) then ret None
  else
    fun w =>
      let item := create_item item_type type_display display_name in
      let item := set_icon icon_file item in
      let item :=
        with_work_template (runtime w) (work_template_setting settings) type_display item in
      (emit Info message [] None ;;; ret (Some item)) w.

Definition collect_rumba_usd_scene : Settings -> M (option PublishItem) :=
  collect_scene "rumba.animation.usd" "USD File" "Scene as USD" "usd.png"
                "Collected Rumba scene as USD for publishing.".

Definition collect_rumba_fbx_scene : Settings -> M (option PublishItem) :=
  collect_scene "rumba.animation.fbx" "FBX File" "Scene Animation as FBX" "fbx.png"
                "Collected Rumba animation as FBX for publishing.".

Definition collect_rumba_abc_scene : Settings -> M (option PublishItem) :=
  collect_scene "rumba.animation.alembic_cache" "Alembic Cache" "Scene Alembic Cache"
                "alembic.png"
                "Collected Rumba animation as Alembic Cache for publishing.".

Definition collect_rumba_selection_as_nodes (settings : Settings)
  : M (option PublishItem) :=
  path <-- _session_path ;;
  if negb (truthy_opt path) then ret None
  else
    match selection with
    | [] => ret None
    | node :: _ =>
        if sel_is_referenced node then
          emit Warning
               "Exporting of reference nodes is not supported in Rumba at the moment. The selected node `%s` won't be added for publishing."
               [AStr (sel_name node)] None ;;;
          ret None
        else
          fun w =>
            let node_name := create_valid_filename (sel_name node) in
            let display_name := "Node: `" +:+ sel_name node +:+ "`" in
            let item := create_item "rumba.node" "Rumba Node" display_name in
            let item := set_icon "rumbanode.png" item in
            let item :=
              match work_template_setting settings with
              | Some value =>
                  let work_template := get_template_by_name (runtime w) value in
                  set_property "extra_fields" (PFields [("rumba.node.name", node_name)])
                    (set_property "node_full_document_name"
                       (PStr (sel_full_document_name node))
                       (set_property "publish_type" (PStr "Rumba Node")
                          (set_property "work_template" (PTemplate work_template) item)))
              | None => item
              end in
            (emit Info
                  "Collected Selection as Rumba Nodes animation as Alembic Cache for publishing."
                  [] None ;;;
             ret (Some item)) w
    end.

(** A per-asset collector as it is called: the session path is looked at
    first, then the geometry is sorted by asset, which may raise. *)
Definition per_asset
           (collect : option (option string) -> list (string * list Node)
                      -> M (option (list PublishItem)))
           (settings : Settings) : M (option (list PublishItem)) :=
  path <-- _session_path ;;
  if negb (truthy_opt path) then ret None
  else
    fun w =>
      match Geometry.find_geometry_nodes_by_asset as_bool w with
      | Ok by_asset_node =>
          collect (work_template_setting settings)
                  (map (fun kl => (fst kl, map Geometry.here (snd kl))) by_asset_node) w
      | Raise e => (Raise e, w)
      end.

(** [if x: items.extend(x)] and [if x: items.append(x)] *)
Definition extend (items : list PublishItem) (x : option (list PublishItem))
  : list PublishItem :=
  match x with
  | Some l => items ++ l
  | None => items
  end.

Definition append (items : list PublishItem) (x : option PublishItem)
  : list PublishItem :=
  match x with
  | Some i => items ++ [i]
  | None => items
  end.

Definition bool_str (b : bool) : string := if b then "True" else "False".

Definition process_current_session (settings : Settings) : M (list PublishItem) :=
  let items := [] in
  session_item <-- collect_current_rumba_session settings ;;
  match session_item with
  | None => ret items
  | Some session_item =>
      let items := items ++ [session_item] in
      let individual := collect_individual_assets settings in
      emit Debug "Collect Individual Assets: %s" [AStr (bool_str individual)] None ;;;
      items <-- (if individual
                 then x <-- per_asset collect_rumba_usd_assets settings ;; ret (extend items x)
                 else x <-- collect_rumba_usd_scene settings ;; ret (append items x)) ;;
      items <-- (if individual
                 then x <-- per_asset collect_rumba_fbx_assets settings ;; ret (extend items x)
                 else x <-- collect_rumba_fbx_scene settings ;; ret (append items x)) ;;
      items <-- (if individual
                 then x <-- per_asset collect_rumba_abc_assets settings ;; ret (extend items x)
                 else x <-- collect_rumba_abc_scene settings ;; ret (append items x)) ;;
      x <-- collect_rumba_selection_as_nodes settings ;;
      ret (append items x)
  end.

End Framework.

End Session.

Module SessionSpec.
Import Session.

(** The session has a path: the document is not untitled and its file name
    is not empty. *)
Definition saved (w : World) : bool :=
  negb (String.eqb (active_document_filename w) "untitled")
  && truthy (active_document_filename w).

(** The item types of the whole-scene collectors, in the order of the
    calls, and of the per-asset collectors over [k] assets. *)
Definition scene_types : list string :=
  ["rumba.animation.usd"; "rumba.animation.fbx"; "rumba.animation.alembic_cache"].

Definition asset_types (k : nat) : list string :=
  List.repeat "rumba.animation.usd" k ++ List.repeat "rumba.animation.fbx" k
  ++ List.repeat "rumba.animation.alembic_cache" k.

(** What the selection adds: a node item for a first selected node that is
    not referenced. *)
Definition node_types (selection : list Selected) : list string :=
  match selection with
  | node :: _ => if sel_is_referenced node then [] else ["rumba.node"]
  | [] => []
  end.

(** Two worlds that differ in the log at most. *)
Definition same_scene (w w' : World) : Prop :=
  runtime w' = runtime w /\
  active_document w' = active_document w /\
  active_document_filename w' = active_document_filename w /\
  current_frame w' = current_frame w /\
  journal w' = journal w.

(** A loop body that makes an item of one type and only logs. *)
Definition makes (item_type' : string) (body : string -> list Node -> M PublishItem)
  : Prop :=
  forall asset_name nodes w,
  exists item w',
    body asset_name nodes w = (Ok item, w') /\
    item_type item = item_type' /\ same_scene w w'.

(** A per-asset collector, called on a saved session with the groups that
    [find_geometry_nodes_by_asset] made. *)
Definition collects (item_type' : string)
           (collect : option (option string) -> list (string * list Node)
                      -> M (option (list PublishItem))) : Prop :=
  forall setting by_asset_node w,
  saved w = true ->
  exists items w',
    collect setting by_asset_node w = (Ok (Some items), w') /\
    map item_type items = List.repeat item_type' (length by_asset_node) /\
    same_scene w w'.

End SessionSpec.

(** * [startup.py] and [startup/init.py] *)

Module Startup.

Definition ENGINE_NAME : string := "tk-rumba".
Definition APPLICATION_NAME : string := "Rumba".

(** An exception as the code looks at it: [str(e)] and the joined lines of
    [traceback.format_exception]. *)
Record Raised : Type := mkRaised {
  str_e : string;
  format_exception : string }.

(** [LaunchInformation(path, args, environ)] *)
Record LaunchInformation : Type := mkLaunchInformation {
  launch_path : string;
  launch_args : string;
  launch_environ : gmap string string }.

(** [SoftwareVersion(version, product, path, icon, args)] *)
Record SoftwareVersion : Type := mkSoftwareVersion {
  sw_version : string;
  sw_product : string;
  sw_path : string;
  sw_icon : string;
  sw_args : list string }.

Section Toolkit.
(** The class of [sgtk] contexts. *)
Variable Context : Type.

(** The calls that start the toolkit and open a file. *)
Inductive Call : Type :=
| InitializeBaseFileHandler (name : string)
| StartEngine (engine_name : string) (context : Context)
| LoadDocument (path : string).

(** A process: [os.environ], what was printed, the debug records of the
    logger and the calls made. *)
Record Process : Type := mkProcess {
  environ : gmap string string;
  stdout : list string;
  debug : list string;
  calls : list Call }.

Definition print (line : string) (p : Process) : Process :=
  mkProcess (environ p) (stdout p ++ [line]) (debug p) (calls p).

Definition logger_debug (line : string) (p : Process) : Process :=
  mkProcess (environ p) (stdout p) (debug p ++ [line]) (calls p).

Definition call (c : Call) (p : Process) : Process :=
  mkProcess (environ p) (stdout p) (debug p) (calls p ++ [c]).

Definition set_environ (env : gmap string string) (p : Process) : Process :=
  mkProcess env (stdout p) (debug p) (calls p).

(** ** [startup.py]: the launcher *)

(** [self.disk_location], [os.pathsep], [os.path.join],
    [sgtk.context.serialize] and [get_sgtk_module_path()]. *)
Variable disk_location : string.
Variable pathsep : string.
Variable join : string -> string -> string.
Variable serialize : Context -> string.
Variable get_sgtk_module_path : string.

(** [context] is [self.context]. *)
Definition prepare_launch (context : Context) (exec_path args : string)
           (file_to_open : option string) (p : Process) : LaunchInformation * Process :=
  let required_env : gmap string string := ∅ in
  let resources_plugins_path := join disk_location "startup" in
  let required_env :=
    <["RUMBA_USER_PLUGINS" :=
        default "" (environ p !! "RUMBA_USER_PLUGINS") +:+ pathsep
        +:+ resources_plugins_path]> required_env in
  let p :=
    logger_debug ("Preparing " +:+ APPLICATION_NAME
                    +:+ " Launch via Toolkit Classic methodology ...") p in
  let required_env := <["SGTK_ENGINE" := ENGINE_NAME]> required_env in
  let required_env := <["SGTK_CONTEXT" := serialize context]> required_env in
  let required_env := <["SGTK_MODULE_PATH" := get_sgtk_module_path]> required_env in
  let required_env :=
    if truthy_opt file_to_open
    then <["SGTK_FILE_TO_OPEN" := default "" file_to_open]> required_env
    else required_env in
  (mkLaunchInformation exec_path args required_env, p).

Definition _icon_from_engine : string := join disk_location "icon_256.png".

Definition EXECUTABLE_TEMPLATES : list (string * list string) :=
  [ ("darwin", ["$RUMBA_BIN"; "/Applications/rumba/Rumba/Rumba.app"]);
    ("win32", ["$RUMBA_BIN"; "C:/Program Files/Rumba/rumba.exe"]);
    ("linux", ["$RUMBA_BIN"; "/usr/bin/rumba"]) ].

(** [EXECUTABLE_TEMPLATES.get(key)] for a key that is a string. *)
Fixpoint templates_get (templates : list (string * list string)) (key : string)
  : option (list string) :=
  match templates with
  | [] => None
  | (k, v) :: templates' => if String.eqb k key then Some v else templates_get templates' key
  end.

(** [sgtk.util.is_macos()], [is_windows()], [is_linux()],
    [os.path.expanduser], [os.path.expandvars] on the environment, and
    [self._glob_and_match(template, COMPONENT_REGEX_LOOKUP)], which gives
    pairs of a path and a dictionary of keys. *)
Variable is_macos : bool.
Variable is_windows : bool.
Variable is_linux : bool.
Variable expanduser : string -> string.
Variable expandvars : gmap string string -> string -> string.
Variable glob_and_match : string -> list (string * list (string * string)).

(** The loop over the matches of one template. *)
Fixpoint for_matches (extra_args : option string)
         (executable_matches : list (string * list (string * string)))
         (sw_versions : list SoftwareVersion) : list SoftwareVersion :=
  match executable_matches with
  | [] => sw_versions
  | (executable_path, key_dict) :: rest =>
      let executable_version := " " in
      let args := [] in
      let args := if truthy_opt extra_args then args ++ [default "" extra_args] else args in
      for_matches extra_args rest
        (sw_versions
           ++ [mkSoftwareVersion executable_version APPLICATION_NAME executable_path
                                 _icon_from_engine args])
  end.

(** The loop over the templates. *)
Fixpoint for_templates (extra_args : option string) (executable_templates : list string)
         (sw_versions : list SoftwareVersion) (p : Process)
  : list SoftwareVersion * Process :=
  match executable_templates with
  | [] => (sw_versions, p)
  | executable_template :: rest =>
      let executable_template := expanduser executable_template in
      let executable_template := expandvars (environ p) executable_template in
      let p := logger_debug ("Processing template " +:+ executable_template +:+ ".") p in
      let executable_matches := glob_and_match executable_template in
      for_templates extra_args rest
                    (for_matches extra_args executable_matches sw_versions) p
  end.

(** The key is a string on the three platforms and the list [[]]
    otherwise, which no dictionary takes as a key. *)
Definition _find_software (p : Process) : result (list SoftwareVersion) * Process :=
  let key :=
    if is_macos then Some "darwin"
    else if is_windows then Some "win32"
    else if is_linux then Some "linux"
    else None in
  match key with
  | None => (Raise (TypeError "unhashable type: 'list'"), p)
  | Some key =>
      match templates_get EXECUTABLE_TEMPLATES key with
      | None => (Raise (TypeError "'NoneType' object is not iterable"), p)
      | Some executable_templates =>
          let sw_versions := [] in
          let extra_args := environ p !! "SGTK_RUMBA_CMD_EXTRA_ARGS" in
          let (sw_versions, p) :=
            for_templates extra_args executable_templates sw_versions p in
          (Ok sw_versions, p)
      end
  end.

Definition scan_software (p : Process) : result (list SoftwareVersion) * Process :=
  let p := logger_debug ("Scanning for " +:+ APPLICATION_NAME +:+ " executables...") p in
  let supported_sw_versions := [] in
  match _find_software p with
  | (Ok found, p) => (Ok (supported_sw_versions ++ found), p)
  | (Raise e, p) => (Raise e, p)
  end.

(** ** [startup/init.py]: the start inside the application *)

(** Whether [import sgtk] raises, [sgtk.context.deserialize],
    [sgtk.platform.start_engine(name, context.sgtk, context)] and
    [rumba.load_document], each with the exception it raises, if any. *)
Variable import_sgtk : option Raised.
Variable deserialize : string -> Raised + Context.
Variable start_engine : string -> Context -> option Raised.
Variable load_document : string -> option Raised.

Definition display_error (msg : string) : Process -> Process :=
  print ("Shotgun Error | " +:+ ENGINE_NAME +:+ " | " +:+ msg +:+ " ").

Definition display_warning (msg : string) : Process -> Process :=
  print ("Shotgun Warning | " +:+ ENGINE_NAME +:+ " | " +:+ msg +:+ " ").

Definition display_info (msg : string) : Process -> Process :=
  print ("Shotgun Info | " +:+ ENGINE_NAME +:+ " | " +:+ msg +:+ " ").

(** Every exception is caught: the function always returns [None]. *)
Definition start_toolkit_classic (p : Process) : Process :=
  let p := logger_debug "Launching toolkit in classic mode." p in
  let env_engine := environ p !! "SGTK_ENGINE" in
  if negb (truthy_opt env_engine) then
    display_error "Shotgun: Missing required environment variable SGTK_ENGINE." p
  else
    let env_context := environ p !! "SGTK_CONTEXT" in
    if negb (truthy_opt env_context) then
      display_error "Shotgun: Missing required environment variable SGTK_CONTEXT." p
    else
      match deserialize (default "" env_context) with
      | inl e =>
          let msg :=
            "Shotgun: Could not create context! Shotgun Pipeline Toolkit will be disabled. Details: "
            +:+ str_e e in
          let msg := msg +:+ format_exception e in
          display_error msg p
      | inr context =>
          let p :=
            logger_debug ("Launching engine instance '" +:+ default "" env_engine
                            +:+ "' for context " +:+ default "" env_context) p in
          let p := call (StartEngine (default "" env_engine) context) p in
          match start_engine (default "" env_engine) context with
          | Some e =>
              let msg := "Shotgun: Could not start engine. Details: " +:+ str_e e in
              let msg := msg +:+ format_exception e in
              display_error msg p
          | None => p
          end
      end.

Definition del_vars : list string := ["SGTK_ENGINE"; "SGTK_CONTEXT"; "SGTK_FILE_TO_OPEN"].

(** [for var in del_vars: if var in os.environ: del os.environ[var]] *)
Definition clean_up (env : gmap string string) : gmap string string :=
  fold_left (fun env var => match env !! var with
                            | Some _ => delete var env
                            | None => env
                            end) del_vars env.

(** The result is the exception that left the function, if any. *)
Definition start_toolkit (p : Process) : option Raised * Process :=
  match import_sgtk with
  | Some e =>
      let msg := "Shotgun: Could not import sgtk! Disabling for now: " +:+ str_e e in
      (None, display_error msg p)
  | None =>
      let p := call (InitializeBaseFileHandler ENGINE_NAME) p in
      let p := start_toolkit_classic p in
      let file_to_open := environ p !! "SGTK_FILE_TO_OPEN" in
      let opened :=
        if truthy_opt file_to_open then
          let msg := "Shotgun: Opening '" +:+ default "" file_to_open +:+ "'..." in
          let p := display_info msg p in
          let p := call (LoadDocument (default "" file_to_open)) p in
          (load_document (default "" file_to_open), p)
        else (None, p) in
      match opened with
      | (Some e, p) => (Some e, p)
      | (None, p) => (None, set_environ (clean_up (environ p)) p)
      end
  end.

End Toolkit.

Arguments InitializeBaseFileHandler {Context} name.
Arguments StartEngine {Context} engine_name context.
Arguments LoadDocument {Context} path.
Arguments mkProcess {Context} environ stdout debug calls.
Arguments environ {Context} p.
Arguments stdout {Context} p.
Arguments debug {Context} p.
Arguments calls {Context} p.
Arguments logger_debug {Context} line p.
Arguments call {Context} c p.
Arguments set_environ {Context} env p.
Arguments prepare_launch {Context}.
Arguments for_templates {Context}.
Arguments _find_software {Context}.
Arguments scan_software {Context}.
Arguments start_toolkit_classic {Context}.
Arguments start_toolkit {Context}.

End Startup.

Module StartupSpec.
Import Startup.

(** The process the launch starts: the environment of the launcher with
    the variables of the launch information set in it, nothing printed and
    no call made yet. *)
Definition launched {Context : Type} (info : LaunchInformation) (parent : Process Context)
  : Process Context :=
  mkProcess (launch_environ info ∪ environ parent) [] [] [].

(** The version record made for an executable. *)
Definition version_of (icon : string) (extra_args : option string) (path : string)
  : SoftwareVersion :=
  mkSoftwareVersion " " "Rumba" path icon
                    (if truthy_opt extra_args then [default "" extra_args] else []).

(** The templates of a platform. *)
Definition templates_of (is_macos is_windows : bool) : list string :=
  "$RUMBA_BIN"
  :: [if is_macos then "/Applications/rumba/Rumba/Rumba.app"
      else if is_windows then "C:/Program Files/Rumba/rumba.exe"
      else "/usr/bin/rumba"].

(** The calls that load a document. *)
Definition is_load {Context : Type} (c : Call Context) : bool :=
  match c with
  | LoadDocument _ => true
  | _ => false
  end.

(** An environment without the three variables of the launch. *)
Definition without_launch_variables (env : gmap string string) : gmap string string :=
  delete "SGTK_FILE_TO_OPEN" (delete "SGTK_CONTEXT" (delete "SGTK_ENGINE" env)).

(** The call that starts the engine: made when both variables are set and
    not empty and the context can be read back. *)
Definition engine_calls {Context : Type} (deserialize : string -> Raised + Context)
           (env : gmap string string) : list (Call Context) :=
  match env !! "SGTK_ENGINE", env !! "SGTK_CONTEXT" with
  | Some engine, Some context =>
      if truthy engine && truthy context then
        match deserialize context with
        | inr c => [StartEngine engine c]
        | inl _ => []
        end
      else []
  | _, _ => []
  end.

(** The file the environment asks to open. *)
Definition requested_file (env : gmap string string) : option string :=
  match env !! "SGTK_FILE_TO_OPEN" with
  | Some f => if truthy f then Some f else None
  | None => None
  end.

Definition load_calls {Context : Type} (env : gmap string string) : list (Call Context) :=
  match requested_file env with
  | Some f => [LoadDocument f]
  | None => []
  end.

Definition load_failure (load_document : string -> option Raised)
           (env : gmap string string) : option Raised :=
  match requested_file env with
  | Some f => load_document f
  | None => None
  end.

(** A desktop from which the application is launched, and a toolkit whose
    contexts are strings. *)
Definition desktop : Process string :=
  mkProcess {[ "RUMBA_USER_PLUGINS" := "/studio/plugins"; "HOME" := "/home/artist" ]}
            [] [] [].

Definition slash (a b : string) : string := a +:+ "/" +:+ b.

End StartupSpec.

(** * The scene operation hooks of [tk-multi-workfiles2] and [tk-multi-snapshot] *)

Module SceneOperation.

(** The calls of the hooks that read or write a file. *)
Inductive FileCall : Type :=
| LoadDocument (file_path : string)
| DocumentWrite (file_path : string)
| SaveAt (file_path : string)
| NewDocument.

(** What [execute] returns: [None], a path or a boolean. *)
Inductive Answer : Type :=
| ANone
| APath (path : string)
| ABool (b : bool).

Definition has_document (w : World) : bool :=
  match active_document w with
  | Some _ => true
  | None => false
  end.

(** [tk-multi-workfiles2/scene_operation_tk-rumba.py]; the arguments
    [context], [parent_action], [file_version] and [read_only] are not
    used.  The result is the answer and the calls made, in order. *)
Definition workfiles_execute (operation file_path : string) (w : World)
  : Answer * list FileCall :=
  let active_doc := has_document w in
  if String.eqb operation "current_path" then
    let current_project_filename := active_document_filename w in
    (APath current_project_filename, [])
  else if String.eqb operation "open" then
    (ANone, [LoadDocument file_path])
  else if String.eqb operation "save" then
    if active_doc then
      let current_project_filename := active_document_filename w in
      if negb (String.eqb current_project_filename "untitled")
      then (ANone, [DocumentWrite current_project_filename])
      else (ANone, [])
    else (ANone, [])
  else if String.eqb operation "save_as" then
    if active_doc then (ANone, [SaveAt file_path]) else (ANone, [])
  else if String.eqb operation "reset" then
    if active_doc then (ABool true, [NewDocument]) else (ABool true, [])
  else if String.eqb operation "prepare_new" then
    (ABool true, [NewDocument])
  else (ANone, []).

(** [tk-multi-snapshot/scene_operation_tk-rumba.py] *)
Definition snapshot_execute (operation file_path : string) (w : World)
  : Answer * list FileCall :=
  let active_doc := has_document w in
  if String.eqb operation "current_path" then
    let current_project_filename := active_document_filename w in
    (APath current_project_filename, [])
  else if String.eqb operation "open" then
    (ANone, [LoadDocument file_path])
  else if String.eqb operation "save" then
    if active_doc then
      let current_project_filename := active_document_filename w in
      if negb (String.eqb current_project_filename "untitled")
      then (ANone, [DocumentWrite current_project_filename])
      else (ANone, [])
    else (ANone, [])
  else (ANone, []).

(** The calls that write the document to a file. *)
Definition writes_file (c : FileCall) : bool :=
  match c with
  | DocumentWrite _ | SaveAt _ => true
  | _ => false
  end.

End SceneOperation.

(** * [publish_session.py]: the dependencies of the session *)

Module SessionDependencies.

Fixpoint _find_nodes_with_reference (node : Node) (results : list Node) : list Node :=
  let results :=
    if truthy (reference_filename node) then results ++ [node] else results in
  fold_left (fun results child_node => _find_nodes_with_reference child_node results)
            (children node) results.

(** The loop over the nodes found. *)
Fixpoint for_nodes (nodes : list Node) (additional_dependencies : list string)
  : list string :=
  match nodes with
  | [] => additional_dependencies
  | node :: nodes' =>
      let ref_path := reference_filename node in
      for_nodes nodes'
                (if truthy ref_path then additional_dependencies ++ [ref_path]
                 else additional_dependencies)
  end.

Definition _rumba_find_additional_session_dependencies (w : World) : list string :=
  let additional_dependencies := [] in
  match active_document w with
  | Some active_document =>
      (* [... or []]: an empty list stays the empty list *)
      let nodes := _find_nodes_with_reference (doc_node active_document) [] in
      for_nodes nodes additional_dependencies
  | None => additional_dependencies
  end.

End SessionDependencies.

(** * The export plugins: [publish_usd.py], [publish_animation_fbx.py],
      [publish_animation_alembic_cache.py] *)

Module ExportPlugins.

Definition newline : string := String "010"%char "".

(** [d.get(key, default)] on the fields of an item. *)
Fixpoint fields_get (f : list (string * string)) (key default : string) : string :=
  match f with
  | [] => default
  | (k, v) :: f' => if String.eqb k key then v else fields_get f' key default
  end.

(** [item.properties.get("nodes", [])] *)
Definition get_nodes (item : PublishItem) : PropValue :=
  default (PNodes []) (properties item !! "nodes").

(** [item.properties.get("extra_fields", {}).get("name", "scene")]: only a
    dictionary has [get]. *)
Definition get_name (item : PublishItem) : result string :=
  match default (PFields []) (properties item !! "extra_fields") with
  | PFields f => Ok (fields_get f "name" "scene")
  | _ => Raise (AttributeError "get")
  end.

Section Exporters.
(** The type of a sub-sample, a number. *)
Variable Sample : Type.

(** The calls of the plugins to the host, with the arguments the code
    gives; the progress callback is left out. *)
Inductive ExportCall : Type :=
| Progress (label : string)
| ExportToUsd (path : string) (nodes : PropValue) (frames : list Z)
| FbxExportNodes (path : string) (nodes : PropValue) (frames : list Z)
                 (ascii export_namespaces : bool)
| AlembicExportNodes (path : string) (nodes : PropValue) (frame_count : Z)
                     (samples : list Sample) (cyclic : bool)
| MessageBox (text title level : string).

(** The exception an export call of the host raises, if any. *)
Variable raised_by : ExportCall -> option exn.

(** [try: with Progress(label) as progress: <call> except RuntimeError as
    error: message_box(...)]; the result is what leaves the block and the
    calls made. *)
Definition guarded (path label : string) (c : ExportCall)
  : result unit * list ExportCall :=
  match raised_by c with
  | None => (Ok tt, [Progress label; c])
  | Some (RuntimeError error) =>
      (Ok tt,
       [Progress label; c;
        MessageBox ("Error exporting to file " +:+ path +:+ ":" +:+ newline +:+ error)
                   "Exporting Error" "error"])
  | Some e => (Raise e, [Progress label; c])
  end.

(** [RumbaUSDPublishPlugin._export] *)
Definition usd_export (item : PublishItem) (path : string)
  : result unit * list ExportCall :=
  let nodes := get_nodes item in
  match get_name item with
  | Raise e => (Raise e, [])
  | Ok name =>
      guarded path ("Exporting " +:+ name +:+ " to Usd...") (ExportToUsd path nodes [])
  end.

(** [RumbaFBXPublishPlugin._export]; [namespace_setting] is
    [settings.get("Export Namespaces")], [None] when absent and its value
    otherwise. *)
Definition fbx_export (namespace_setting : option bool) (item : PublishItem)
           (path : string) : result unit * list ExportCall :=
  let frames := [] in
  let ascii := false in
  let export_namespaces := true in
  let nodes := get_nodes item in
  match get_name item with
  | Raise e => (Raise e, [])
  | Ok name =>
      let export_namespaces :=
        match namespace_setting with
        | Some value => if value then value else export_namespaces
        | None => export_namespaces
        end in
      guarded path ("Exporting " +:+ name +:+ " as FBX...")
              (FbxExportNodes path nodes frames ascii export_namespaces)
  end.

(** [RumbaAlembicCachePublishPlugin._export]; [samples_setting] is
    [settings.get("Sub Samples")]. *)
Definition abc_export (samples_setting : option (list Sample)) (item : PublishItem)
           (path : string) : result unit * list ExportCall :=
  let samples := [] in
  let samples :=
    match samples_setting with
    | Some value => match value with [] => samples | _ => value end
    | None => samples
    end in
  let nodes := get_nodes item in
  match get_name item with
  | Raise e => (Raise e, [])
  | Ok name =>
      let cyclic := true in
      let frame_count := 0%Z in
      guarded path ("Exporting " +:+ name +:+ " as Alembic Cache...")
              (AlembicExportNodes path nodes frame_count samples cyclic)
  end.

End Exporters.

Arguments Progress {Sample} label.
Arguments ExportToUsd {Sample} path nodes frames.
Arguments FbxExportNodes {Sample} path nodes frames ascii export_namespaces.
Arguments AlembicExportNodes {Sample} path nodes frame_count samples cyclic.
Arguments MessageBox {Sample} text title level.
Arguments guarded {Sample}.
Arguments usd_export {Sample}.
Arguments fbx_export {Sample}.
Arguments abc_export {Sample}.

End ExportPlugins.

Module ExportSpec.
Import ExportPlugins.

(** The item carries a group: its nodes and its name. *)
Definition carries (item : PublishItem) (name : string) (nodes : list Node) : Prop :=
  properties item !! "nodes" = Some (PNodes nodes) /\
  properties item !! "extra_fields" = Some (PFields [("name", name)]).

(** A loop body of a collector whose item carries the group, under the
    name without the characters that are not alphanumeric. *)
Definition packs (body : string -> list Node -> M PublishItem) : Prop :=
  forall asset_name nodes w,
  exists item w',
    body asset_name nodes w = (Ok item, w') /\
    runtime w' = runtime w /\
    carries item (CollectorSpec.keep_alnum (runtime w) asset_name) nodes.

(** The item of a whole-scene collector: no nodes and no fields. *)
Definition bare (item : PublishItem) : Prop :=
  properties item !! "nodes" = None /\ properties item !! "extra_fields" = None.

(** The export of [item] begins with the progress [label] and the call [c]. *)
Definition begins {Sample : Type} (run : result unit * list (ExportCall Sample))
           (label : string) (c : ExportCall Sample) : Prop :=
  firstn 2 (snd run) = [Progress label; c].

(** A run of an export raises nothing that is a [RuntimeError]. *)
Definition no_runtime_error {Sample : Type} (run : result unit * list (ExportCall Sample))
  : Prop :=
  match fst run with
  | Raise (RuntimeError _) => False
  | _ => True
  end.

(** A per-asset collector on a saved session: one item for each group,
    which carries the group. *)
Definition gathers (collect : option (option string) -> list (string * list Node)
                              -> M (option (list PublishItem))) : Prop :=
  forall setting by_asset_node w,
  SessionSpec.saved w = true ->
  exists items w',
    collect setting by_asset_node w = (Ok (Some items), w') /\
    Forall2 (fun g item => carries item (CollectorSpec.keep_alnum (runtime w) (fst g)) (snd g))
            by_asset_node items.

End ExportSpec.

(** * [publish_base.py]: the publish path *)

Module PublishPath.

(** [work_fields]: the list [[]] it starts as, or the dictionary
    [get_fields] returns. *)
Inductive Fields : Type :=
| FList
| FDict (f : list (string * string)).

(** [d[k] = v] and [d.update(e)] on a dictionary kept in insertion order. *)
Fixpoint dict_set (f : list (string * string)) (k v : string) : list (string * string) :=
  match f with
  | [] => [(k, v)]
  | (k', v') :: f' =>
      if String.eqb k' k then (k', v) :: f' else (k', v') :: dict_set f' k v
  end.

Definition dict_update (f e : list (string * string)) : list (string * string) :=
  fold_left (fun f kv => dict_set f (fst kv) (snd kv)) e f.

(** How the method ends when it does not return: as a plugin fails, or
    with the [ValueError] of [dict.update]. *)
Inductive crash : Type :=
| Plugin (f : failure)
| ValueError (msg : string).

Inductive ending : Type :=
| Gives (v : PropValue)
| Crashes (c : crash).

(** The records of the logger, with the values they interpolate. *)
Inductive PathArg : Type :=
| AFields (f : Fields)
| ATemplate (t : option PropValue)
| APath (p : PropValue).

Record PathLog : Type := mkPathLog {
  pl_level : LogLevel;
  pl_fmt : string;
  pl_args : list PathArg }.

Definition truthy_value (v : option PropValue) : bool :=
  match v with
  | Some v => prop_truthy v
  | None => false
  end.

(** The template a value is, if it is one; a method of a template called
    on anything else raises [AttributeError]. *)
Definition template_of (v : option PropValue) : option string :=
  match v with
  | Some (PTemplate (Some t)) => Some t
  | _ => None
  end.

(** [work_fields.update(extra)]: a list has no [update], and a dictionary
    takes a dictionary only. *)
Definition update (work_fields : Fields) (extra : PropValue) : crash + Fields :=
  match work_fields with
  | FList => inl (Plugin (Python (AttributeError "update")))
  | FDict f =>
      match extra with
      | PFields e => inr (FDict (dict_update f e))
      | PStr _ => inl (ValueError "dictionary update sequence element #0 has length 1; 2 is required")
      | PNodes _ => inl (Plugin (Python (TypeError "cannot convert dictionary update sequence element #0 to a sequence")))
      | PTemplate _ => inl (Plugin (Python (TypeError "object is not iterable")))
      end
  end.

Section Templates.
(** The methods of a template: [validate], [get_fields], [missing_keys]
    and [apply_fields]. *)
Variable validate : string -> PropValue -> bool.
Variable get_fields : string -> PropValue -> list (string * string).
Variable missing_keys : string -> Fields -> list string.
Variable apply_fields : string -> Fields -> string.

(** [get_publish_template] of this file has the lines of the one in
    [publish_session.py]. *)
Definition get_publish_template := RumbaSessionPublishPlugin.get_publish_template.

(** The tail of the method: [if not publish_path: publish_path = path]. *)
Definition in_place (publish_path : option PropValue) (path : PropValue)
           (logs : list PathLog) : PropValue * list PathLog :=
  if negb (truthy_value publish_path) then
    (path,
     logs ++ [mkPathLog Debug "Could not validate a publish template. Publishing in place." []])
  else (default path publish_path, logs).

(** [get_publish_path(settings, item)]: how it ends, the item as it left
    it, and the records logged. *)
Definition get_publish_path (rt : Runtime)
           (publish_template_setting : option (option string)) (item : PublishItem)
  : ending * PublishItem * list PathLog :=
  let publish_path := properties item !! "publish_path" in
  if truthy_value publish_path then (Gives (default (PStr "") publish_path), item, [])
  else
    match properties item !! "path" with
    | None => (Crashes (Plugin (Python (AttributeError "path"))), item, [])
    | Some path =>
        let work_template := properties item !! "work_template" in
        match get_publish_template rt publish_template_setting item with
        | Failed f => (Crashes (Plugin f), item, [])
        | Returned (publish_template, item) =>
            let work_fields := FList in
            let publish_path : option PropValue := None in
            if truthy_value work_template && truthy_value publish_template then
              match template_of work_template with
              | None => (Crashes (Plugin (Python (AttributeError "validate"))), item, [])
              | Some wt =>
                  let work_fields :=
                    if validate wt path then FDict (get_fields wt path) else work_fields in
                  let updated :=
                    if truthy_value (properties item !! "extra_fields")
                    then update work_fields
                                (default (PFields []) (properties item !! "extra_fields"))
                    else inr work_fields in
                  match updated with
                  | inl c => (Crashes c, item, [])
                  | inr work_fields =>
                      match template_of publish_template with
                      | None =>
                          (Crashes (Plugin (Python (AttributeError "missing_keys"))),
                           item, [])
                      | Some pt =>
                          let missing := missing_keys pt work_fields in
                          let (publish_path, logs) :=
                            match missing with
                            | _ :: _ =>
                                (publish_path,
                                 [mkPathLog Warning
                                    "Not enough keys to apply work fields (%s) to publish template (%s)"
                                    [AFields work_fields; ATemplate publish_template]])
                            | [] =>
                                let applied := PStr (apply_fields pt work_fields) in
                                (Some applied,
                                 [mkPathLog Debug
                                    "Used publish template to determine the publish path: %s"
                                    [APath applied]])
                            end in
                          let (publish_path, logs) := in_place publish_path path logs in
                          (Gives publish_path, item, logs)
                      end
                  end
              end
            else
              let logs :=
                [mkPathLog Debug "publish_template: %s" [ATemplate publish_template];
                 mkPathLog Debug "work_template: %s" [ATemplate work_template]] in
              let (publish_path, logs) := in_place publish_path path logs in
              (Gives publish_path, item, logs)
        end
    end.

End Templates.

End PublishPath.

Module PublishPathSpec.

(** A template that matches no path, and an item of a per-asset collector
    with a work template, as the collector leaves it after validation stored
    the path. *)
Definition strict (t : string) (p : PropValue) : bool := false.

Definition asset_item : PublishItem :=
  set_property "path" (PStr "/work/set.rumba")
    (set_property "extra_fields" (PFields [("name", "hero01")])
       (set_property "work_template" (PTemplate (Some "shots/{Shot}/work/{name}.rumba"))
          (mkPublishItem "rumba.animation.usd" "USD File" "hero01 USD File" "usd.png" ∅))).

End PublishPathSpec.

(** ** More sample values *)

Module MoreScenes.

(** An engine that knows one template. *)
Definition pipeline : Runtime :=
  mkRuntime Posix (fun p => p) [".wav"] [".png"] [".mov"] (fun p => p)
            (fun name => match name with
                         | Some "rumba_shot_publish" => Some "shots/{Shot}/publish/{name}.v{version}.rumba"
                         | _ => None
                         end)
            Scenes.latin1_isalnum.

Definition session_item : PublishItem :=
  mkPublishItem "rumba.session" "Rumba Document" "shot.rumba" "rumba.png" ∅.

(** A set with two assets: a hidden proxy under the first, a rig group
    under the second, and a ground plane under no asset. *)
Definition on (v : string) : bool := negb (String.eqb v "0").

Definition body : Node := mkNode "hero/body" "Geometry" "" {[ "show" := "1" ]} [].
Definition proxy : Node := mkNode "hero/proxy" "Geometry" "" {[ "show" := "0" ]} [].
Definition hero_asset : Node :=
  mkNode "hero" "Asset" "/assets/hero.rumbanode" {[ "asset_name" := "hero01" ]}
         [body; proxy].
Definition head : Node := mkNode "villain/rig/head" "Geometry" "" {[ "show" := "1" ]} [].
Definition cape : Node := mkNode "villain/rig/cape" "Geometry" "" {[ "show" := "1" ]} [].
Definition rig : Node := mkNode "villain/rig" "Node" "" ∅ [head; cape].
Definition villain_asset : Node :=
  mkNode "villain" "Asset" "/assets/villain.rumbanode"
         {[ "asset_name" := "villain"; "show" := "1" ]} [rig].
Definition ground : Node := mkNode "ground" "Geometry" "" {[ "show" := "1" ]} [].

(** An asset whose only geometry has no [show] plug. *)
Definition eyes : Node := mkNode "prop/eyes" "Geometry" "" ∅ [].
Definition prop_asset : Node :=
  mkNode "prop" "Asset" "/assets/prop.rumbanode" {[ "asset_name" := "prop01" ]} [eyes].
Definition prop_world : World :=
  Scenes.world_of (Some (Scenes.document_of [prop_asset])) "/work/prop.rumba".

Definition set : Document := Scenes.document_of [hero_asset; villain_asset; ground].
Definition set_world : World := Scenes.world_of (Some set) "/work/set.rumba".

End MoreScenes.

(** * Properties *)

(** ** Python values *)

Lemma truthy_true s : truthy s = true <-> s <> "".
Proof.
  unfold truthy. rewrite negb_true_iff. split.
  - intros H ->. now rewrite String.eqb_refl in H.
  - intros H. apply String.eqb_neq. exact H.
Qed.

Lemma str_in_true x l : str_in x l = true <-> In x l.
Proof.
  unfold str_in. rewrite existsb_exists. split.
  - intros (y & Hy & E). apply String.eqb_eq in E. now subst.
  - intros H. exists x. split; [exact H | apply String.eqb_refl].
Qed.

(** ** Induction over a hierarchy of nodes *)

Lemma Node_forall_ind (P : Node -> Prop) :
  (forall n, Forall P (children n) -> P n) -> forall n, P n.
Proof.
  intros step. fix IH 1. intros [nm ty rf pl cs]. apply step. simpl.
  induction cs as [|c cs IHcs]; constructor; [apply IH | exact IHcs].
Qed.

(** ** The definitions at work *)

Module Examples.

Example splitext_keeps_case :
  OsPath.splitext Posix "/publish/hero.USD" = ("/publish/hero", ".USD").
Proof. reflexivity. Qed.

Example splitext_leading_dot :
  OsPath.splitext Posix "/publish/.usd" = ("/publish/.usd", "").
Proof. reflexivity. Qed.

Example splitext_dot_in_folder :
  OsPath.splitext Posix "/publish.v2/hero" = ("/publish.v2/hero", "").
Proof. reflexivity. Qed.

Example splitext_after_replace :
  OsPath.splitext Nt (Str.replace "C:\publish\hero.abc" (OsPath.sep Nt) "/"%char)
  = ("C:/publish/hero", ".abc").
Proof. reflexivity. Qed.

Example lower_extension : Str.lower ".UsdA" = ".usda".
Proof. reflexivity. Qed.

Example supported_upper_case :
  RumbaActions._is_a_supported_extension Scenes.posix "/publish/hero.ABC"
    (mkPublishData "/publish/hero.ABC" None) = true.
Proof. reflexivity. Qed.

Example runs_are_replaced_once :
  RumbaSessionCollector.alphanumeric_sub Scenes.posix "-" "hero__01 (rig)" = "hero-01-rig-".
Proof. reflexivity. Qed.

Example asset_name_sanitized :
  RumbaSessionCollector.alphanumeric_sub Scenes.posix "" "hero__01 (rig)" = "hero01rig".
Proof. reflexivity. Qed.

Example accented_name_sanitized :
  RumbaSessionCollector.alphanumeric_sub Scenes.posix "" "héro_01" = "héro01".
Proof. reflexivity. Qed.

Example signs_are_removed :
  RumbaSessionCollector.alphanumeric_sub Scenes.posix "" "a×b_¼÷" = "ab¼".
Proof. reflexivity. Qed.

Example characters_of_a_name :
  Utf8.chars "hé_1" = ["h"; "é"; "_"; "1"].
Proof. reflexivity. Qed.

Example walk_of_shot :
  map full_document_name (Breakdown.scanned_nodes Scenes.shot)
  = ["hero"; "hero/stage"; "clip"].
Proof. vm_compute. reflexivity. Qed.

Example item_of_hero :
  Breakdown.new_item Scenes.hero "/assets/hero.rumbanode"
  = mkItem "<span style='color:#e7a81d'><b>hero</b></span><br/><nobr><b><sub>Asset</sub></b></nobr>"
           "hero" "Asset".
Proof. reflexivity. Qed.

Example stale_update_raises :
  fst (Breakdown.update Scenes.stale_items Scenes.studio)
  = Raise (RuntimeError "no child named ghost").
Proof. vm_compute. reflexivity. Qed.

Example update_moves_hero :
  option_map (fun d => map reference_filename (children (doc_node d)))
    (active_document
       (snd (Breakdown.update
               [Breakdown.ref_entry Scenes.hero "/assets/hero_v002.rumbanode"]
               Scenes.studio)))
  = Some ["/assets/hero_v002.rumbanode"; ""].
Proof. vm_compute. reflexivity. Qed.

Example frame_range_of_shot :
  fst (FrameOperation.get_frame_range Scenes.studio) = Ok (1, 100)%Z.
Proof. reflexivity. Qed.

Example set_frame_range_needs_ints :
  FrameOperation.set_frame_range PyNone (PyInt 10) Scenes.studio
  = (Raise (TypeError "int() argument must be a string, a bytes-like object or a number, not 'NoneType'"),
     Scenes.studio).
Proof. reflexivity. Qed.

Example media_import_calls :
  journal (snd (RumbaActions.execute_action "import_media" None
                  (mkPublishData "/publish/clip.MOV" (Some (Some "clip_v001"))) Scenes.studio))
  = [ ModifyBegin "Shotgun Import File"; AddMediaLayer (Some "clip_v001");
      GetMedia "/publish/clip.MOV"; AddMediaClip (Some "clip_v001") "/publish/clip.MOV" 1;
      ModifyEnd ].
Proof. vm_compute. reflexivity. Qed.

Example unknown_action_does_nothing :
  journal (snd (RumbaActions.execute_action "open" None
                  (mkPublishData "/publish/hero.usd" None) Scenes.studio)) = [].
Proof. reflexivity. Qed.

End Examples.

(** ** The breakdown hook: scanning *)

Module BreakdownFacts.
Import Breakdown BreakdownSpec.

Lemma filter_flat_map {A B} (p : B -> bool) (g : A -> list B) (l : list A) :
  List.filter p (flat_map g l) = flat_map (fun a => List.filter p (g a)) l.
Proof.
  induction l as [|a l IH]; simpl; [reflexivity|].
  now rewrite List.filter_app, IH.
Qed.

Lemma fold_left_walk (f : Node -> list Node -> list Node) (g : Node -> list Node)
      (cs : list Node) :
  Forall (fun c => forall acc, f c acc = acc ++ g c) cs ->
  forall acc, fold_left (fun acc c => f c acc) cs acc = acc ++ flat_map g cs.
Proof.
  induction 1 as [|c cs Hc _ IH]; intros acc; simpl.
  - now rewrite app_nil_r.
  - rewrite Hc, IH. now rewrite <- app_assoc.
Qed.

Lemma find_nodes_with_reference_walk (n : Node) :
  forall results,
    find_nodes_with_reference n results
    = results ++ List.filter referenced (preorder n).
Proof.
  induction n as [n IH] using Node_forall_ind. intros results.
  destruct n as [nm ty rf pl cs]; simpl in *.
  rewrite (fold_left_walk (fun c acc => find_nodes_with_reference c acc)
                          (fun c => List.filter referenced (preorder c)) cs IH).
  rewrite filter_flat_map. unfold referenced at 2; simpl.
  destruct (truthy rf); simpl; [now rewrite <- app_assoc | reflexivity].
Qed.

Lemma find_nodes_with_plug_walk (plug_name : string) (tn : option (list string))
      (n : Node) :
  forall results,
    find_nodes_with_plug n plug_name tn results
    = results ++ List.filter (plug_of_type plug_name tn) (preorder n).
Proof.
  induction n as [n IH] using Node_forall_ind. intros results.
  destruct n as [nm ty rf pl cs]; simpl in *.
  rewrite (fold_left_walk (fun c acc => find_nodes_with_plug c plug_name tn acc)
             (fun c => List.filter (plug_of_type plug_name tn) (preorder c)) cs IH).
  rewrite filter_flat_map. unfold plug_of_type at 2; simpl.
  destruct (has_plug _ _); simpl; [|reflexivity].
  destruct (type_filter _ _); simpl; [now rewrite <- app_assoc | reflexivity].
Qed.

Lemma scanned_nodes_collected (d : Document) :
  scanned_nodes d = collected_nodes d.
Proof.
  unfold scanned_nodes, collected_nodes.
  rewrite find_nodes_with_reference_walk, !find_nodes_with_plug_walk; simpl.
  now rewrite <- app_assoc.
Qed.

Lemma collected_in_preorder (d : Document) (n : Node) :
  In n (collected_nodes d) -> In n (preorder (doc_node d)).
Proof.
  unfold collected_nodes. rewrite !in_app_iff, !filter_In. tauto.
Qed.

(** ** The loop *)

Lemma scan_nodes_ok (nodes : list Node) :
  forall refs out,
    scan_nodes nodes refs = Ok out ->
    out = refs ++ flat_map entries_of nodes /\ Forall resolves nodes.
Proof.
  induction nodes as [|n nodes IH]; intros refs out H; simpl in *.
  - inversion H; subst. now rewrite app_nil_r.
  - unfold entries_of. destruct (get_node_file_path n) as [[p|]|e] eqn:E; simpl in *.
    + destruct (truthy p); apply IH in H as [-> HF]; split;
        try (constructor; [now exists (Some p) | exact HF]).
      * now rewrite <- app_assoc.
      * reflexivity.
    + apply IH in H as [-> HF]. split; [reflexivity|].
      constructor; [now exists None | exact HF].
    + discriminate.
Qed.

Lemma scan_nodes_total (nodes : list Node) :
  Forall resolves nodes ->
  forall refs, scan_nodes nodes refs = Ok (refs ++ flat_map entries_of nodes).
Proof.
  induction 1 as [|n nodes [p Hp] _ IH]; intros refs; simpl.
  - now rewrite app_nil_r.
  - unfold entries_of. rewrite Hp. destruct p as [p|]; simpl.
    + destruct (truthy p); rewrite IH; [now rewrite <- app_assoc | reflexivity].
    + now rewrite IH.
Qed.

Lemma scan_scene_result (w : World) :
  fst (scan_scene w)
  = match active_document w with
    | Some d => scan_nodes (scanned_nodes d) []
    | None => Ok []
    end.
Proof.
  unfold scan_scene, bind, lift, log_debug, emit, ret.
  destruct (active_document w) as [d|]; [|reflexivity].
  now destruct (scan_nodes (scanned_nodes d) []).
Qed.

Lemma scan_scene_returned (w : World) (d : Document) (refs : list scene_dict) :
  active_document w = Some d ->
  fst (scan_scene w) = Ok refs ->
  refs = flat_map entries_of (collected_nodes d).
Proof.
  intros Hd. rewrite scan_scene_result, Hd, scanned_nodes_collected. intros H.
  now apply scan_nodes_ok in H as [-> _].
Qed.

Lemma entries_of_shape (d : Document) (n : Node) :
  In n (preorder (doc_node d)) ->
  Forall (scan_result_shape d) (entries_of n).
Proof.
  intros Hn. unfold entries_of.
  destruct (get_node_file_path n) as [[p|]|e] eqn:E; try constructor.
  destruct (truthy p) eqn:T; constructor; [|constructor].
  split; [reflexivity|]. exists n, p.
  repeat split; try reflexivity; try assumption.
  now apply truthy_true.
Qed.

(** C1, as the code has it: when no collected node makes
    [get_node_file_path] raise, [scan_scene] returns, in the order of the
    collected list (the reference walk, then the [UsdAsset] walk, then the
    [Media] walk), one entry for each element whose path is a non-empty
    string and none for the others; and it returns nothing else. *)
Theorem scan_scene_entries (w : World) (d : Document) (refs : list scene_dict) :
  active_document w = Some d ->
  fst (scan_scene w) = Ok refs <->
  Forall resolves (collected_nodes d) /\
  refs = flat_map entries_of (collected_nodes d).
Proof.
  intros Hd. rewrite scan_scene_result, Hd, scanned_nodes_collected. split.
  - intros H. apply scan_nodes_ok in H as [-> HF]. now split.
  - intros [HF ->]. now rewrite (scan_nodes_total _ HF).
Qed.

Lemma scan_scene_entries_witness :
  fst (scan_scene (Scenes.world_of (Some Scenes.shot) "shot.rumba"))
  = Ok [ ref_entry Scenes.hero "/assets/hero.rumbanode";
         ref_entry Scenes.stage "/assets/hero.usd";
         ref_entry Scenes.clip "/media/clip.mov" ].
Proof.
  apply (proj2 (scan_scene_entries (Scenes.world_of (Some Scenes.shot) "shot.rumba")
                                   Scenes.shot _ eq_refl)).
  split.
  - repeat constructor; eexists; vm_compute; reflexivity.
  - vm_compute. reflexivity.
Defined.

(** C1, as stated, fails: a [UsdAsset] node that is the root of a
    reference is met by the reference walk and by the [file_path] walk, and
    gets two entries. *)
Lemma scan_scene_node_listed_twice :
  ~ (forall w d refs,
        active_document w = Some d ->
        fst (scan_scene w) = Ok refs ->
        one_entry_per_node d refs).
Proof.
  intros H.
  specialize (H (Scenes.world_of (Some Scenes.prop_scene) "props.rumba")
                Scenes.prop_scene
                [ ref_entry Scenes.prop_node "/assets/prop.usd";
                  ref_entry Scenes.prop_node "/assets/prop.usd" ]
                eq_refl).
  assert (E : fst (scan_scene (Scenes.world_of (Some Scenes.prop_scene) "props.rumba"))
              = Ok [ ref_entry Scenes.prop_node "/assets/prop.usd";
                     ref_entry Scenes.prop_node "/assets/prop.usd" ])
    by (vm_compute; reflexivity).
  specialize (H E Scenes.prop_node).
  assert (I : In Scenes.prop_node (preorder (doc_node Scenes.prop_scene)))
    by (right; left; reflexivity).
  specialize (H I). vm_compute in H. discriminate H.
Qed.

(** *** When the walks are disjoint

    On a document in which no [UsdAsset] or [Media] node is the root of a
    reference, and whose nodes have distinct full document names, each node
    does get one entry or none. *)

Lemma entries_for_node (n : Node) (l : list Node) :
  length (List.filter (entry_is_for n) (flat_map entries_of l))
  = length (List.filter (fun m => has_file_path m && named (full_document_name n) m) l).
Proof.
  induction l as [|m l IH]; simpl; [reflexivity|].
  rewrite List.filter_app, length_app, IH. unfold entries_of, has_file_path.
  destruct (get_node_file_path m) as [[p|]|e]; simpl; try reflexivity.
  destruct (truthy p); simpl; [|reflexivity].
  unfold entry_is_for, named; simpl.
  now destruct (String.eqb (full_document_name m) (full_document_name n)).
Qed.

Lemma filter_named_twice (g h : Node -> bool) (target : string) (l : list Node) :
  List.filter (fun m => h m && named target m) (List.filter g l)
  = List.filter (fun m => (g m && h m) && named target m) l.
Proof.
  induction l as [|a l IH]; simpl; [reflexivity|].
  destruct (g a); simpl; [|exact IH].
  destruct (h a && named target a); simpl; now rewrite IH.
Qed.

Lemma count_named (g : Node -> bool) (n : Node) (l : list Node) :
  List.NoDup (map full_document_name l) -> In n l ->
  length (List.filter (fun m => g m && named (full_document_name n) m) l)
  = if g n then 1%nat else 0%nat.
Proof.
  induction l as [|x l IH]; simpl; intros ND I; [contradiction|].
  inversion ND as [|? ? Hx ND']; subst. destruct I as [->|I].
  - unfold named at 1. rewrite String.eqb_refl, andb_true_r.
    assert (Z : List.filter (fun m => g m && named (full_document_name n) m) l = []).
    { clear IH ND ND'. induction l as [|y l IHl]; simpl; [reflexivity|].
      destruct (named (full_document_name n) y) eqn:E.
      - apply String.eqb_eq in E. exfalso. apply Hx. left. exact E.
      - rewrite andb_false_r. apply IHl. intros F. apply Hx. now right. }
    rewrite Z. now destruct (g n).
  - destruct (named (full_document_name n) x) eqn:E.
    + apply String.eqb_eq in E. exfalso. apply Hx. rewrite E. now apply in_map.
    + rewrite andb_false_r. now apply IH.
Qed.

Lemma one_walk_meets (d : Document) (n : Node) :
  walks_disjoint d -> In n (preorder (doc_node d)) ->
  has_file_path n = true ->
  (Nat.b2n (referenced n)
   + Nat.b2n (plug_of_type "file_path" (Some ["UsdAsset"]) n)
   + Nat.b2n (plug_of_type "file" (Some ["Media"]) n) = 1)%nat.
Proof.
  intros W I. specialize (W n I).
  unfold has_file_path, get_node_file_path, referenced, plug_of_type, type_filter,
         has_plug, plug_as_string in *.
  destruct (str_in (type_name n) ["Asset"]) eqn:TA.
  { apply str_in_true in TA as [TA|[]]. rewrite <- TA. simpl.
    intros ->. now rewrite !andb_false_r. }
  destruct (str_in (type_name n) ["UsdAsset"]) eqn:TU.
  { apply str_in_true in TU as [TU|[]]. rewrite <- TU in *. simpl in *.
    destruct (plugs n !! "file_path") as [v|] eqn:E; [|discriminate]. intros _.
    rewrite bool_decide_eq_true_2 by (now exists v).
    destruct (truthy (reference_filename n)); [now specialize (W eq_refl)|].
    now rewrite !andb_false_r. }
  destruct (str_in (type_name n) ["Media"]) eqn:TM; [|discriminate].
  apply str_in_true in TM as [TM|[]]. rewrite <- TM in *. simpl in *.
  destruct (plugs n !! "file") as [v|] eqn:E; [|discriminate]. intros _.
  rewrite andb_false_r, bool_decide_eq_true_2 by (now exists v).
  now destruct (truthy (reference_filename n)); [specialize (W eq_refl)|].
Qed.

Lemma scan_scene_one_entry_when_disjoint (w : World) (d : Document)
      (refs : list scene_dict) :
  active_document w = Some d ->
  List.NoDup (map full_document_name (preorder (doc_node d))) ->
  walks_disjoint d ->
  fst (scan_scene w) = Ok refs ->
  one_entry_per_node d refs.
Proof.
  intros Hd ND W Hscan n I.
  rewrite (scan_scene_returned w d refs Hd Hscan). unfold collected_nodes.
  rewrite !flat_map_app, !List.filter_app, !length_app, !entries_for_node, !filter_named_twice.
  rewrite !(count_named _ n _ ND I).
  destruct (has_file_path n) eqn:Hp.
  - pose proof (one_walk_meets d n W I Hp) as S.
    rewrite !andb_true_r.
    destruct (referenced n), (plug_of_type "file_path" (Some ["UsdAsset"]) n),
             (plug_of_type "file" (Some ["Media"]) n); simpl in *; lia.
  - now rewrite !andb_false_r.
Qed.

(** C2, as the code has it: every dictionary returned by [scan_scene] has
    the three keys [node], [type] and [path]: [node] is the item built for
    a node of the document, [type] is the constant ["file"], and [path] is
    that node's non-empty file path. *)
Theorem scan_scene_entry_shape (w : World) (refs : list scene_dict) :
  fst (scan_scene w) = Ok refs ->
  match active_document w with
  | Some d => Forall (scan_result_shape d) refs
  | None => refs = []
  end.
Proof.
  rewrite scan_scene_result. destruct (active_document w) as [d|].
  - rewrite scanned_nodes_collected. intros H.
    apply scan_nodes_ok in H as [-> _]. simpl.
    apply List.Forall_forall. intros e He. apply in_flat_map in He as (n & Hn & He).
    apply collected_in_preorder in Hn.
    pose proof (entries_of_shape d n Hn) as HF.
    rewrite List.Forall_forall in HF. now apply HF.
  - intros H. now inversion H.
Qed.

Lemma scan_scene_entry_shape_witness :
  Forall (scan_result_shape Scenes.shot)
         [ ref_entry Scenes.hero "/assets/hero.rumbanode";
           ref_entry Scenes.stage "/assets/hero.usd";
           ref_entry Scenes.clip "/media/clip.mov" ].
Proof.
  apply (scan_scene_entry_shape (Scenes.world_of (Some Scenes.shot) "shot.rumba")).
  vm_compute. reflexivity.
Defined.

(** C2, as stated, fails: the dictionaries have no [attr] key. *)
Lemma scan_scene_has_no_attr_key :
  ~ (forall w refs,
        fst (scan_scene w) = Ok refs ->
        Forall (fun e => has_exactly_keys e ["attr"; "type"; "path"]) refs).
Proof.
  intros H.
  assert (E : fst (scan_scene (Scenes.world_of (Some Scenes.shot) "shot.rumba"))
              = Ok [ ref_entry Scenes.hero "/assets/hero.rumbanode";
                     ref_entry Scenes.stage "/assets/hero.usd";
                     ref_entry Scenes.clip "/media/clip.mov" ])
    by (vm_compute; reflexivity).
  apply H in E. inversion E as [|e l He _]; subst.
  destruct (He "attr") as [_ Hattr].
  specialize (Hattr (or_introl eq_refl)). simpl in Hattr.
  repeat (destruct Hattr as [Hattr|Hattr]; [discriminate Hattr|]). exact Hattr.
Qed.

End BreakdownFacts.

(** ** The breakdown hook: updating *)

Module UpdateFacts.
Import Breakdown BreakdownSpec BreakdownFacts.

Lemma find_app_first {A} (p : A -> bool) (l1 l2 : list A) :
  List.find p (l1 ++ l2)
  = match List.find p l1 with
    | Some x => Some x
    | None => List.find p l2
    end.
Proof.
  induction l1 as [|a l1 IH]; simpl; [reflexivity|].
  now destruct (p a).
Qed.

Lemma find_node_unfold (target : string) (m : Node) :
  find_node target m
  = if named target m then Some m else find_first target (children m).
Proof. destruct m; reflexivity. Qed.

Lemma modify_node_unfold (target : string) (f : Node -> Node) (m : Node) :
  modify_node target f m
  = if named target m then Some (f m)
    else match modify_first target f (children m) with
         | Some cs' => Some (set_children m cs')
         | None => None
         end.
Proof. destruct m; reflexivity. Qed.

Lemma find_first_preorder (target : string) (cs : list Node) :
  Forall (fun c => find_node target c = List.find (named target) (preorder c)) cs ->
  find_first target cs = List.find (named target) (flat_map preorder cs).
Proof.
  induction 1 as [|c cs Hc _ IH]; simpl; [reflexivity|].
  rewrite find_app_first, Hc, IH. reflexivity.
Qed.

Lemma find_node_preorder (target : string) (m : Node) :
  find_node target m = List.find (named target) (preorder m).
Proof.
  induction m as [m IH] using Node_forall_ind.
  rewrite find_node_unfold. destruct m as [nm ty rf pl cs]; simpl in *.
  rewrite (find_first_preorder target cs IH). reflexivity.
Qed.

Lemma find_first_flat (target : string) (cs : list Node) :
  find_first target cs = List.find (named target) (flat_map preorder cs).
Proof.
  apply find_first_preorder. apply List.Forall_forall.
  intros c _. apply find_node_preorder.
Qed.

Lemma find_unique (l : list Node) (n : Node) :
  List.NoDup (map full_document_name l) -> In n l ->
  List.find (named (full_document_name n)) l = Some n.
Proof.
  induction l as [|x l IH]; simpl; intros ND I; [contradiction|].
  destruct I as [E|I].
  - subst x. unfold named. now rewrite String.eqb_refl.
  - inversion ND as [|? ? Hx ND']; subst.
    destruct (named (full_document_name n) x) eqn:Ex.
    + apply String.eqb_eq in Ex. exfalso. apply Hx. rewrite Ex.
      now apply in_map.
    + now apply IH.
Qed.

(** A handle taken by name reaches the node itself. *)
Lemma find_first_unique (d : Document) (n : Node) :
  unique_names d -> In n (descendants d) ->
  find_first (full_document_name n) (children (doc_node d)) = Some n.
Proof.
  intros U I. rewrite find_first_flat. now apply find_unique.
Qed.

Lemma modify_first_fixes (target : string) (f : Node -> Node) (cs : list Node) :
  Forall (fun c => fixes_found target f (find_node target c) c (modify_node target f c)) cs ->
  fixes_found target f (find_first target cs) cs (modify_first target f cs).
Proof.
  induction 1 as [|c cs Hc _ IH]; simpl; [reflexivity|].
  unfold fixes_found in *. destruct (find_node target c) as [x|].
  - intros Hx. now rewrite (Hc Hx).
  - rewrite Hc. destruct (find_first target cs) as [x|].
    + intros Hx. now rewrite (IH Hx).
    + now rewrite IH.
Qed.

(** Writing back what the node already holds leaves the tree as it was. *)
Lemma modify_node_fixes (target : string) (f : Node -> Node) (m : Node) :
  fixes_found target f (find_node target m) m (modify_node target f m).
Proof.
  induction m as [m IH] using Node_forall_ind.
  rewrite find_node_unfold, modify_node_unfold.
  destruct (named target m).
  - intros Hm. now rewrite Hm.
  - pose proof (modify_first_fixes target f (children m) IH) as HF.
    unfold fixes_found in *. destruct (find_first target (children m)) as [x|].
    + intros Hx. rewrite (HF Hx). now destruct m.
    + now rewrite HF.
Qed.

Lemma modify_first_same (d : Document) (n : Node) (f : Node -> Node) :
  unique_names d -> In n (descendants d) -> f n = n ->
  modify_first (full_document_name n) f (children (doc_node d))
  = Some (children (doc_node d)).
Proof.
  intros U I Hf.
  pose proof (modify_first_fixes (full_document_name n) f (children (doc_node d))) as HF.
  unfold fixes_found in HF at 2. rewrite (find_first_unique d n U I) in HF.
  apply HF; [|exact Hf].
  apply List.Forall_forall. intros c _. apply modify_node_fixes.
Qed.

Lemma set_doc_children_same (d : Document) :
  set_doc_children d (children (doc_node d)) = d.
Proof. destruct d as [[nm ty rf pl cs] a b c e]; reflexivity. Qed.

Lemma write_node_same (d : Document) (n : Node) (f : Node -> Node) (c : HostCall)
      (w : World) :
  active_document w = Some d ->
  unique_names d -> In n (descendants d) -> f n = n ->
  write_node (full_document_name n) f c w
  = (Ok tt, add_call c (set_document (Some d) w)).
Proof.
  intros Hd U I Hf. unfold write_node. rewrite Hd.
  rewrite (modify_first_same d n f U I Hf), set_doc_children_same. reflexivity.
Qed.

Lemma set_reference_same (n : Node) : set_reference (reference_filename n) n = n.
Proof. destruct n; reflexivity. Qed.

Lemma set_plug_same (n : Node) (plug_name v : string) :
  plug_as_string n plug_name = Ok v -> set_plug plug_name v n = n.
Proof.
  unfold plug_as_string, set_plug. destruct n as [nm ty rf pl cs]; simpl.
  destruct (pl !! plug_name) as [v'|] eqn:E; [|discriminate].
  intros H. inversion H; subst. now rewrite (insert_id pl plug_name v E).
Qed.

(** Setting the path a node resolves to does not change the document. *)
Lemma set_node_file_path_same (d : Document) (n : Node) (p : string) (w : World) :
  active_document w = Some d ->
  unique_names d -> In n (descendants d) ->
  get_node_file_path n = Ok (Some p) ->
  exists w', set_node_file_path n p w = (Ok tt, w') /\ active_document w' = Some d.
Proof.
  intros Hd U I. unfold get_node_file_path, set_node_file_path.
  destruct (str_in (type_name n) ["Asset"]).
  { intros H. inversion H; subst. unfold replace_reference.
    rewrite (write_node_same d n _ _ w Hd U I (set_reference_same n)).
    eexists; split; reflexivity. }
  destruct (str_in (type_name n) ["UsdAsset"]).
  { destruct (plug_as_string n "file_path") as [v|e] eqn:E; [|discriminate].
    intros H. inversion H; subst. unfold plug_set_value, bind, lift. rewrite E.
    rewrite (write_node_same d n _ _ w Hd U I (set_plug_same n _ _ E)).
    eexists; split; reflexivity. }
  destruct (str_in (type_name n) ["Media"]); [|discriminate].
  destruct (plug_as_string n "file") as [v|e] eqn:E; [|discriminate].
  intros H. inversion H; subst. unfold plug_set_value, bind, lift. rewrite E.
  rewrite (write_node_same d n _ _ w Hd U I (set_plug_same n _ _ E)).
  eexists; split; reflexivity.
Qed.

Lemma update_item_same (d : Document) (n : Node) (p : string) (w : World) :
  active_document w = Some d ->
  unique_names d -> In n (descendants d) ->
  get_node_file_path n = Ok (Some p) ->
  exists w', update_item (ref_entry n p) w = (Ok tt, w') /\ active_document w' = Some d.
Proof.
  intros Hd U I G.
  unfold update_item, bind, lift, child_of_active, child, log_debug, emit, ret; simpl.
  rewrite Hd, (find_first_unique d n U I); simpl.
  apply set_node_file_path_same; assumption.
Qed.

Lemma for_each_same (d : Document) (nodes : list Node) :
  unique_names d ->
  Forall (fun n => has_file_path n = true -> In n (descendants d)) nodes ->
  forall w, active_document w = Some d ->
  exists w', for_each (flat_map entries_of nodes) update_item w = (Ok tt, w')
             /\ active_document w' = Some d.
Proof.
  intros U. induction 1 as [|n nodes Hn _ IH]; intros w Hd; simpl.
  - exists w. now split.
  - unfold has_file_path in Hn. unfold entries_of at 1.
    destruct (get_node_file_path n) as [[p|]|e] eqn:G; simpl; try (now apply IH).
    destruct (truthy p); simpl; [|now apply IH].
    destruct (update_item_same d n p w Hd U (Hn eq_refl) G) as (w1 & E1 & Hd1).
    unfold bind. rewrite E1. now apply IH.
Qed.

(** C3: [update] called with the list [scan_scene] returned, paths
    untouched, succeeds and leaves the active document exactly as it was.
    The document is one of the host: the nodes below it have distinct full
    document names, and the document node itself is no file reference. *)
Theorem update_scan_scene_unchanged (w : World) (d : Document) (refs : list scene_dict) :
  active_document w = Some d ->
  unique_names d ->
  has_file_path (doc_node d) = false ->
  fst (scan_scene w) = Ok refs ->
  exists w', update refs w = (Ok tt, w') /\ active_document w' = Some d.
Proof.
  intros Hd U Hroot Hscan.
  apply (scan_scene_returned w d refs Hd) in Hscan as ->.
  assert (HF : Forall (fun n => has_file_path n = true -> In n (descendants d))
                      (collected_nodes d)).
  { apply List.Forall_forall. intros n Hn Hp.
    apply collected_in_preorder in Hn. destruct (doc_node d) as [nm ty rf pl cs] eqn:Er.
    unfold descendants. rewrite Er. simpl in *. destruct Hn as [<-|Hn]; [|exact Hn].
    rewrite Hroot in Hp. discriminate. }
  unfold update, bind, log_debug, emit, host; simpl. rewrite Hd.
  destruct (for_each_same d (collected_nodes d) U HF
              (add_call (ModifyBegin "Shotgun Update References")
                 (add_log (mkLog Debug "items: %s"
                             [ARefs (flat_map entries_of (collected_nodes d))] None) w))
              Hd) as (w1 & E1 & Hd1).
  rewrite E1. eexists. split; [reflexivity | exact Hd1].
Qed.

Lemma update_scan_scene_unchanged_witness :
  exists w',
    update [ ref_entry Scenes.hero "/assets/hero.rumbanode";
             ref_entry Scenes.stage "/assets/hero.usd";
             ref_entry Scenes.clip "/media/clip.mov" ]
           (Scenes.world_of (Some Scenes.shot) "shot.rumba") = (Ok tt, w')
    /\ active_document w' = Some Scenes.shot.
Proof.
  apply (update_scan_scene_unchanged _ Scenes.shot).
  - reflexivity.
  - apply NoDup_ListNoDup, (bool_decide_unpack _). vm_compute. exact I.
  - vm_compute. reflexivity.
  - vm_compute. reflexivity.
Defined.

End UpdateFacts.

(** ** The frame range hook *)

Module FrameFacts.
Import FrameOperation.

(** C4: with an active document, [set_frame_range(a, b)] returns, and a
    [get_frame_range()] that follows returns [(a, b)]. *)
Theorem set_then_get_frame_range (w : World) (d : Document) (a b : Z) :
  active_document w = Some d ->
  exists w',
    set_frame_range (PyInt a) (PyInt b) w = (Ok tt, w') /\
    get_frame_range w' = (Ok (a, b), w').
Proof.
  intros Hd. unfold set_frame_range, get_frame_range, bind, lift, host, set_value.
  simpl. rewrite Hd. simpl. eexists. split; reflexivity.
Qed.

Lemma set_then_get_frame_range_witness :
  exists w',
    set_frame_range (PyInt 1001) (PyInt (-5))
                    (Scenes.world_of (Some Scenes.shot) "shot.rumba") = (Ok tt, w') /\
    get_frame_range w' = (Ok (1001, -5)%Z, w').
Proof.
  apply (set_then_get_frame_range _ Scenes.shot). reflexivity.
Defined.

(** C9: without an active document, [get_frame_range] returns [(0, 0)]
    and [set_frame_range] does nothing at all, whatever its arguments. *)
Theorem frame_range_without_document (w : World) (in_frame out_frame : value) :
  active_document w = None ->
  get_frame_range w = (Ok (0, 0)%Z, w) /\
  set_frame_range in_frame out_frame w = (Ok tt, w).
Proof.
  intros Hd. unfold get_frame_range, set_frame_range. rewrite Hd. now split.
Qed.

Lemma frame_range_without_document_witness :
  get_frame_range (Scenes.world_of None "untitled")
  = (Ok (0, 0)%Z, Scenes.world_of None "untitled") /\
  set_frame_range PyNone (PyInt 7) (Scenes.world_of None "untitled")
  = (Ok tt, Scenes.world_of None "untitled").
Proof.
  apply frame_range_without_document. reflexivity.
Defined.

End FrameFacts.

(** ** The loader hook *)

Module LoaderFacts.
Import RumbaActions LoaderSpec.

Ltac run_hook :=
  unfold bind, lift, ret, raise, host, log_debug, log_warning, emit; simpl.



(** *** Batches *)

Lemma dispatched_app (l1 l2 : list LogRecord) :
  dispatched (l1 ++ l2) = dispatched l1 ++ dispatched l2.
Proof. unfold dispatched. apply flat_map_app. Qed.

(** [execute_action] writes no dispatch record of its own. *)
Lemma execute_action_dispatched (name : string) (params : option string)
      (d : PublishData) (w : World) :
  dispatched (log (snd (execute_action name params d w))) = dispatched (log w).
Proof.
  unfold execute_action, _reference_into_current_document,
         _import_into_current_document, _import_media_into_new_media_layer.
  run_hook.
  repeat match goal with
         | |- context [if ?b then _ else _] => destruct b; simpl
         | |- context [match active_document ?x with _ => _ end] =>
             destruct (active_document x); simpl
         end;
    rewrite ?dispatched_app; simpl; rewrite ?app_nil_r; reflexivity.
Qed.

Lemma execute_multiple_actions_cons (a : Action) (l : list Action) (w : World) :
  execute_multiple_actions (a :: l) w
  = match execute_action (name a) (params a) (sg_publish_data a)
                         (add_log (single_action_record a) w) with
    | (Ok _, w') => execute_multiple_actions l w'
    | (Raise e, w') => (Raise e, w')
    end.
Proof. reflexivity. Qed.

Lemma execute_multiple_actions_dispatched (pre : list Action) :
  forall w w1,
    execute_multiple_actions pre w = (Ok tt, w1) ->
    dispatched (log w1) = dispatched (log w) ++ pre.
Proof.
  induction pre as [|x pre IH]; intros w w1 H.
  - inversion H; subst. now rewrite app_nil_r.
  - rewrite execute_multiple_actions_cons in H.
    pose proof (execute_action_dispatched (name x) (params x) (sg_publish_data x)
                  (add_log (single_action_record x) w)) as D.
    destruct (execute_action _ _ _ _) as [[u|e] w'] eqn:E; [|discriminate].
    apply IH in H. rewrite H. simpl in D. rewrite D.
    simpl. rewrite dispatched_app. simpl. rewrite <- app_assoc. reflexivity.
Qed.

Lemma execute_multiple_actions_app (pre rest : list Action) :
  forall w w1,
    execute_multiple_actions pre w = (Ok tt, w1) ->
    execute_multiple_actions (pre ++ rest) w = execute_multiple_actions rest w1.
Proof.
  induction pre as [|x pre IH]; intros w w1 H.
  - inversion H; subst. reflexivity.
  - simpl app. rewrite execute_multiple_actions_cons in *.
    destruct (execute_action _ _ _ _) as [[u|e] w'] eqn:E; [|discriminate].
    now apply IH.
Qed.

(** Executing the actions of [pre] one by one is what the batch does
    with them. *)
Lemma execute_multiple_actions_returns (pre : list Action) :
  forall w, all_return pre w -> execute_multiple_actions pre w = (Ok tt, executed pre w).
Proof.
  induction pre as [|x pre IH]; intros w H; [reflexivity|].
  destruct H as [Hx Hpre]. rewrite execute_multiple_actions_cons.
  unfold dispatch in *. simpl executed. unfold dispatch.
  destruct (execute_action _ _ _ _) as [[[]|e] w']; [|discriminate].
  now apply IH.
Qed.

(** [execute_action] raises before it calls the host. *)
Lemma execute_action_raises_early (name : string) (params : option string)
      (d : PublishData) (w w2 : World) (e : exn) :
  execute_action name params d w = (Raise e, w2) ->
  journal w2 = journal w /\ active_document w2 = active_document w.
Proof.
  unfold execute_action, _reference_into_current_document,
         _import_into_current_document, _import_media_into_new_media_layer.
  run_hook.
  repeat match goal with
         | |- context [if ?b then _ else _] => destruct b; simpl
         | |- context [match active_document ?x with _ => _ end] =>
             destruct (active_document x) eqn:?; simpl
         end;
    intros H; inversion H; subst; simpl; now split.
Qed.

(** C7: the actions are executed one by one in list order, each in the
    world the one before it left; when the actions of [pre] return and
    [execute_action] raises on the next one, the batch raises that
    exception in the world this call left, which holds what the actions of
    [pre] did and nothing more of the host: the dispatched actions are
    those of [pre] and the failing one, in order, and none of [post] is
    executed, whatever [post] is. *)
Theorem execute_multiple_actions_stops (pre post : list Action) (a : Action)
        (w w2 : World) (e : exn) :
  all_return pre w ->
  dispatch a (executed pre w) = (Raise e, w2) ->
  execute_multiple_actions (pre ++ a :: post) w = (Raise e, w2) /\
  dispatched (log w2) = dispatched (log w) ++ pre ++ [a] /\
  journal w2 = journal (executed pre w) /\
  active_document w2 = active_document (executed pre w).
Proof.
  intros Hpre Ha.
  pose proof (execute_multiple_actions_returns pre w Hpre) as Hrun.
  unfold dispatch in Ha. split; [|split].
  - rewrite (execute_multiple_actions_app pre (a :: post) w _ Hrun).
    rewrite execute_multiple_actions_cons, Ha. reflexivity.
  - pose proof (execute_action_dispatched (name a) (params a) (sg_publish_data a)
                  (add_log (single_action_record a) (executed pre w))) as D.
    rewrite Ha in D. simpl in D. rewrite D, dispatched_app.
    rewrite (execute_multiple_actions_dispatched pre w _ Hrun).
    simpl. rewrite <- app_assoc. reflexivity.
  - exact (execute_action_raises_early _ _ _ _ _ _ Ha).
Qed.

Lemma execute_multiple_actions_stops_witness :
  execute_multiple_actions ([Scenes.load_usd] ++ Scenes.load_txt :: [Scenes.load_abc])
                           Scenes.studio
  = (Raise (Exception "Unsupported file extension for '/publish/notes.txt'!"),
     snd (dispatch Scenes.load_txt (executed [Scenes.load_usd] Scenes.studio)))
  /\ dispatched
       (log (snd (dispatch Scenes.load_txt (executed [Scenes.load_usd] Scenes.studio))))
     = dispatched (log Scenes.studio) ++ [Scenes.load_usd] ++ [Scenes.load_txt]
  /\ journal (snd (dispatch Scenes.load_txt (executed [Scenes.load_usd] Scenes.studio)))
     = journal (executed [Scenes.load_usd] Scenes.studio)
  /\ active_document
       (snd (dispatch Scenes.load_txt (executed [Scenes.load_usd] Scenes.studio)))
     = active_document (executed [Scenes.load_usd] Scenes.studio).
Proof.
  apply (execute_multiple_actions_stops [Scenes.load_usd] [Scenes.load_abc] Scenes.load_txt
           Scenes.studio).
  - vm_compute. split; reflexivity.
  - vm_compute. reflexivity.
Defined.

(** The batch of the examples: the reference of the first action has
    reached the host, and nothing of the third. *)
Example batch_journal :
  journal (snd (execute_multiple_actions
                  [Scenes.load_usd; Scenes.load_txt; Scenes.load_abc] Scenes.studio))
  = [ModifyBegin "Shotgun Reference File"; Reference "/publish/hero.usd" ""; ModifyEnd].
Proof. vm_compute. reflexivity. Qed.

End LoaderFacts.

(** ** The begin/end bracket around the mutations *)

Module BracketFacts.
Import Brackets.

Lemma quiet_silent {A} (m : M A) :
  (forall w, journal (snd (m w)) = journal w) -> quiet m.
Proof.
  intros H w. exists []. rewrite H, app_nil_r. split; [reflexivity | constructor].
Qed.

Lemma quiet_ret {A} (a : A) : quiet (ret a).
Proof. now apply quiet_silent. Qed.

Lemma quiet_lift {A} (r : result A) : quiet (lift r).
Proof. now apply quiet_silent. Qed.

Lemma quiet_emit l f a x : quiet (emit l f a x).
Proof. now apply quiet_silent. Qed.

Lemma quiet_bind {A B} (m : M A) (k : A -> M B) :
  quiet m -> (forall a, quiet (k a)) -> quiet (bind m k).
Proof.
  intros Hm Hk w. unfold bind. destruct (Hm w) as (c1 & E1 & P1).
  destruct (m w) as [[a|e] w1]; simpl in E1.
  - destruct (Hk a w1) as (c2 & E2 & P2). exists (c1 ++ c2).
    rewrite E2, E1, <- app_assoc. split; [reflexivity|].
    apply List.Forall_app. now split.
  - exists c1. now split.
Qed.

Lemma quiet_write_node (target : string) (f : Node -> Node) (c : HostCall) :
  is_bracket c = false -> quiet (write_node target f c).
Proof.
  intros Hc w. unfold write_node.
  destruct (active_document w) as [d|];
    [destruct (modify_first target f (children (doc_node d)))|]; simpl.
  - exists [c]. split; [reflexivity | now constructor].
  - exists []. rewrite app_nil_r. split; [reflexivity | constructor].
  - exists []. rewrite app_nil_r. split; [reflexivity | constructor].
Qed.

Lemma quiet_child_of_active (node_name : string) :
  quiet (Breakdown.child_of_active node_name).
Proof.
  apply quiet_silent. intros w. unfold Breakdown.child_of_active, child.
  destruct (active_document w) as [d|]; [|reflexivity].
  now destruct (find_first node_name (children (doc_node d))).
Qed.

Lemma quiet_set_node_file_path (n : Node) (path : string) :
  quiet (Breakdown.set_node_file_path n path).
Proof.
  unfold Breakdown.set_node_file_path, replace_reference, plug_set_value.
  repeat match goal with
         | |- context [if ?b then _ else _] => destruct b
         end;
    repeat first [ apply quiet_ret
                 | apply quiet_lift
                 | apply quiet_write_node; reflexivity
                 | apply quiet_bind; [|intros ?] ].
Qed.

Lemma quiet_update_item (i : scene_dict) : quiet (Breakdown.update_item i).
Proof.
  unfold Breakdown.update_item, log_debug.
  repeat first [ apply quiet_lift
               | apply quiet_emit
               | apply quiet_child_of_active
               | apply quiet_set_node_file_path
               | apply quiet_bind; [|intros ?] ].
Qed.

Lemma quiet_for_each {A} (body : A -> M unit) (l : list A) :
  (forall x, quiet (body x)) -> quiet (for_each l body).
Proof.
  intros Hb. induction l as [|x l IH]; simpl.
  - apply quiet_ret.
  - apply quiet_bind; [apply Hb | intros _; exact IH].
Qed.

Lemma update_shape (items : list scene_dict) (w : World) :
  exists calls,
    journal (snd (Breakdown.update items w)) = journal w ++ calls /\
    shape (returned (fst (Breakdown.update items w))) calls.
Proof.
  unfold Breakdown.update, bind, log_debug, emit, host; simpl.
  destruct (active_document w) as [d|]; simpl.
  2:{ exists []. rewrite app_nil_r. split; [reflexivity | now left]. }
  match goal with
  | |- context [for_each items Breakdown.update_item ?w1] =>
      destruct (quiet_for_each Breakdown.update_item items quiet_update_item w1)
        as (muts & E & P);
      destruct (for_each items Breakdown.update_item w1) as [[u|e] w2]
  end; simpl in *.
  - exists (ModifyBegin "Shotgun Update References" :: muts ++ [ModifyEnd]).
    rewrite E, <- !app_assoc. split; [reflexivity|].
    right. exists "Shotgun Update References", muts. now split.
  - exists (ModifyBegin "Shotgun Update References" :: muts ++ []).
    rewrite E, app_nil_r, <- !app_assoc. split; [reflexivity|].
    right. exists "Shotgun Update References", muts. split; [exact P|].
    now rewrite app_nil_r.
Qed.

Ltac no_calls :=
  simpl; exists []; rewrite app_nil_r; split; [reflexivity | now left].

Ltac closed_shape l m :=
  simpl; exists (ModifyBegin l :: m ++ [ModifyEnd]);
  split;
  [ simpl; rewrite <- ?app_assoc; reflexivity
  | right; exists l, m; split; [repeat constructor | reflexivity] ].

Lemma run_shape (a : Adapter) (w : World) :
  exists calls,
    journal (snd (run a w)) = journal w ++ calls /\
    shape (returned (fst (run a w))) calls.
Proof.
  destruct a as [items|x y|path d|path d|path d]; simpl.
  - apply update_shape.
  - unfold FrameOperation.set_frame_range, FrameOperation.set_value,
           bind, lift, host.
    destruct (active_document w) as [doc|] eqn:Hd; [|no_calls].
    destruct x as [|x]; [no_calls|].
    destruct y as [|y]; [no_calls|].
    simpl. rewrite Hd. simpl.
    closed_shape "Shotgun Update Frame Range"
                 [ SetFrameValue "start_frame" x; SetFrameValue "end_frame" y;
                   SetFrameValue "range_start_frame" x;
                   SetFrameValue "range_end_frame" y ].
  - unfold RumbaActions._reference_into_current_document,
           bind, log_debug, log_warning, emit, host.
    destruct (active_document w); [|no_calls].
    destruct (path_exists w path); [|no_calls].
    closed_shape "Shotgun Reference File" [Reference path ""].
  - unfold RumbaActions._import_into_current_document,
           bind, log_debug, log_warning, emit, host.
    destruct (active_document w); [|no_calls].
    destruct (path_exists w path); [|no_calls].
    closed_shape "Shotgun Import File" [LoadNode path ""].
  - unfold RumbaActions._import_media_into_new_media_layer,
           bind, log_debug, log_warning, emit, host.
    destruct (active_document w); [|no_calls].
    destruct (path_exists w path); [|no_calls].
    closed_shape "Shotgun Import File"
                 [ AddMediaLayer (get_code d (basename (runtime w) path));
                   GetMedia path;
                   AddMediaClip (get_code d (basename (runtime w) path)) path
                                (current_frame w) ].
Qed.

Lemma plain_no_end (calls : list HostCall) : plain calls -> ~ In ModifyEnd calls.
Proof.
  intros P I. unfold plain in P. rewrite List.Forall_forall in P.
  specialize (P _ I). discriminate.
Qed.

Lemma split_in_bracket (pre post muts : list HostCall) (c : HostCall) (ok : bool) :
  pre ++ c :: post = muts ++ (if ok then [ModifyEnd] else []) ->
  plain muts -> is_bracket c = false ->
  plain pre /\ (ok = true -> In ModifyEnd post).
Proof.
  intros E P Hc. destruct ok.
  - destruct (List.exists_last (l := c :: post)) as (body & x & Ex); [discriminate|].
    rewrite Ex, app_assoc in E. apply app_inj_tail in E as [E ->].
    destruct post as [|y post].
    + destruct body; [|destruct body; discriminate].
      inversion Ex; subst. discriminate.
    + split.
      * unfold plain in *. rewrite <- E in P. now apply List.Forall_app in P as [P _].
      * intros _. destruct (List.exists_last (l := y :: post)) as (b & z & Ez);
          [discriminate|].
        rewrite Ez in Ex. rewrite app_comm_cons in Ex.
        apply app_inj_tail in Ex as [_ ->]. rewrite Ez. apply in_or_app.
        right. now left.
  - rewrite app_nil_r in E. split; [|discriminate].
    unfold plain in *. rewrite <- E in P. now apply List.Forall_app in P as [P _].
Qed.

Lemma shape_inside_open_bracket (ok : bool) (calls : list HostCall) :
  shape ok calls -> inside_open_bracket calls.
Proof.
  intros [->|(label & muts & P & ->)] pre c post E Hc.
  - now destruct pre.
  - destruct pre as [|x pre]; simpl in E; inversion E; subst; [discriminate|].
    destruct (split_in_bracket pre post muts c ok) as [Ppre _]; try assumption.
    + symmetry. assumption.
    + split; [exists label; now left|].
      intros [F|F]; [discriminate | now apply (plain_no_end pre Ppre)].
Qed.

Lemma shape_between_begin_and_end (calls : list HostCall) :
  shape true calls -> between_begin_and_end calls.
Proof.
  intros [->|(label & muts & P & ->)] pre c post E Hc.
  - now destruct pre.
  - destruct pre as [|x pre]; simpl in E; inversion E; subst; [discriminate|].
    destruct (split_in_bracket pre post muts c true) as [_ Hend]; try assumption.
    + symmetry. assumption.
    + split; [exists label; now left | now apply Hend].
Qed.

(** C8, as the code has it: in every run of an adapter that changes the
    document, each change is made after a [modify_begin] that no
    [modify_end] has closed yet; and when the adapter returns, a
    [modify_end] follows the change. *)
Theorem adapters_mutate_inside_bracket (a : Adapter) (w : World) :
  exists calls,
    journal (snd (run a w)) = journal w ++ calls /\
    inside_open_bracket calls /\
    (fst (run a w) = Ok tt -> between_begin_and_end calls).
Proof.
  destruct (run_shape a w) as (calls & E & S). exists calls.
  split; [exact E|]. split.
  - exact (shape_inside_open_bracket _ calls S).
  - intros Hok. rewrite Hok in S. now apply shape_between_begin_and_end.
Qed.

(** C8, as stated, fails: [update] is given an item whose node the
    document no longer has; the reference of the first item is replaced,
    the lookup of the second raises, and [modify_end] is never called. *)
Lemma stale_update_leaves_bracket_open :
  ~ (forall a w,
        exists calls,
          journal (snd (run a w)) = journal w ++ calls /\
          between_begin_and_end calls).
Proof.
  intros H.
  destruct (H (Update Scenes.stale_items) Scenes.studio) as (calls & E & B).
  assert (J : journal (snd (run (Update Scenes.stale_items) Scenes.studio))
              = [ ModifyBegin "Shotgun Update References";
                  ReplaceReference "hero" "/assets/hero_v002.rumbanode" ])
    by (vm_compute; reflexivity).
  rewrite J in E. simpl in E. subst calls.
  destruct (B [ModifyBegin "Shotgun Update References"]
              (ReplaceReference "hero" "/assets/hero_v002.rumbanode") []
              eq_refl eq_refl) as [_ F].
  exact F.
Qed.

End BracketFacts.

(** ** Publish validation *)

Module PublishFacts.
Import RumbaBasePublishPlugin PublishSpec.

Lemma unsaved_iff (w : World) :
  unsaved w = true <->
  active_document_filename w = "untitled" \/ active_document_filename w = "".
Proof.
  unfold unsaved. rewrite orb_true_iff, !String.eqb_eq. reflexivity.
Qed.

Lemma session_validate_cases (item : PublishItem) (w : World) :
  session_validate item w
  = if unsaved w
    then (Raise (Exception error_msg), add_log (unsaved_record w) w)
    else (Ok (true,
              set_property "path"
                (PStr (normalize (runtime w) (active_document_filename w))) item),
          w).
Proof.
  unfold session_validate, _session_path, _get_save_as_action, unsaved, unsaved_record,
         bind, emit, raise.
  destruct (String.eqb (active_document_filename w) "untitled") eqn:U; simpl.
  - destruct (engine_apps w !! "tk-multi-workfiles2") as [[[]]|]; reflexivity.
  - unfold truthy.
    destruct (String.eqb (active_document_filename w) "") eqn:E; simpl.
    + destruct (engine_apps w !! "tk-multi-workfiles2") as [[[]]|]; reflexivity.
    + reflexivity.
Qed.

(** C6, as the code has it: [session_validate] raises exactly when the
    session has no path, that is when the filename of the active document
    is ["untitled"] or empty; it then has logged the error with the
    [Save As...] button and changed nothing else; otherwise it stores the
    normalized path under [path] in the properties of the item and
    returns [True]. *)
Theorem session_validate_unsaved (item : PublishItem) (w : World) :
  (raises (session_validate item w) <->
   active_document_filename w = "untitled" \/ active_document_filename w = "") /\
  session_validate item w
  = if unsaved w
    then (Raise (Exception error_msg), add_log (unsaved_record w) w)
    else (Ok (true,
              set_property "path"
                (PStr (normalize (runtime w) (active_document_filename w))) item),
          w).
Proof.
  split; [|apply session_validate_cases].
  rewrite <- unsaved_iff, session_validate_cases. unfold raises.
  destruct (unsaved w); simpl; split; intros H.
  - reflexivity.
  - now eexists.
  - destruct H as [e H]. discriminate.
  - discriminate.
Qed.

(** C6, as stated, fails: an empty filename is not ["untitled"], and
    validation raises on it too. *)
Lemma session_validate_raises_on_empty_filename :
  ~ (forall item w,
        raises (session_validate item w) <-> active_document_filename w = "untitled").
Proof.
  intros H.
  destruct (H (mkPublishItem "rumba.session" "Rumba Document" "scene" "rumba.png" ∅)
              (Scenes.world_of (Some Scenes.shot) "")) as [H1 _].
  assert (R : raises (session_validate
                        (mkPublishItem "rumba.session" "Rumba Document" "scene"
                                       "rumba.png" ∅)
                        (Scenes.world_of (Some Scenes.shot) "")))
    by (eexists; vm_compute; reflexivity).
  apply H1 in R. simpl in R. discriminate R.
Qed.

End PublishFacts.

(** ** The per-asset collectors *)

Module CollectorFacts.
Import RumbaSessionCollector CollectorSpec.

Lemma append_String (a : ascii) (k t : string) :
  String a k +:+ t = String a (k +:+ t).
Proof. reflexivity. Qed.

Lemma append_nil_r (k : string) : k +:+ "" = k.
Proof.
  induction k as [|a k IH]; [reflexivity|]. now rewrite append_String, IH.
Qed.

(** *** The characters of a string *)

Lemma scan_start (s : string) : fst (Utf8.scan s 0) = "".
Proof. destruct s as [|a s]; simpl; [reflexivity|]. now destruct (Utf8.scan s _). Qed.

Lemma scan_segmented (s : string) :
  forall left,
    String.length (fst (Utf8.scan s left)) <= left /\
    (snd (Utf8.scan s left) <> [] -> String.length (fst (Utf8.scan s left)) = left) /\
    segmented (snd (Utf8.scan s left)).
Proof.
  induction s as [|a s IH]; intros left; simpl.
  - split; [lia|]. split; [congruence | exact I].
  - destruct left as [|l].
    + destruct (IH (Utf8.width a - 1)) as (H1 & H2 & H3).
      destruct (Utf8.scan s (Utf8.width a - 1)) as [k cs]. simpl in *.
      split; [lia|]. split; [reflexivity|].
      destruct cs as [|c cs]; [exact H1|]. split; [|exact H3].
      apply H2. discriminate.
    + destruct (IH l) as (H1 & H2 & H3).
      destruct (Utf8.scan s l) as [k cs]. simpl in *.
      split; [lia|]. split; [intros N; now rewrite (H2 N) | exact H3].
Qed.

Lemma chars_segmented (s : string) : segmented (Utf8.chars s).
Proof. apply (scan_segmented s 0). Qed.

Lemma complete_sequence (c : string) : complete c -> sequence c.
Proof. destruct c as [|a k]; simpl; lia. Qed.

Lemma segmented_filter (p : string -> bool) (l : list string) :
  segmented l -> segmented (List.filter p l).
Proof.
  induction l as [|c l IH]; [trivial|]. intros H.
  assert (Hc : sequence c).
  { simpl in H. destruct l; [exact H | apply complete_sequence, H]. }
  assert (Hl : segmented (List.filter p l)).
  { apply IH. simpl in H. destruct l; [exact I | apply H]. }
  simpl List.filter. destruct (p c); [|exact Hl].
  destruct (List.filter p l) as [|c' l'] eqn:F; [exact Hc|].
  split; [|exact Hl].
  destruct l as [|c0 l0]; [discriminate|]. apply H.
Qed.

Lemma scan_short (k : string) :
  forall left, String.length k <= left -> Utf8.scan k left = (k, []).
Proof.
  induction k as [|b k IH]; intros left H; [reflexivity|].
  simpl in H. destruct left as [|l]; [lia|]. simpl.
  rewrite (IH l) by lia. reflexivity.
Qed.

Lemma scan_exact (k t : string) :
  Utf8.scan (k +:+ t) (String.length k) = (k, Utf8.chars t).
Proof.
  induction k as [|b k IH].
  - change ("" +:+ t) with t. simpl String.length.
    unfold Utf8.chars. pose proof (scan_start t) as S.
    destruct (Utf8.scan t 0) as [k0 cs]. simpl in *. now subst.
  - rewrite append_String. simpl. now rewrite IH.
Qed.

(** Joining sequences and cutting the string again gives the sequences. *)
Lemma chars_join (l : list string) : segmented l -> Utf8.chars (Utf8.join l) = l.
Proof.
  induction l as [|c l IH]; [reflexivity|]. intros H.
  destruct c as [|a k]; [simpl in H; destruct l; [contradiction | destruct H as [[] _]]|].
  simpl Utf8.join. rewrite append_String. unfold Utf8.chars. simpl Utf8.scan.
  destruct l as [|c' l'].
  - simpl Utf8.join. rewrite append_nil_r.
    simpl in H. now rewrite (scan_short k _ H).
  - destruct H as [Hc Hl]. simpl in Hc. rewrite <- Hc, scan_exact.
    cbn [snd]. now rewrite (IH Hl).
Qed.

(** *** The substitution *)

Lemma class_complement (rt : Runtime) (c : string) :
  negb (non_word_or_underscore rt c) = stays rt c.
Proof.
  unfold non_word_or_underscore, is_word, stays.
  now destruct (isalnum rt c), (String.eqb c "_").
Qed.

(** Replacing the runs by the empty string removes their characters. *)
Lemma sub_runs_empty (rt : Runtime) (cs : list string) :
  forall in_run,
    sub_runs (non_word_or_underscore rt) "" in_run cs
    = Utf8.join (List.filter (stays rt) cs).
Proof.
  induction cs as [|c cs IH]; intros in_run; simpl; [reflexivity|].
  rewrite <- class_complement.
  destruct (non_word_or_underscore rt c); simpl.
  - destruct in_run; change ("" +:+ ?x) with x; apply IH.
  - now rewrite IH.
Qed.

Lemma alphanumeric_sub_keeps (rt : Runtime) (s : string) :
  alphanumeric_sub rt "" s = keep_alnum rt s.
Proof. apply sub_runs_empty. Qed.

(** The characters of the name that is kept are the characters that stay,
    and they are alphanumeric. *)
Lemma keep_alnum_chars (rt : Runtime) (s : string) :
  Utf8.chars (keep_alnum rt s) = List.filter (stays rt) (Utf8.chars s).
Proof. apply chars_join, segmented_filter, chars_segmented. Qed.

Lemma keep_alnum_all (rt : Runtime) (s : string) :
  all_chars (isalnum rt) (keep_alnum rt s) = true.
Proof.
  unfold all_chars. rewrite keep_alnum_chars. apply forallb_forall.
  intros c Hc. apply List.filter_In in Hc. destruct Hc as [_ Hc].
  unfold stays in Hc. now apply andb_true_iff in Hc.
Qed.

Lemma for_items_names (body : string -> list Node -> M PublishItem) :
  names_asset body ->
  forall by_asset_node items w,
  exists more w',
    for_items body by_asset_node items w = (Ok (items ++ more), w') /\
    map extra_name more
    = map (fun an => Some (keep_alnum (runtime w) (fst an))) by_asset_node.
Proof.
  intros Hb. induction by_asset_node as [|[asset_name nodes] rest IH]; intros items w.
  - exists [], w. simpl. rewrite app_nil_r. now split.
  - simpl. unfold bind.
    destruct (Hb asset_name nodes w) as (item & w1 & E & Hrt & Hn). rewrite E.
    destruct (IH (items ++ [item]) w1) as (more & w2 & E2 & Hm).
    exists (item :: more), w2. rewrite E2, <- app_assoc. split; [reflexivity|].
    simpl. rewrite Hn, Hm, Hrt. reflexivity.
Qed.

Lemma stored_names_alphanumeric (rt : Runtime) (by_asset_node : list (string * list Node))
      (items : list PublishItem) :
  map extra_name items = map (fun an => Some (keep_alnum rt (fst an))) by_asset_node ->
  Forall (fun item => exists s, extra_name item = Some s /\
                                all_chars (isalnum rt) s = true) items.
Proof.
  revert by_asset_node. induction items as [|item items IH]; intros l H.
  - constructor.
  - destruct l as [|an l]; [discriminate|]. simpl in H. inversion H as [[H1 H2]].
    constructor; [|now apply (IH l)].
    eexists. split; [exact H1 | apply keep_alnum_all].
Qed.

Ltac body_names :=
  intros ? ? ?; unfold bind, emit, ret; simpl;
  eexists; eexists; split; [reflexivity|]; split; [reflexivity|];
  unfold extra_name, set_property; simpl;
  rewrite lookup_insert_eq; simpl; now rewrite alphanumeric_sub_keeps.

Ltac collector_names :=
  intros setting by_asset_node w;
  unfold bind, ret, _session_path, RumbaBasePublishPlugin._session_path,
         PublishSpec.unsaved;
  destruct (String.eqb (active_document_filename w) "untitled"); simpl;
  [ eexists; eexists; split; reflexivity |];
  unfold truthy;
  destruct (String.eqb (active_document_filename w) ""); simpl;
  [ eexists; eexists; split; reflexivity |];
  match goal with
  | |- context [for_items ?body by_asset_node [] w] =>
      let Hb := fresh "Hb" in
      assert (Hb : names_asset body) by body_names;
      destruct (for_items_names body Hb by_asset_node [] w) as (more & w' & E & Hm);
      rewrite E; simpl;
      exists (Some more), w'; split; [reflexivity|];
      exists more; split; [reflexivity|]; split;
      [ exact Hm | exact (stored_names_alphanumeric _ _ _ Hm) ]
  end.

(** C10: each of the three per-asset collectors stores, under [name] in
    the [extra_fields] of the item of an asset, the asset name from which
    every character that is not alphanumeric, the underscore included, has
    been removed; the stored name holds alphanumeric characters only. *)
Theorem per_asset_names_alphanumeric :
  stores_alphanumeric_names collect_rumba_fbx_assets /\
  stores_alphanumeric_names collect_rumba_usd_assets /\
  stores_alphanumeric_names collect_rumba_abc_assets.
Proof.
  split; [|split].
  - unfold stores_alphanumeric_names, collect_rumba_fbx_assets. collector_names.
  - unfold stores_alphanumeric_names, collect_rumba_usd_assets. collector_names.
  - unfold stores_alphanumeric_names, collect_rumba_abc_assets. collector_names.
Qed.

End CollectorFacts.

(** ** The breakdown hook: the walks and the writes, further *)

Module WalkFacts.
Import Breakdown BreakdownSpec BreakdownFacts.

(** X1: [find_nodes_with_reference] keeps the results it is given and
    appends the nodes of the hierarchy that have a reference filename, in
    depth-first order, the root included. *)
Theorem reference_walk_depth_first (n : Node) (results : list Node) :
  find_nodes_with_reference n results
  = results ++ List.filter (fun m => truthy (reference_filename m)) (preorder n).
Proof. apply find_nodes_with_reference_walk. Qed.

(** X2: [find_nodes_with_plug] keeps the results it is given and appends,
    in depth-first order, the nodes that have the plug and, when a list of
    types is given, whose type is in the list. *)
Theorem plug_walk_depth_first (n : Node) (plug_name : string)
        (type_names : option (list string)) (results : list Node) :
  find_nodes_with_plug n plug_name type_names results
  = results
    ++ List.filter
         (fun m => has_plug m plug_name
                   && match type_names with
                      | Some l => str_in (type_name m) l
                      | None => true
                      end)
         (preorder n).
Proof.
  rewrite find_nodes_with_plug_walk. f_equal.
  apply List.filter_ext. intros m. unfold plug_of_type, type_filter.
  destruct type_names as [[|t l]|]; reflexivity.
Qed.

(** X3: an empty list of types is not "no filter": with [type_names=[]]
    the walk collects nothing, whatever the hierarchy. *)
Theorem plug_walk_empty_type_list (n : Node) (plug_name : string)
        (results : list Node) :
  find_nodes_with_plug n plug_name (Some []) results = results.
Proof.
  rewrite find_nodes_with_plug_walk.
  assert (E : forall l, List.filter (plug_of_type plug_name (Some [])) l = []).
  { induction l as [|m l IH]; simpl; [reflexivity|].
    unfold plug_of_type at 1. simpl. now rewrite andb_false_r. }
  now rewrite E, app_nil_r.
Qed.

End WalkFacts.

(** ** What a write through a handle changes *)

Module WriteFacts.
Import Breakdown BreakdownSpec BreakdownFacts UpdateFacts BreakdownViews.

Lemma nodup_app_disjoint {A} (l1 l2 : list A) (a : A) :
  List.NoDup (l1 ++ l2) -> In a l1 -> ~ In a l2.
Proof.
  induction l1 as [|x l1 IH]; simpl; intros ND I; [contradiction|].
  inversion ND as [|? ? Hx ND']; subst. destruct I as [->|I].
  - intros F. apply Hx. apply in_or_app. now right.
  - now apply IH.
Qed.

Section OneWrite.
Context {K : Type}.
Variable g : Node -> K.
Variable f : Node -> Node.
Variable target : string.
Hypothesis g_shallow : forall m cs, g (set_children m cs) = g m.
Hypothesis f_children : forall m, children (f m) = children m.

Lemma rewritten_absent (l : list Node) :
  ~ In target (names l) -> map (rewritten g f target) l = map g l.
Proof.
  induction l as [|m l IH]; simpl; intros H; [reflexivity|].
  unfold rewritten at 1; unfold named.
  destruct (String.eqb (full_document_name m) target) eqn:E.
  - apply String.eqb_eq in E. exfalso. apply H. now left.
  - f_equal. apply IH. intros F. apply H. now right.
Qed.

Lemma modify_first_written (cs : list Node) :
  Forall (fun c =>
            List.NoDup (names (preorder c)) ->
            written g f target (preorder c) (option_map preorder (modify_node target f c))) cs ->
  List.NoDup (names (flat_map preorder cs)) ->
  written g f target (flat_map preorder cs)
          (option_map (flat_map preorder) (modify_first target f cs)).
Proof.
  induction 1 as [|c cs Hc _ IH]; simpl; intros ND; [tauto|].
  unfold names in ND. rewrite map_app in ND.
  pose proof (List.NoDup_app_remove_r _ _ ND) as NDc.
  pose proof (List.NoDup_app_remove_l _ _ ND) as NDcs.
  specialize (Hc NDc). specialize (IH NDcs). unfold written in *.
  destruct (modify_node target f c) as [c'|]; simpl in *.
  - destruct Hc as [I Hm]. unfold names. rewrite !map_app, in_app_iff. split; [now left|].
    rewrite Hm. f_equal. symmetry. apply rewritten_absent.
    exact (nodup_app_disjoint _ _ _ ND I).
  - destruct (modify_first target f cs) as [cs'|]; simpl in *.
    + destruct IH as [I Hm]. unfold names. rewrite !map_app, in_app_iff.
      split; [now right|]. rewrite Hm. f_equal. symmetry.
      now apply rewritten_absent.
    + unfold names. rewrite map_app, in_app_iff. tauto.
Qed.

Lemma modify_node_written (n : Node) :
  List.NoDup (names (preorder n)) ->
  written g f target (preorder n) (option_map preorder (modify_node target f n)).
Proof.
  induction n as [n IH] using Node_forall_ind. intros ND.
  rewrite modify_node_unfold.
  assert (P : preorder n = n :: flat_map preorder (children n)) by now destruct n.
  rewrite P in *. simpl in ND. inversion ND as [|? ? Hn NDc]; subst.
  unfold named. destruct (String.eqb (full_document_name n) target) eqn:E; simpl.
  - apply String.eqb_eq in E. split; [now left|].
    assert (Pf : preorder (f n) = f n :: flat_map preorder (children n)).
    { destruct (f n) as [a b c e cs] eqn:Ef.
      pose proof (f_children n) as Hc. rewrite Ef in Hc. simpl in Hc. now subst cs. }
    rewrite Pf. simpl. unfold rewritten at 1; unfold named. rewrite E, String.eqb_refl.
    f_equal. symmetry. apply rewritten_absent. now rewrite <- E.
  - pose proof (modify_first_written (children n) IH NDc) as W.
    unfold written in *.
    destruct (modify_first target f (children n)) as [cs'|]; simpl in *.
    + destruct W as [I Hm]. split; [now right|].
      unfold rewritten at 1; unfold named. rewrite E.
      f_equal; [exact (g_shallow n cs') | exact Hm].
    + apply String.eqb_neq in E. intros [F|F]; [contradiction | now apply W].
Qed.

Lemma modify_first_rewrites (cs : list Node) :
  List.NoDup (names (flat_map preorder cs)) ->
  In target (names (flat_map preorder cs)) ->
  exists cs',
    modify_first target f cs = Some cs' /\
    map g (flat_map preorder cs') = map (rewritten g f target) (flat_map preorder cs).
Proof.
  intros ND I.
  assert (W : written g f target (flat_map preorder cs)
                      (option_map (flat_map preorder) (modify_first target f cs))).
  { apply modify_first_written; [|exact ND].
    apply List.Forall_forall. intros c _. apply modify_node_written. }
  unfold written in W. destruct (modify_first target f cs) as [cs'|]; simpl in W.
  - exists cs'. now split.
  - contradiction.
Qed.
End OneWrite.

(** *** The calls of [update] *)

Lemma writes_silent (items : list scene_dict) (k : nat) {A} (m : M A) :
  (forall w, journal (snd (m w)) = journal w) -> writes_at_most items k m.
Proof.
  intros H w. exists []. rewrite H, app_nil_r. repeat split; [simpl; lia | constructor].
Qed.

Lemma asked_more (i : scene_dict) (items : list scene_dict) (c : HostCall) :
  asked items c -> asked (i :: items) c.
Proof.
  destruct c; simpl; tauto.
Qed.

Lemma asked_first (i : scene_dict) (items : list scene_dict) (c : HostCall) :
  asked [i] c -> asked (i :: items) c.
Proof.
  destruct c; simpl; tauto.
Qed.

Lemma found_by_name (target : string) (cs : list Node) (n : Node) :
  find_first target cs = Some n -> full_document_name n = target.
Proof.
  rewrite UpdateFacts.find_first_flat. intros H.
  apply List.find_some in H. destruct H as [_ H]. now apply String.eqb_eq in H.
Qed.

Lemma write_node_calls (target : string) (f : Node -> Node) (c : HostCall) (w : World) :
  journal (snd (write_node target f c w)) = journal w \/
  journal (snd (write_node target f c w)) = journal w ++ [c].
Proof.
  unfold write_node. destruct (active_document w) as [d|]; [|now left].
  destruct (modify_first target f (children (doc_node d))); [now right | now left].
Qed.

Lemma set_node_file_path_calls (n : Node) (p : string) (w : World) :
  journal (snd (set_node_file_path n p w)) = journal w \/
  exists c,
    journal (snd (set_node_file_path n p w)) = journal w ++ [c] /\
    (c = ReplaceReference (full_document_name n) p \/
     c = SetValue (full_document_name n) "file_path" p \/
     c = SetValue (full_document_name n) "file" p).
Proof.
  unfold set_node_file_path, replace_reference, plug_set_value, bind, lift.
  destruct (str_in (type_name n) ["Asset"]).
  { destruct (write_node_calls (full_document_name n) (set_reference p)
                (ReplaceReference (full_document_name n) p) w) as [H|H];
      [now left | right; eexists; split; [exact H | now left]]. }
  destruct (str_in (type_name n) ["UsdAsset"]).
  { destruct (plug_as_string n "file_path"); [|now left].
    destruct (write_node_calls (full_document_name n) (set_plug "file_path" p)
                (SetValue (full_document_name n) "file_path" p) w) as [H|H];
      [now left | right; eexists; split; [exact H | right; now left]]. }
  destruct (str_in (type_name n) ["Media"]); [|now left].
  destruct (plug_as_string n "file"); [|now left].
  destruct (write_node_calls (full_document_name n) (set_plug "file" p)
              (SetValue (full_document_name n) "file" p) w) as [H|H];
    [now left | right; eexists; split; [exact H | right; now right]].
Qed.

Lemma update_item_asked (i : scene_dict) : writes_at_most [i] 1 (update_item i).
Proof.
  intros w. unfold update_item, bind, lift, child_of_active, child, log_debug, emit.
  assert (N : exists calls : list HostCall,
             journal w = journal w ++ calls /\ length calls <= 1 /\
             Forall (asked [i]) calls).
  { exists []. rewrite app_nil_r. repeat split; [simpl; lia | constructor]. }
  destruct (getitem i "path") as [new_path|e1] eqn:E1; [|exact N].
  destruct (getitem i "node") as [node_value|e2] eqn:E2; [|exact N].
  destruct node_value as [it|s]; simpl; [|exact N].
  destruct (active_document w) as [d|] eqn:Hd; [|exact N].
  destruct (find_first (node it) (children (doc_node d))) as [n|] eqn:F;
    unfold ret, raise; simpl; [|exact N].
  apply found_by_name in F.
  match goal with
  | |- context [set_node_file_path n ?p ?w1] =>
      destruct (set_node_file_path_calls n p w1) as [H|(c & H & Hc)]; rewrite H
  end.
  - exact N.
  - exists [c]. split; [reflexivity|]. split; [simpl; lia|].
    constructor; [|constructor].
    assert (T : item_target i = Some (full_document_name n, str_of new_path)).
    { unfold item_target. now rewrite E1, E2, F. }
    destruct Hc as [->|[->| ->]]; simpl; rewrite T; tauto.
Qed.

Lemma for_each_asked (items : list scene_dict) :
  writes_at_most items (length items) (for_each items update_item).
Proof.
  induction items as [|i items IH]; intros w.
  - exists []. simpl. rewrite app_nil_r. repeat split; [lia | constructor].
  - simpl for_each. unfold bind.
    destruct (update_item_asked i w) as (c1 & J1 & L1 & A1).
    destruct (update_item i w) as [[u|e] w1]; simpl in J1.
    + destruct (IH w1) as (c2 & J2 & L2 & A2).
      exists (c1 ++ c2). rewrite J2, J1, <- app_assoc. split; [reflexivity|].
      split; [rewrite length_app; simpl; lia|].
      apply List.Forall_app. split.
      * revert A1. apply List.Forall_impl. intros c. apply asked_first.
      * revert A2. apply List.Forall_impl. intros c. apply asked_more.
    + exists c1. simpl. split; [exact J1|]. split; [simpl; lia|].
      revert A1. apply List.Forall_impl. intros c. apply asked_first.
Qed.

(** X4: [update] calls the host only to write what the items ask for.
    With an active document its calls are [modify_begin], then at most one
    write for each item, each of them the path of an item written to the
    node that item names, as a reference or under the plug [file_path] or
    [file], and then [modify_end] if it returns; it makes no other call,
    and none at all without an active document. *)
Theorem update_writes_what_items_ask (items : list scene_dict) (w : World) :
  exists writes,
    journal (snd (update items w))
    = journal w
      ++ match active_document w with
         | Some _ =>
             ModifyBegin "Shotgun Update References"
             :: writes ++ match fst (update items w) with
                          | Ok _ => [ModifyEnd]
                          | Raise _ => []
                          end
         | None => []
         end /\
    length writes <= length items /\
    Forall (asked items) writes.
Proof.
  unfold update, bind at 1, log_debug, emit. cbn [fst snd].
  destruct (active_document w) as [d|] eqn:Hd; cbn [active_document add_log];
    rewrite Hd.
  2:{ exists []. simpl. rewrite app_nil_r. repeat split; [lia | constructor]. }
  unfold bind, host. cbn [fst snd].
  match goal with
  | |- context [for_each items update_item ?w1] =>
      destruct (for_each_asked items w1) as (calls & J & L & A);
      destruct (for_each items update_item w1) as [[u|e] w2]
  end; simpl in J; exists calls; simpl; rewrite J, ?Hd; simpl;
    rewrite <- ?app_assoc, ?app_nil_r; simpl; repeat split; assumption.
Qed.

(** *** The path of the named node is written *)

Lemma same_name_same_node (l : list Node) (m n : Node) :
  List.NoDup (map full_document_name l) -> In m l -> In n l ->
  full_document_name m = full_document_name n -> m = n.
Proof.
  intros ND Im In_ E.
  pose proof (find_unique l n ND In_) as Fn.
  pose proof (find_unique l m ND Im) as Fm.
  rewrite E in Fm. rewrite Fm in Fn. now inversion Fn.
Qed.

Lemma file_view_shallow (m : Node) (cs : list Node) :
  file_view (set_children m cs) = file_view m.
Proof. reflexivity. Qed.

Lemma write_node_rewrites (d : Document) (n : Node) (f : Node -> Node) (c : HostCall)
      (p : string) (w : World) :
  active_document w = Some d ->
  unique_names d -> In n (descendants d) ->
  (forall m, children (f m) = children m) ->
  file_view (f n) = (full_document_name n, Ok (Some p)) ->
  exists d',
    write_node (full_document_name n) f c w
    = (Ok tt, add_call c (set_document (Some d') w)) /\
    file_paths d' = repathed (full_document_name n) p d.
Proof.
  intros Hd U I Hc Hv. unfold write_node. rewrite Hd.
  destruct (modify_first_rewrites file_view f (full_document_name n)
              file_view_shallow Hc (children (doc_node d)) U)
    as (cs' & E & Hm).
  { unfold names. now apply in_map. }
  rewrite E. exists (set_doc_children d cs'). split; [reflexivity|].
  unfold file_paths, repathed, descendants. simpl. rewrite Hm.
  apply map_ext_in. intros m Im. unfold rewritten, named.
  destruct (String.eqb (full_document_name m) (full_document_name n)) eqn:En;
    [|reflexivity].
  apply String.eqb_eq in En.
  rewrite (same_name_same_node _ m n U Im I En). exact Hv.
Qed.

Lemma set_node_file_path_writes (d : Document) (n : Node) (p old : string) (w : World) :
  active_document w = Some d ->
  unique_names d -> In n (descendants d) ->
  get_node_file_path n = Ok (Some old) ->
  exists d',
    set_node_file_path n p w
    = (Ok tt, add_call (write_call n p) (set_document (Some d') w)) /\
    file_paths d' = repathed (full_document_name n) p d.
Proof.
  intros Hd U I. unfold get_node_file_path, set_node_file_path, write_call.
  destruct (str_in (type_name n) ["Asset"]) eqn:TA.
  { intros _. unfold replace_reference.
    apply (write_node_rewrites d n _ _ p w Hd U I); [intros []; reflexivity|].
    unfold file_view, get_node_file_path, set_reference.
    cbn [type_name reference_filename full_document_name]. now rewrite TA. }
  destruct (str_in (type_name n) ["UsdAsset"]) eqn:TU.
  { destruct (plug_as_string n "file_path") as [v|e] eqn:E; [|discriminate].
    intros _. unfold plug_set_value, bind, lift. rewrite E.
    apply (write_node_rewrites d n _ _ p w Hd U I); [intros []; reflexivity|].
    unfold file_view, get_node_file_path, plug_as_string, set_plug. cbn [type_name plugs full_document_name].
    now rewrite TA, TU, lookup_insert_eq. }
  destruct (str_in (type_name n) ["Media"]) eqn:TM; [|discriminate].
  destruct (plug_as_string n "file") as [v|e] eqn:E; [|discriminate].
  intros _. unfold plug_set_value, bind, lift. rewrite E.
  apply (write_node_rewrites d n _ _ p w Hd U I); [intros []; reflexivity|].
  unfold file_view, get_node_file_path, plug_as_string, set_plug.
  cbn [type_name plugs full_document_name].
  now rewrite TA, TU, TM, lookup_insert_eq.
Qed.

Lemma update_item_writes (d : Document) (n : Node) (p old : string) (w : World) :
  active_document w = Some d ->
  unique_names d -> In n (descendants d) ->
  get_node_file_path n = Ok (Some old) ->
  exists d',
    update_item (ref_entry n p) w
    = (Ok tt,
       add_call (write_call n p)
         (set_document (Some d')
            (add_log (mkLog Debug "Updating node: %s to path %s"
                        [AStr (full_document_name n); AStr p] None) w))) /\
    file_paths d' = repathed (full_document_name n) p d.
Proof.
  intros Hd U I G.
  unfold update_item, bind, lift, child_of_active, child, log_debug, emit, ret; simpl.
  rewrite Hd, (find_first_unique d n U I); simpl.
  apply (set_node_file_path_writes d n p old); assumption.
Qed.

(** X5: on a document whose nodes have distinct names, [update] given the
    scan entry of a file node with the path replaced by [p] returns, makes
    the one host write for that node inside one bracket, and afterwards
    that node resolves to [p] while every other node resolves to what it
    did before. *)
Theorem update_sets_path (w : World) (d : Document) (n : Node) (p old : string) :
  active_document w = Some d ->
  unique_names d -> In n (descendants d) ->
  get_node_file_path n = Ok (Some old) ->
  exists w' d',
    update [ref_entry n p] w = (Ok tt, w') /\
    active_document w' = Some d' /\
    file_paths d' = repathed (full_document_name n) p d /\
    journal w'
    = journal w ++ [ ModifyBegin "Shotgun Update References"; write_call n p; ModifyEnd ].
Proof.
  intros Hd U I G.
  destruct (update_item_writes d n p old
              (add_call (ModifyBegin "Shotgun Update References")
                 (add_log (mkLog Debug "items: %s" [ARefs [ref_entry n p]] None) w))
              Hd U I G) as (d' & E & Hp).
  unfold update, bind at 1, log_debug, emit. cbn [fst snd add_log active_document].
  rewrite Hd. unfold for_each, bind, host, ret. rewrite E.
  eexists. exists d'. split; [reflexivity|]. split; [reflexivity|].
  split; [exact Hp|]. simpl. rewrite <- !app_assoc. reflexivity.
Qed.

Lemma update_sets_path_witness :
  exists w' d',
    update [ref_entry Scenes.stage "/assets/hero_v002.usd"] Scenes.studio = (Ok tt, w') /\
    active_document w' = Some d' /\
    file_paths d' = repathed "hero/stage" "/assets/hero_v002.usd" Scenes.shot /\
    journal w'
    = journal Scenes.studio
      ++ [ ModifyBegin "Shotgun Update References";
           write_call Scenes.stage "/assets/hero_v002.usd"; ModifyEnd ].
Proof.
  apply (update_sets_path Scenes.studio Scenes.shot Scenes.stage
                          "/assets/hero_v002.usd" "/assets/hero.usd").
  - reflexivity.
  - apply NoDup_ListNoDup, (bool_decide_unpack _). vm_compute. exact I.
  - simpl. right. left. reflexivity.
  - vm_compute. reflexivity.
Defined.

End WriteFacts.

(** ** The loader hook, further *)

Module LoaderMoreFacts.
Import RumbaActions LoaderSpec LoaderSpec2.

(** X6: the menu [generate_actions] returns depends only on which of the
    three known names occur in [actions]: one instance for each that does,
    without repetition, always in the order reference, import,
    import_media, each with no parameters; other names are ignored. *)
Theorem generate_actions_menu (sg_publish_data : PublishData) (actions : list string)
        (ui_area : string) :
  map LoaderMenu.name (LoaderMenu.generate_actions sg_publish_data actions ui_area)
  = List.filter (fun a => str_in a actions) known_actions /\
  Forall (fun i => LoaderMenu.params i = None)
         (LoaderMenu.generate_actions sg_publish_data actions ui_area).
Proof.
  unfold LoaderMenu.generate_actions, known_actions. simpl List.filter.
  destruct (str_in "reference" actions), (str_in "import" actions),
           (str_in "import_media" actions); simpl; split;
    try reflexivity; repeat constructor.
Qed.

Ltac by_name name :=
  destruct (String.eqb_spec name "reference") as [->|?N1];
  [| destruct (String.eqb_spec name "import") as [->|?N2];
     [| destruct (String.eqb_spec name "import_media") as [->|?N3] ] ].

Ltac unfold_loader :=
  unfold execute_action, _reference_into_current_document,
         _import_into_current_document, _import_media_into_new_media_layer,
         _is_a_supported_extension, _is_a_supported_media_extension,
         extension, formats_for, resolved_path,
         bind, lift, ret, raise, host, log_debug, log_warning, emit.

Ltac literals :=
  repeat match goal with
         | |- context [String.eqb ?a ?b] =>
             let v := eval vm_compute in (String.eqb a b) in
             change (String.eqb a b) with v
         end; cbv iota.

Lemma unknown_name (name : string) :
  name <> "reference" -> name <> "import" -> name <> "import_media" ->
  String.eqb name "reference" = false /\
  String.eqb name "import" = false /\
  String.eqb name "import_media" = false.
Proof. intros. now rewrite !String.eqb_neq. Qed.

Lemma skipn_all_app {A} (l more : list A) : skipn (length l) (l ++ more) = more.
Proof. induction l as [|x l IH]; [reflexivity | exact IH]. Qed.

(** X7: a missing file or a missing document is no error.  When
    [execute_action] does not refuse the action and does not get as far as
    the host, because the name is none of the three, or there is no active
    document, or the file is not on disk, it returns, makes no host call and
    leaves the document as it was; after the two records that announce the
    call it logs one record, a warning, when there is a document and the
    file of a known action is missing, and nothing otherwise. *)
Theorem execute_action_nothing_to_load (action : string) (params : option string)
        (d : PublishData) (w : World) :
  refused (runtime w) (mkAction action d params) = false ->
  performs w action d = false ->
  fst (execute_action action params d w) = Ok tt /\
  journal (snd (execute_action action params d w)) = journal w /\
  active_document (snd (execute_action action params d w)) = active_document w /\
  map level (said action params d w (snd (execute_action action params d w)))
  = (if misses w action d then [Warning] else []).
Proof.
  unfold refused, performs, misses, said, announced, known_actions. simpl name.
  simpl sg_publish_data. unfold str_in at 1 3 5. simpl existsb.
  by_name action; unfold_loader; cbv zeta.
  4:{ destruct (unknown_name action N1 N2 N3) as (E1 & E2 & E3).
      rewrite E1, E2, E3. simpl. intros _ _.
      repeat split.
      match goal with
      | |- context [skipn (length ?l) ?l] =>
          rewrite <- (app_nil_r l) at 2; now rewrite skipn_all_app
      end. }
  all: literals;
    repeat match goal with
           | |- context [str_in ?x ?l] => destruct (str_in x l)
           end; simpl; try discriminate;
    destruct (active_document w) eqn:Hd; simpl; intros _ P; rewrite ?P; simpl;
    repeat split; try exact Hd;
    match goal with
    | |- context [skipn (length ?l) (?l ++ ?m)] => now rewrite skipn_all_app
    | |- context [skipn (length ?l) ?l] =>
        rewrite <- (app_nil_r l) at 2; now rewrite skipn_all_app
    end.
Qed.

Lemma execute_action_nothing_to_load_witness :
  fst (execute_action "reference" None (sg_publish_data Scenes.load_usd) empty_disk)
  = Ok tt /\
  journal (snd (execute_action "reference" None (sg_publish_data Scenes.load_usd)
                               empty_disk))
  = journal empty_disk /\
  active_document (snd (execute_action "reference" None (sg_publish_data Scenes.load_usd)
                                       empty_disk))
  = active_document empty_disk /\
  map level (said "reference" None (sg_publish_data Scenes.load_usd) empty_disk
               (snd (execute_action "reference" None (sg_publish_data Scenes.load_usd)
                                    empty_disk)))
  = (if misses empty_disk "reference" (sg_publish_data Scenes.load_usd)
     then [Warning] else []).
Proof.
  apply (execute_action_nothing_to_load "reference" None
           (sg_publish_data Scenes.load_usd) empty_disk);
    vm_compute; reflexivity.
Defined.

(** A publish record whose code is [None] gives the layer no name. *)
Example media_layer_without_code :
  journal (snd (execute_action "import_media" None
                  (mkPublishData "/publish/clip.mov" (Some None)) Scenes.studio))
  = [ ModifyBegin "Shotgun Import File"; AddMediaLayer None;
      GetMedia "/publish/clip.mov"; AddMediaClip None "/publish/clip.mov" 1;
      ModifyEnd ].
Proof. vm_compute. reflexivity. Qed.

(** *** The outcome of a batch *)




(** *** The extension is a suffix *)

Lemma append_cons (a : ascii) (s t : string) :
  String a s +:+ t = String a (s +:+ t).
Proof. reflexivity. Qed.

Lemma append_empty (s : string) : s +:+ "" = s.
Proof.
  induction s as [|a s IH]; [reflexivity | now rewrite append_cons, IH].
Qed.

Lemma lower_append (a b : string) :
  Str.lower (a +:+ b) = Str.lower a +:+ Str.lower b.
Proof.
  induction a as [|c a IH]; [reflexivity|].
  rewrite append_cons. simpl. now rewrite IH, append_cons.
Qed.

Lemma substring_all (s : string) : String.substring 0 (String.length s) s = s.
Proof. induction s as [|a s IH]; [reflexivity | cbn; f_equal; exact IH]. Qed.

Lemma substring_split (s : string) :
  forall n, (n <= String.length s)%nat ->
    String.substring 0 n s +:+ String.substring n (String.length s - n) s = s.
Proof.
  induction s as [|a s IH]; intros n Hn.
  - destruct n; [reflexivity | simpl in Hn; lia].
  - destruct n as [|n].
    + cbn. change ("" +:+ ?x) with x. f_equal. apply substring_all.
    + cbn [String.substring String.length Nat.sub]. rewrite append_cons.
      f_equal. apply IH. simpl in Hn. lia.
Qed.

Lemma rfind_from_bounds (s : string) (c : ascii) :
  forall i last,
    Str.rfind_from s c i last = last \/
    (i <= Str.rfind_from s c i last < i + Z.of_nat (String.length s))%Z.
Proof.
  induction s as [|a s IH]; intros i last; simpl; [now left|].
  destruct (IH (i + 1)%Z (if Ascii.eqb a c then i else last)) as [E|B].
  - rewrite E. destruct (Ascii.eqb a c); [right; lia | now left].
  - right. lia.
Qed.

Lemma rfind_bounds (s : string) (c : ascii) :
  (-1 <= Str.rfind s c < Z.of_nat (String.length s))%Z.
Proof.
  unfold Str.rfind. destruct (rfind_from_bounds s c 0 (-1)) as [E|B]; lia.
Qed.

(** Root and extension put together give the path back. *)
Lemma splitext_joins (pf : Platform) (p : string) :
  fst (OsPath.splitext pf p) +:+ snd (OsPath.splitext pf p) = p.
Proof.
  unfold OsPath.splitext, OsPath._splitext.
  set (sepIndex := match OsPath.altsep pf with
                   | Some a => Z.max (Str.rfind p (OsPath.sep pf)) (Str.rfind p a)
                   | None => Str.rfind p (OsPath.sep pf)
                   end).
  assert (Hs : (-1 <= sepIndex)%Z).
  { unfold sepIndex. pose proof (rfind_bounds p (OsPath.sep pf)).
    destruct (OsPath.altsep pf); lia. }
  pose proof (rfind_bounds p OsPath.extsep) as Hd.
  destruct (Str.rfind p OsPath.extsep >? sepIndex)%Z eqn:G; simpl;
    [|apply append_empty].
  destruct (OsPath.name_before_dot _ _ _); simpl; [|apply append_empty].
  unfold Str.slice_to, Str.slice_from. apply substring_split. lia.
Qed.

Lemma supported_suffix (pf : Platform) (path : string) (formats : list string) :
  str_in (Str.lower (snd (OsPath.splitext pf path))) formats = true ->
  exists fmt, In fmt formats /\ ends_with (Str.lower path) fmt.
Proof.
  intros H. apply str_in_true in H.
  exists (Str.lower (snd (OsPath.splitext pf path))). split; [exact H|].
  exists (Str.lower (fst (OsPath.splitext pf path))).
  now rewrite <- lower_append, splitext_joins.
Qed.

(** X9: a path passes the extension check only if, lowercased, it ends
    with one of the formats of the list checked against: the declared
    formats for reference and import, the media formats for import_media. *)
Theorem supported_extension_is_suffix (rt : Runtime) (path : string) (d : PublishData) :
  (_is_a_supported_extension rt path d = true ->
   exists fmt, In fmt RUMBA_SUPPORTED_FORMATS /\ ends_with (Str.lower path) fmt) /\
  (_is_a_supported_media_extension rt path d = true ->
   exists fmt, In fmt (RUMBA_SUPPORTED_MEDIA_FORMATS rt) /\
               ends_with (Str.lower path) fmt).
Proof.
  split; apply supported_suffix.
Qed.

End LoaderMoreFacts.

(** ** Publish plugins, further *)

Module PublishMoreFacts.
Import PublishSpec.

Lemma session_publish_validate_cases (item : PublishItem) (w : World) :
  RumbaSessionPublishPlugin.session_validate item w
  = if unsaved w
    then (Raise (Exception RumbaBasePublishPlugin.error_msg),
          add_log (unsaved_record w) w)
    else (Ok (tt,
              set_property "path"
                (PStr (normalize (runtime w) (active_document_filename w))) item),
          add_log (mkLog Debug "Session Path: %s "
                         [AStr (normalize (runtime w) (active_document_filename w))]
                         None) w).
Proof.
  unfold RumbaSessionPublishPlugin.session_validate,
         RumbaSessionPublishPlugin._session_path,
         RumbaSessionPublishPlugin._get_save_as_action, unsaved, unsaved_record,
         bind, emit, raise, ret.
  destruct (String.eqb (active_document_filename w) "untitled") eqn:U; simpl.
  - destruct (engine_apps w !! "tk-multi-workfiles2") as [[[]]|]; reflexivity.
  - unfold truthy.
    destruct (String.eqb (active_document_filename w) "") eqn:E; simpl.
    + destruct (engine_apps w !! "tk-multi-workfiles2") as [[[]]|]; reflexivity.
    + reflexivity.
Qed.

(** X11: the [session_validate] of the session plugin and the one of the
    base plugin agree: they raise in the same worlds, with the same
    exception and the same error record, and otherwise store the same path
    on the item; the session plugin returns [None] where the base plugin
    returns [True], and writes one more debug record. *)
Theorem session_validate_copies_agree (item : PublishItem) (w : World) :
  match RumbaBasePublishPlugin.session_validate item w with
  | (Raise e, w') =>
      RumbaSessionPublishPlugin.session_validate item w = (Raise e, w')
  | (Ok (valid, item'), w') =>
      valid = true /\
      exists record,
        RumbaSessionPublishPlugin.session_validate item w
        = (Ok (tt, item'), add_log record w') /\
        level record = Debug
  end.
Proof.
  rewrite PublishFacts.session_validate_cases, session_publish_validate_cases.
  destruct (unsaved w); [reflexivity|].
  split; [reflexivity|]. eexists. split; reflexivity.
Qed.

(** X12: once [get_publish_template] has returned a template, it is
    stored on the item, and every later call on that item returns the same
    template and leaves the item alone, whatever the settings then say. *)
Theorem publish_template_is_cached (rt : Runtime) (setting later : option (option string))
        (item item' : PublishItem) (v : PropValue) :
  RumbaSessionPublishPlugin.get_publish_template rt setting item
  = Returned (Some v, item') ->
  RumbaSessionPublishPlugin.get_publish_template rt later item'
  = Returned (Some v, item').
Proof.
  unfold RumbaSessionPublishPlugin.get_publish_template.
  destruct (properties item !! "publish_template") as [c|] eqn:C.
  - destruct (prop_truthy c) eqn:T.
    + intros H. inversion H; subst. now rewrite C, T.
    + destruct setting as [[value|]|]; try discriminate.
      destruct (truthy value); [|discriminate].
      destruct (get_template_by_name rt (Some value)) as [t|]; [|discriminate].
      intros H. inversion H; subst. simpl. now rewrite lookup_insert_eq.
  - destruct setting as [[value|]|]; try discriminate.
    destruct (truthy value); [|discriminate].
    destruct (get_template_by_name rt (Some value)) as [t|]; [|discriminate].
    intros H. inversion H; subst. simpl. now rewrite lookup_insert_eq.
Qed.

Lemma publish_template_is_cached_witness :
  RumbaSessionPublishPlugin.get_publish_template MoreScenes.pipeline None
    (set_property "publish_template"
       (PTemplate (Some "shots/{Shot}/publish/{name}.v{version}.rumba"))
       MoreScenes.session_item)
  = Returned (Some (PTemplate (Some "shots/{Shot}/publish/{name}.v{version}.rumba")),
              set_property "publish_template"
                (PTemplate (Some "shots/{Shot}/publish/{name}.v{version}.rumba"))
                MoreScenes.session_item).
Proof.
  apply (publish_template_is_cached MoreScenes.pipeline
           (Some (Some "rumba_shot_publish")) None MoreScenes.session_item).
  vm_compute. reflexivity.
Defined.


End PublishMoreFacts.

(** ** The collector: visible geometry by asset *)

Module GeometryFacts.
Import Geometry GeometrySpec.

Lemma climb_heres (up : list Node) :
  forall result, map here (climb up result) = map here result ++ up.
Proof.
  induction up as [|p up IH]; intros result; simpl.
  - now rewrite app_nil_r.
  - rewrite IH, map_app. simpl. now rewrite <- app_assoc.
Qed.

Lemma all_shown_forallb (as_bool : string -> bool) (nodes : list Placed) :
  all_shown as_bool nodes = forallb (shown as_bool) (map here nodes).
Proof.
  induction nodes as [|pl nodes IH]; simpl; [reflexivity|].
  unfold shown at 1. destruct (plugs (here pl) !! "show") as [v|]; simpl.
  - destruct (as_bool v); simpl; [exact IH | reflexivity].
  - exact IH.
Qed.

(** X14: [all_ascendants] lists the nodes above a node, the nearest
    first and the document last, and [is_node_visible] holds exactly when
    neither the node nor any node above it has a [show] plug that is
    off; a node without the plug hides nothing. *)
Theorem visible_iff_all_shown (as_bool : string -> bool) (pl : Placed) :
  map here (all_ascendants pl []) = above pl /\
  is_node_visible as_bool pl = forallb (shown as_bool) (here pl :: above pl).
Proof.
  unfold is_node_visible, all_ascendants. split.
  - apply climb_heres.
  - rewrite all_shown_forallb, map_app, climb_heres. reflexivity.
Qed.

(** *** Sorting by asset *)

Lemma file_by_first_asset_spec (asc : list Placed) (pl : Placed)
      (acc : list (string * list Placed)) :
  file_by_first_asset asc pl acc
  = match List.find (fun p => String.eqb (type_name p) "Asset") (map here asc) with
    | Some a =>
        match plugs a !! "asset_name" with
        | Some pname => Ok (file_under acc pname pl)
        | None => Raise (AttributeError "asset_name")
        end
    | None => Ok acc
    end.
Proof.
  induction asc as [|p asc IH]; simpl; [reflexivity|].
  destruct (String.eqb (type_name (here p)) "Asset"); [reflexivity | exact IH].
Qed.

Lemma file_one (pl : Placed) (acc : list (string * list Placed)) :
  file_by_first_asset (all_ascendants pl []) pl acc
  = match first_asset pl with
    | Some a =>
        match plugs a !! "asset_name" with
        | Some pname => Ok (file_under acc pname pl)
        | None => Raise (AttributeError "asset_name")
        end
    | None => Ok acc
    end.
Proof.
  rewrite file_by_first_asset_spec. unfold all_ascendants, first_asset.
  now rewrite climb_heres.
Qed.

Lemma group_keys (d : list (string * list Placed)) (key : string) :
  group d key = None <-> ~ In key (map fst d).
Proof.
  induction d as [|[k l] d IH]; simpl; [tauto|].
  destruct (String.eqb_spec k key) as [->|N].
  - split; [discriminate | intros H; exfalso; apply H; now left].
  - rewrite IH. split; [intros H [F|F]; [contradiction | now apply H]
                       | intros H F; apply H; now right].
Qed.

Lemma file_under_keys (d : list (string * list Placed)) (k : string) (pl : Placed) :
  map fst (file_under d k pl)
  = match group d k with
    | Some _ => map fst d
    | None => map fst d ++ [k]
    end.
Proof.
  induction d as [|[k' l] d IH]; simpl; [reflexivity|].
  destruct (String.eqb k' k); simpl; [reflexivity|].
  rewrite IH. now destruct (group d k).
Qed.

Lemma file_under_group (d : list (string * list Placed)) (k key : string) (pl : Placed) :
  group (file_under d k pl) key
  = if String.eqb k key then Some (default [] (group d k) ++ [pl]) else group d key.
Proof.
  induction d as [|[k' l] d IH]; simpl.
  - now destruct (String.eqb k key).
  - destruct (String.eqb_spec k' k) as [->|N]; simpl.
    + now destruct (String.eqb k key).
    + rewrite IH. destruct (String.eqb_spec k key) as [->|N'].
      * now rewrite (proj2 (String.eqb_neq _ _) N).
      * reflexivity.
Qed.

Lemma members_snoc (nodes : list Placed) (pl : Placed) (key : string) :
  members (nodes ++ [pl]) key
  = members nodes key
    ++ match filed_under pl with
       | Some k => if String.eqb k key then [pl] else []
       | None => []
       end.
Proof.
  unfold members. rewrite List.filter_app. simpl.
  destruct (filed_under pl) as [k|]; [|reflexivity].
  now destruct (String.eqb k key).
Qed.

Lemma sorts_skip (d : list (string * list Placed)) (nodes : list Placed) (pl : Placed) :
  sorts d nodes -> filed_under pl = None -> sorts d (nodes ++ [pl]).
Proof.
  intros [ND H] F. split; [exact ND|]. intros key. specialize (H key).
  rewrite members_snoc, F, app_nil_r. exact H.
Qed.

Lemma sorts_file (d : list (string * list Placed)) (nodes : list Placed) (pl : Placed)
      (k : string) :
  sorts d nodes -> filed_under pl = Some k -> sorts (file_under d k pl) (nodes ++ [pl]).
Proof.
  intros [ND H] F. split.
  - rewrite file_under_keys. destruct (group d k) eqn:G; [exact ND|].
    apply group_keys in G. apply List.NoDup_app; [exact ND | repeat constructor; tauto |].
    intros a Ia [<-|[]]. contradiction.
  - intros key. rewrite file_under_group, members_snoc, F.
    destruct (String.eqb_spec k key) as [->|N].
    + specialize (H key). destruct (group d key) as [l|]; simpl.
      * destruct H as [_ ->]. split; [now destruct (members nodes key) | reflexivity].
      * rewrite H. split; [discriminate | reflexivity].
    + specialize (H key). now rewrite app_nil_r.
Qed.

Lemma file_all_sorts (nodes : list Placed) :
  assets_named nodes ->
  forall acc done,
    sorts acc done ->
    exists d, file_all nodes acc = Ok d /\ sorts d (done ++ nodes).
Proof.
  induction 1 as [|pl nodes Hpl _ IH]; intros acc done S; simpl.
  - exists acc. now rewrite app_nil_r.
  - rewrite file_one.
    replace (done ++ pl :: nodes) with ((done ++ [pl]) ++ nodes)
      by now rewrite <- app_assoc.
    destruct (first_asset pl) as [a|] eqn:A.
    + destruct Hpl as [k Hk]. rewrite Hk. apply IH.
      apply sorts_file; [exact S|]. unfold filed_under. now rewrite A.
    + apply IH. apply sorts_skip; [exact S|]. unfold filed_under. now rewrite A.
Qed.

(** *** The geometry that is sorted *)

Lemma fold_left_appends {A B} (f : A -> list B -> list B) (g : A -> list B)
      (cs : list A) :
  Forall (fun c => forall acc, f c acc = acc ++ g c) cs ->
  forall acc, fold_left (fun acc c => f c acc) cs acc = acc ++ flat_map g cs.
Proof.
  induction 1 as [|c cs Hc _ IH]; intros acc; simpl.
  - now rewrite app_nil_r.
  - rewrite Hc, IH. now rewrite <- app_assoc.
Qed.

Lemma walk_with_plug_preorder (plug_name : string) (type_names : option (list string))
      (n : Node) :
  forall up results,
    walk_with_plug up n plug_name type_names results
    = results
      ++ List.filter (fun pl => has_plug (here pl) plug_name
                                && Breakdown.type_filter type_names (here pl))
                     (placed_preorder up n).
Proof.
  induction n as [n IH] using Node_forall_ind. intros up results.
  destruct n as [nm ty rf pl cs]; simpl in *.
  set (me := mkNode nm ty rf pl cs) in *.
  rewrite (fold_left_appends
             (fun c acc => walk_with_plug (me :: up) c plug_name type_names acc)
             (fun c => List.filter
                         (fun pl => has_plug (here pl) plug_name
                                    && Breakdown.type_filter type_names (here pl))
                         (placed_preorder (me :: up) c)) cs).
  - rewrite BreakdownFacts.filter_flat_map.
    destruct (has_plug me plug_name); simpl;
      [destruct (Breakdown.type_filter type_names me); simpl|];
      now rewrite <- ?app_assoc.
  - revert IH. apply List.Forall_impl. intros c Hc acc. apply Hc.
Qed.

Lemma visible_geometry_shown (as_bool : string -> bool) (d : Document) :
  visible_geometry as_bool d = shown_geometry as_bool d.
Proof.
  unfold visible_geometry, shown_geometry, find_nodes_with_plug. simpl.
  rewrite walk_with_plug_preorder. simpl.
  induction (placed_preorder [] (doc_node d)) as [|pl l IH]; simpl; [reflexivity|].
  assert (V : is_node_visible as_bool pl
              = forallb (shown as_bool) (here pl :: above pl)).
  { unfold is_node_visible, all_ascendants.
    now rewrite all_shown_forallb, map_app, climb_heres. }
  rewrite orb_false_r.
  destruct (has_plug (here pl) "show"); simpl; [|exact IH].
  destruct (String.eqb (type_name (here pl)) "Geometry"); simpl; [|exact IH].
  rewrite V. simpl in *.
  destruct (shown as_bool (here pl) && forallb (shown as_bool) (above pl));
    now rewrite IH.
Qed.

(** X15: [find_geometry_nodes_by_asset] sorts the nodes of type
    [Geometry] that have a [show] plug and are shown, they and every node
    above them; a [Geometry] node without the plug is left out.  When the
    nearest [Asset] above every such node has an [asset_name] plug, the
    function returns a dictionary with distinct keys and no empty list, in
    which the list of a key holds, in depth-first order, exactly those of
    these nodes whose nearest [Asset] above carries that name; geometry
    under no [Asset] is left out. *)
Theorem geometry_sorted_by_nearest_asset (as_bool : string -> bool) (w : World)
        (d : Document) :
  active_document w = Some d ->
  assets_named (shown_geometry as_bool d) ->
  exists by_asset_node,
    find_geometry_nodes_by_asset as_bool w = Ok by_asset_node /\
    sorts by_asset_node (shown_geometry as_bool d).
Proof.
  intros Hd Hn. unfold find_geometry_nodes_by_asset. rewrite Hd.
  rewrite visible_geometry_shown.
  apply (file_all_sorts _ Hn [] []).
  split; [constructor | intros key; reflexivity].
Qed.

Lemma geometry_sorted_by_nearest_asset_witness :
  exists by_asset_node,
    find_geometry_nodes_by_asset MoreScenes.on MoreScenes.set_world = Ok by_asset_node /\
    sorts by_asset_node (shown_geometry MoreScenes.on MoreScenes.set).
Proof.
  apply (geometry_sorted_by_nearest_asset MoreScenes.on MoreScenes.set_world MoreScenes.set).
  - reflexivity.
  - vm_compute. repeat constructor; eexists; reflexivity.
Defined.

(** Geometry without a [show] plug is not collected, though nothing hides
    it. *)
Example geometry_without_show_plug :
  find_geometry_nodes_by_asset MoreScenes.on MoreScenes.prop_world = Ok [] /\
  is_node_visible MoreScenes.on (mkPlaced MoreScenes.eyes [MoreScenes.prop_asset]) = true.
Proof. vm_compute. split; reflexivity. Qed.

Example geometry_of_the_set :
  option_map (map (fun kl => (fst kl, map (fun pl => full_document_name (here pl)) (snd kl))))
    (match find_geometry_nodes_by_asset MoreScenes.on MoreScenes.set_world with
     | Ok d => Some d
     | Raise _ => None
     end)
  = Some [ ("hero01", ["hero/body"]); ("villain", ["villain/rig/head"; "villain/rig/cape"]) ].
Proof. vm_compute. reflexivity. Qed.

End GeometryFacts.

(** ** The collection of the current session *)

Module SessionFacts.
Import RumbaSessionCollector Session SessionSpec.

Lemma same_scene_refl (w : World) : same_scene w w.
Proof. now repeat split. Qed.

Lemma same_scene_trans (w1 w2 w3 : World) :
  same_scene w1 w2 -> same_scene w2 w3 -> same_scene w1 w3.
Proof.
  intros (A1 & A2 & A3 & A4 & A5) (B1 & B2 & B3 & B4 & B5).
  repeat split; congruence.
Qed.

Lemma same_scene_log (r : LogRecord) (w : World) : same_scene w (add_log r w).
Proof. now repeat split. Qed.

Lemma same_scene_saved (w w' : World) : same_scene w w' -> saved w' = saved w.
Proof. intros (_ & _ & E & _). unfold saved. now rewrite E. Qed.

Lemma same_scene_geometry (as_bool : string -> bool) (w w' : World) :
  same_scene w w' ->
  Geometry.find_geometry_nodes_by_asset as_bool w'
  = Geometry.find_geometry_nodes_by_asset as_bool w.
Proof.
  intros (_ & E & _). unfold Geometry.find_geometry_nodes_by_asset. now rewrite E.
Qed.

(** What [_session_path] gives, by [saved]. *)
Lemma session_path_saved (w : World) :
  exists path, _session_path w = (Ok path, w) /\ truthy_opt path = saved w.
Proof.
  unfold _session_path, RumbaBasePublishPlugin._session_path, saved.
  destruct (String.eqb (active_document_filename w) "untitled");
    eexists; split; reflexivity.
Qed.

Lemma collect_current_rumba_session_cases (filename_of : string -> string)
      (settings : Settings) (w : World) :
  if saved w then
    exists item w',
      collect_current_rumba_session filename_of settings w = (Ok (Some item), w') /\
      item_type item = "rumba.session" /\ same_scene w w'
  else collect_current_rumba_session filename_of settings w = (Ok None, w).
Proof.
  destruct (session_path_saved w) as (path & E & T).
  destruct (saved w);
    unfold collect_current_rumba_session, bind at 1; rewrite E, T; simpl;
    [|reflexivity].
  unfold with_work_template, bind, emit, ret.
  destruct (work_template_setting settings); simpl;
    eexists; eexists; (split; [reflexivity|]); (split; [reflexivity|]).
  - eapply same_scene_trans; apply same_scene_log.
  - apply same_scene_log.
Qed.

Lemma collect_scene_saved (item_type' type_display display_name icon_file message : string)
      (settings : Settings) (w : World) :
  saved w = true ->
  exists item w',
    collect_scene item_type' type_display display_name icon_file message settings w
    = (Ok (Some item), w') /\
    item_type item = item_type' /\ same_scene w w'.
Proof.
  intros S. unfold collect_scene, bind at 1.
  destruct (session_path_saved w) as (path & -> & T). rewrite T, S. simpl.
  unfold with_work_template, bind, emit, ret.
  destruct (work_template_setting settings); simpl;
    eexists; eexists; (split; [reflexivity|]); (split; [reflexivity|]);
    apply same_scene_log.
Qed.

Lemma collect_rumba_selection_as_nodes_saved (create_valid_filename : string -> string)
      (selection : list Selected) (settings : Settings) (w : World) :
  saved w = true ->
  exists x w',
    collect_rumba_selection_as_nodes create_valid_filename selection settings w
    = (Ok x, w') /\
    (forall items, map item_type (append items x)
                   = map item_type items ++ node_types selection) /\
    same_scene w w'.
Proof.
  intros S. unfold collect_rumba_selection_as_nodes, bind at 1.
  destruct (session_path_saved w) as (path & -> & T). rewrite T, S. simpl.
  unfold node_types, append.
  destruct selection as [|node rest].
  - exists None, w. split; [reflexivity|]. split; [|apply same_scene_refl].
    intros items. now rewrite app_nil_r.
  - destruct (sel_is_referenced node).
    + unfold bind, emit, ret. eexists None, _. split; [reflexivity|].
      split; [|apply same_scene_log]. intros items. now rewrite app_nil_r.
    + unfold bind, emit, ret.
      destruct (work_template_setting settings); simpl;
        eexists (Some _), _; (split; [reflexivity|]);
        (split; [|apply same_scene_log]); intros items;
        now rewrite map_app.
Qed.

Lemma for_items_types (item_type' : string)
      (body : string -> list Node -> M PublishItem) :
  makes item_type' body ->
  forall by_asset_node items w,
  exists more w',
    for_items body by_asset_node items w = (Ok (items ++ more), w') /\
    map item_type more = List.repeat item_type' (length by_asset_node) /\
    same_scene w w'.
Proof.
  intros Hb. induction by_asset_node as [|[asset_name nodes] rest IH]; intros items w.
  - exists [], w. simpl. rewrite app_nil_r. repeat split.
  - simpl. unfold bind.
    destruct (Hb asset_name nodes w) as (item & w1 & E & Ht & S1). rewrite E.
    destruct (IH (items ++ [item]) w1) as (more & w2 & E2 & Hm & S2).
    exists (item :: more), w2. rewrite E2, <- app_assoc. split; [reflexivity|].
    split; [|exact (same_scene_trans _ _ _ S1 S2)].
    simpl. now rewrite Ht, Hm.
Qed.

Ltac body_makes setting :=
  intros ? ? ?; unfold bind, emit, ret; simpl;
  eexists; eexists; split; [reflexivity|]; split;
  [ destruct setting; reflexivity | apply same_scene_log ].

Ltac collector_collects ty :=
  intros setting by_asset_node w S;
  unfold bind at 1;
  destruct (session_path_saved w) as (path & -> & T); rewrite T, S; simpl;
  unfold bind;
  match goal with
  | |- context [for_items ?body by_asset_node []] =>
      let Hb := fresh "Hb" in
      assert (Hb : makes ty body) by body_makes setting;
      destruct (for_items_types _ body Hb by_asset_node [] w) as (more & w' & E & Hm & S');
      rewrite E; simpl; unfold ret;
      exists more, w'; split; [reflexivity|]; split; [exact Hm | exact S']
  end.

Lemma collect_rumba_usd_assets_collects :
  collects "rumba.animation.usd" collect_rumba_usd_assets.
Proof. unfold collects, collect_rumba_usd_assets. collector_collects "rumba.animation.usd". Qed.

Lemma collect_rumba_fbx_assets_collects :
  collects "rumba.animation.fbx" collect_rumba_fbx_assets.
Proof. unfold collects, collect_rumba_fbx_assets. collector_collects "rumba.animation.fbx". Qed.

Lemma collect_rumba_abc_assets_collects :
  collects "rumba.animation.alembic_cache" collect_rumba_abc_assets.
Proof. unfold collects, collect_rumba_abc_assets. collector_collects "rumba.animation.alembic_cache". Qed.

Lemma per_asset_saved (as_bool : string -> bool) (item_type' : string)
      (collect : option (option string) -> list (string * list Node)
                 -> M (option (list PublishItem)))
      (settings : Settings) (w : World) :
  collects item_type' collect ->
  saved w = true ->
  match Geometry.find_geometry_nodes_by_asset as_bool w with
  | Ok groups =>
      exists items w',
        per_asset as_bool collect settings w = (Ok (Some items), w') /\
        map item_type items = List.repeat item_type' (length groups) /\
        same_scene w w'
  | Raise e => per_asset as_bool collect settings w = (Raise e, w)
  end.
Proof.
  intros Hc S. destruct (session_path_saved w) as (path & E & T).
  destruct (Geometry.find_geometry_nodes_by_asset as_bool w) as [groups|e] eqn:G;
    unfold per_asset, bind at 1; rewrite E, T, S; simpl; rewrite G; [|reflexivity].
  destruct (Hc (work_template_setting settings)
               (map (fun kl => (fst kl, map Geometry.here (snd kl))) groups) w S)
    as (items & w' & E' & Hm & S').
  exists items, w'. rewrite length_map in Hm.
  split; [exact E'|]. split; [exact Hm | exact S'].
Qed.

(** X16: [process_current_session] collects nothing, and logs nothing, when
    the session has no path.  On a saved session it returns the session item
    first, then, with "Collect Individual Assets" on, one USD item per asset
    group of [find_geometry_nodes_by_asset], one FBX item per group and one
    Alembic item per group (and raises what that function raises), and with
    the setting off the three items of the whole scene; a node item for the
    first selected node comes last, unless that node is referenced.  The run
    changes the log only. *)
Theorem process_current_session_items (as_bool : string -> bool)
        (filename_of create_valid_filename : string -> string)
        (selection : list Selected) (settings : Settings) (w : World) :
  let run := process_current_session as_bool filename_of create_valid_filename
                                     selection settings w in
  same_scene w (snd run) /\
  if saved w then
    if collect_individual_assets settings then
      match Geometry.find_geometry_nodes_by_asset as_bool w with
      | Ok groups =>
          exists items,
            fst run = Ok items /\
            map item_type items
            = "rumba.session" :: asset_types (length groups) ++ node_types selection
      | Raise e => fst run = Raise e
      end
    else
      exists items,
        fst run = Ok items /\
        map item_type items = "rumba.session" :: scene_types ++ node_types selection
  else run = (Ok [], w).
Proof.
  intros run.
  assert (R : run = process_current_session as_bool filename_of create_valid_filename
                                            selection settings w) by reflexivity.
  clearbody run. unfold process_current_session in R. unfold bind at 1 in R.
  pose proof (collect_current_rumba_session_cases filename_of settings w) as H0.
  destruct (saved w) eqn:S.
  2: { rewrite H0 in R. subst run. split; [apply same_scene_refl | reflexivity]. }
  destruct H0 as (item & w1 & E & Ht & S1). rewrite E in R.
  unfold bind at 1 in R. unfold emit at 1 in R.
  match type of R with
  | context [add_log ?r w1] =>
      pose proof (same_scene_trans _ _ _ S1 (same_scene_log r w1)) as S2;
      set (w2 := add_log r w1) in *
  end.
  clearbody w2. clear E S1 w1.
  assert (Sv : saved w2 = true) by now rewrite (same_scene_saved _ _ S2).
  destruct (collect_individual_assets settings).
  - pose proof (per_asset_saved as_bool _ _ settings w2
                                collect_rumba_usd_assets_collects Sv) as U.
    rewrite (same_scene_geometry as_bool _ _ S2) in U.
    destruct (Geometry.find_geometry_nodes_by_asset as_bool w) as [groups|e] eqn:G.
    + destruct U as (usd & w3 & EU & HU & S3).
      unfold bind at 1 in R. unfold bind at 1 in R. rewrite EU in R.
      unfold ret at 1 in R.
      pose proof (same_scene_trans _ _ _ S2 S3) as S3'.
      assert (Sv3 : saved w3 = true) by now rewrite (same_scene_saved _ _ S3').
      pose proof (per_asset_saved as_bool _ _ settings w3
                                  collect_rumba_fbx_assets_collects Sv3) as F.
      rewrite (same_scene_geometry as_bool _ _ S3'), G in F.
      destruct F as (fbx & w4 & EF & HF & S4).
      unfold bind at 1 in R. unfold bind at 1 in R. rewrite EF in R.
      unfold ret at 1 in R.
      pose proof (same_scene_trans _ _ _ S3' S4) as S4'.
      assert (Sv4 : saved w4 = true) by now rewrite (same_scene_saved _ _ S4').
      pose proof (per_asset_saved as_bool _ _ settings w4
                                  collect_rumba_abc_assets_collects Sv4) as A.
      rewrite (same_scene_geometry as_bool _ _ S4'), G in A.
      destruct A as (abc & w5 & EA & HA & S5).
      unfold bind at 1 in R. unfold bind at 1 in R. rewrite EA in R.
      unfold ret at 1 in R.
      pose proof (same_scene_trans _ _ _ S4' S5) as S5'.
      assert (Sv5 : saved w5 = true) by now rewrite (same_scene_saved _ _ S5').
      destruct (collect_rumba_selection_as_nodes_saved
                  create_valid_filename selection settings w5 Sv5)
        as (x & w6 & EN & HN & S6).
      unfold bind in R. rewrite EN in R. unfold ret in R. subst run.
      split; [exact (same_scene_trans _ _ _ S5' S6)|].
      eexists. split; [reflexivity|].
      rewrite HN. unfold extend, asset_types. simpl.
      rewrite !map_app, HU, HF, HA, Ht, <- !app_assoc. reflexivity.
    + unfold bind at 1 in R. unfold bind at 1 in R. rewrite U in R. subst run.
      split; [exact S2 | reflexivity].
  - unfold collect_rumba_usd_scene, collect_rumba_fbx_scene, collect_rumba_abc_scene in R.
    match type of R with
    | context [collect_scene ?t ?d ?n ?i ?m settings] =>
        destruct (collect_scene_saved t d n i m settings w2 Sv)
          as (usd & w3 & EU & HU & S3)
    end.
    unfold bind at 1 in R. unfold bind at 1 in R. rewrite EU in R.
    unfold ret at 1 in R.
    pose proof (same_scene_trans _ _ _ S2 S3) as S3'.
    assert (Sv3 : saved w3 = true) by now rewrite (same_scene_saved _ _ S3').
    match type of R with
    | context [collect_scene ?t ?d ?n ?i ?m settings] =>
        destruct (collect_scene_saved t d n i m settings w3 Sv3)
          as (fbx & w4 & EF & HF & S4)
    end.
    unfold bind at 1 in R. unfold bind at 1 in R. rewrite EF in R.
    unfold ret at 1 in R.
    pose proof (same_scene_trans _ _ _ S3' S4) as S4'.
    assert (Sv4 : saved w4 = true) by now rewrite (same_scene_saved _ _ S4').
    match type of R with
    | context [collect_scene ?t ?d ?n ?i ?m settings] =>
        destruct (collect_scene_saved t d n i m settings w4 Sv4)
          as (abc & w5 & EA & HA & S5)
    end.
    unfold bind at 1 in R. unfold bind at 1 in R. rewrite EA in R.
    unfold ret at 1 in R.
    pose proof (same_scene_trans _ _ _ S4' S5) as S5'.
    assert (Sv5 : saved w5 = true) by now rewrite (same_scene_saved _ _ S5').
    destruct (collect_rumba_selection_as_nodes_saved
                create_valid_filename selection settings w5 Sv5)
      as (x & w6 & EN & HN & S6).
    unfold bind in R. rewrite EN in R. unfold ret in R. subst run.
    split; [exact (same_scene_trans _ _ _ S5' S6)|].
    eexists. split; [reflexivity|].
    rewrite HN. unfold append, scene_types. simpl.
    now rewrite HU, HF, HA, Ht.
Qed.

(** The set of the examples, collected asset by asset with one node
    selected: the session, two assets in each of the three formats, and the
    node. *)
Example collection_of_the_set :
  match fst (process_current_session MoreScenes.on (fun p => p) (fun n => n)
               [mkSelected "ground" false "ground"] (mkSettings None true)
               MoreScenes.set_world) with
  | Ok items => map item_type items
  | Raise _ => []
  end
  = ["rumba.session"; "rumba.animation.usd"; "rumba.animation.usd";
     "rumba.animation.fbx"; "rumba.animation.fbx";
     "rumba.animation.alembic_cache"; "rumba.animation.alembic_cache"; "rumba.node"].
Proof. vm_compute. reflexivity. Qed.

End SessionFacts.

(** ** The launcher and the start of the toolkit *)

Module StartupFacts.
Import Startup StartupSpec.

Section Loops.
Variable Context : Type.
Variable icon : string.
Variable extra_args : option string.

Lemma for_matches_appends (disk_location : string) (join : string -> string -> string)
      (executable_matches : list (string * list (string * string))) :
  forall sw_versions,
    for_matches disk_location join extra_args executable_matches sw_versions
    = sw_versions
      ++ map (version_of (join disk_location "icon_256.png") extra_args)
             (map fst executable_matches).
Proof.
  induction executable_matches as [|[path keys] rest IH]; intros sw_versions; simpl.
  - now rewrite app_nil_r.
  - rewrite IH, <- app_assoc. reflexivity.
Qed.

Lemma for_templates_appends (disk_location : string) (join : string -> string -> string)
      (expanduser : string -> string)
      (expandvars : gmap string string -> string -> string)
      (glob_and_match : string -> list (string * list (string * string)))
      (executable_templates : list string) :
  forall sw_versions (p : Process Context),
    let expanded := map (fun t => expandvars (environ p) (expanduser t))
                        executable_templates in
    for_templates disk_location join expanduser expandvars glob_and_match
                  extra_args executable_templates sw_versions p
    = (sw_versions
         ++ map (version_of (join disk_location "icon_256.png") extra_args)
                (flat_map (fun t => map fst (glob_and_match t)) expanded),
       mkProcess (environ p) (stdout p)
                 (debug p ++ map (fun t => "Processing template " +:+ t +:+ ".") expanded)
                 (calls p)).
Proof.
  induction executable_templates as [|t rest IH]; intros sw_versions p; simpl.
  - rewrite !app_nil_r. now destruct p.
  - rewrite IH, for_matches_appends. simpl.
    rewrite map_app, <- !app_assoc. reflexivity.
Qed.

End Loops.

(** X17: on macOS, Windows or Linux [scan_software] returns one version
    record for every match of the two expanded templates of the platform,
    in the order of the templates and of their matches, each with the version
    [" "], the product [Rumba], the engine icon and, when
    [SGTK_RUMBA_CMD_EXTRA_ARGS] is set and not empty, that value as its only
    argument; it logs the scan and every expanded template.  On any other
    platform the lookup raises [TypeError] after the first record. *)
Theorem scan_software_versions (Context : Type) (disk_location : string)
        (join : string -> string -> string) (is_macos is_windows is_linux : bool)
        (expanduser : string -> string)
        (expandvars : gmap string string -> string -> string)
        (glob_and_match : string -> list (string * list (string * string)))
        (p : Process Context) :
  scan_software disk_location join is_macos is_windows is_linux expanduser expandvars
                glob_and_match p
  = if is_macos || is_windows || is_linux then
      let expanded := map (fun t => expandvars (environ p) (expanduser t))
                          (templates_of is_macos is_windows) in
      (Ok (map (version_of (join disk_location "icon_256.png")
                           (environ p !! "SGTK_RUMBA_CMD_EXTRA_ARGS"))
               (flat_map (fun t => map fst (glob_and_match t)) expanded)),
       mkProcess (environ p) (stdout p)
                 (debug p ++ "Scanning for Rumba executables..."
                    :: map (fun t => "Processing template " +:+ t +:+ ".") expanded)
                 (calls p))
    else (Raise (TypeError "unhashable type: 'list'"),
          logger_debug "Scanning for Rumba executables..." p).
Proof.
  unfold scan_software, _find_software.
  destruct is_macos; [|destruct is_windows; [|destruct is_linux]];
    cbn [orb templates_get EXECUTABLE_TEMPLATES String.eqb Ascii.eqb Bool.eqb];
    try reflexivity;
    rewrite for_templates_appends; cbn [environ stdout debug calls logger_debug];
    rewrite <- app_assoc; reflexivity.
Qed.

Section Start.
Variable Context : Type.
Variable deserialize : string -> Raised + Context.
Variable start_engine : string -> Context -> option Raised.

(** [start_toolkit_classic] leaves the environment alone and makes at most
    the call that starts the engine, whether that call raises or not. *)
Lemma start_toolkit_classic_effects (p : Process Context) :
  environ (start_toolkit_classic deserialize start_engine p) = environ p /\
  calls (start_toolkit_classic deserialize start_engine p)
  = calls p ++ engine_calls deserialize (environ p).
Proof.
  unfold start_toolkit_classic, engine_calls. cbn [environ logger_debug].
  destruct (environ p !! "SGTK_ENGINE") as [engine|];
    destruct (environ p !! "SGTK_CONTEXT") as [context|]; simpl;
    try destruct (truthy engine); try destruct (truthy context); simpl;
    try destruct (deserialize context) as [e|c]; simpl;
    try destruct (start_engine engine c); simpl;
    rewrite ?app_nil_r; split; reflexivity.
Qed.

End Start.

(** The loop that cleans up deletes the three variables. *)
Lemma clean_up_deletes (env : gmap string string) :
  clean_up env = without_launch_variables env.
Proof.
  unfold clean_up, without_launch_variables, del_vars. simpl.
  assert (D : forall (m : gmap string string) k,
             match m !! k with Some _ => delete k m | None => m end = delete k m).
  { intros m k. destruct (m !! k) eqn:E; [reflexivity|]. now rewrite delete_id. }
  now rewrite !D.
Qed.

Lemma without_launch_variables_lookup (env : gmap string string) (k : string) :
  without_launch_variables env !! k
  = if str_in k del_vars then None else env !! k.
Proof.
  unfold without_launch_variables, del_vars.
  destruct (decide (k = "SGTK_FILE_TO_OPEN")) as [->|N1];
    [now rewrite lookup_delete_eq|].
  rewrite lookup_delete_ne by congruence.
  destruct (decide (k = "SGTK_CONTEXT")) as [->|N2];
    [now rewrite lookup_delete_eq|].
  rewrite lookup_delete_ne by congruence.
  destruct (decide (k = "SGTK_ENGINE")) as [->|N3];
    [now rewrite lookup_delete_eq|].
  rewrite lookup_delete_ne by congruence.
  simpl. apply String.eqb_neq in N1, N2, N3. now rewrite N1, N2, N3.
Qed.

(** X18: when [import sgtk] raises, [start_toolkit] only prints the error.
    Otherwise it initialises the log file, makes the call that starts the
    engine if the two variables are set and the context can be read back,
    and then, whether or not the engine started, loads the file that
    [SGTK_FILE_TO_OPEN] names when it is set and not empty.  If that load
    raises, the exception leaves the function and the environment is not
    cleaned; if not, the three launch variables are gone from the
    environment and every other variable is as before. *)
Theorem start_toolkit_calls_and_environment (Context : Type)
        (import_sgtk : option Raised) (deserialize : string -> Raised + Context)
        (start_engine : string -> Context -> option Raised)
        (load_document : string -> option Raised) (p : Process Context) :
  let run := start_toolkit import_sgtk deserialize start_engine load_document p in
  match import_sgtk with
  | Some _ =>
      fst run = None /\ calls (snd run) = calls p /\ environ (snd run) = environ p
  | None =>
      fst run = load_failure load_document (environ p) /\
      calls (snd run)
      = calls p ++ [InitializeBaseFileHandler "tk-rumba"]
          ++ engine_calls deserialize (environ p) ++ load_calls (environ p) /\
      forall k,
        environ (snd run) !! k
        = match load_failure load_document (environ p) with
          | Some _ => environ p !! k
          | None => if str_in k del_vars then None else environ p !! k
          end
  end.
Proof.
  intros run. subst run. unfold start_toolkit.
  destruct import_sgtk as [e|]; [now repeat split|].
  set (p1 := call (InitializeBaseFileHandler ENGINE_NAME) p).
  destruct (start_toolkit_classic_effects Context deserialize start_engine p1)
    as [He Hc].
  set (p2 := start_toolkit_classic deserialize start_engine p1) in *.
  change (environ p1) with (environ p) in *.
  change (calls p1) with (calls p ++ [InitializeBaseFileHandler "tk-rumba"]) in Hc.
  rewrite He. unfold load_failure, load_calls, requested_file.
  destruct (environ p !! "SGTK_FILE_TO_OPEN") as [f|]; simpl.
  - destruct (truthy f); simpl.
    + destruct (load_document f) as [e|]; simpl; rewrite Hc, <- !app_assoc;
        (split; [reflexivity|]); (split; [reflexivity|]); intros k.
      * now rewrite He.
      * now rewrite clean_up_deletes, without_launch_variables_lookup, He.
    + rewrite Hc, app_nil_r, <- app_assoc.
      split; [reflexivity|]. split; [reflexivity|]. intros k.
      now rewrite clean_up_deletes, without_launch_variables_lookup, He.
  - rewrite Hc, app_nil_r, <- app_assoc.
    split; [reflexivity|]. split; [reflexivity|]. intros k.
    now rewrite clean_up_deletes, without_launch_variables_lookup, He.
Qed.

(** The variables [prepare_launch] asks for, read in the launched process. *)
Lemma launched_environment (Context : Type) (disk_location pathsep : string)
      (join : string -> string -> string) (serialize : Context -> string)
      (get_sgtk_module_path : string) (context : Context) (exec_path args : string)
      (file_to_open : option string) (parent : Process Context) :
  let info := fst (prepare_launch disk_location pathsep join serialize
                                  get_sgtk_module_path context exec_path args
                                  file_to_open parent) in
  let env := environ (launched info parent) in
  env !! "SGTK_ENGINE" = Some "tk-rumba" /\
  env !! "SGTK_CONTEXT" = Some (serialize context) /\
  env !! "SGTK_MODULE_PATH" = Some get_sgtk_module_path /\
  env !! "RUMBA_USER_PLUGINS"
  = Some (default "" (environ parent !! "RUMBA_USER_PLUGINS") +:+ pathsep
            +:+ join disk_location "startup") /\
  env !! "SGTK_FILE_TO_OPEN"
  = if truthy_opt file_to_open then file_to_open
    else environ parent !! "SGTK_FILE_TO_OPEN".
Proof.
  intros info env. subst info env. unfold prepare_launch, launched.
  cbn [fst launch_environ environ].
  assert (L : forall (m : gmap string string) k v,
             m !! k = Some v -> (m ∪ environ parent) !! k = Some v).
  { intros m k v H. now apply lookup_union_Some_l. }
  destruct file_to_open as [f|]; simpl; [destruct (truthy f) eqn:T; simpl|].
  - repeat split; apply L;
      repeat (rewrite lookup_insert_ne by discriminate);
      now rewrite lookup_insert_eq.
  - repeat split;
      try (apply L; repeat (rewrite lookup_insert_ne by discriminate);
           now rewrite lookup_insert_eq).
    rewrite lookup_union_r; [reflexivity|].
    repeat (rewrite lookup_insert_ne by discriminate). apply lookup_empty.
  - repeat split;
      try (apply L; repeat (rewrite lookup_insert_ne by discriminate);
           now rewrite lookup_insert_eq).
    rewrite lookup_union_r; [reflexivity|].
    repeat (rewrite lookup_insert_ne by discriminate). apply lookup_empty.
Qed.

(** X19: the launch and the start fit together.  When the serialised
    context is not empty and is read back as the context it came from, the
    process started from the information of [prepare_launch] initialises the
    log file, starts the engine [tk-rumba] in the context of the launcher and
    loads the file to open; without a file to open it loads the file a
    [SGTK_FILE_TO_OPEN] of the launcher itself names.  When no exception
    leaves the function, the plugin path of the launch is still in the
    environment and the three launch variables are not. *)
Theorem launch_then_start (Context : Type) (disk_location pathsep : string)
        (join : string -> string -> string) (serialize : Context -> string)
        (get_sgtk_module_path : string)
        (deserialize : string -> Raised + Context)
        (start_engine : string -> Context -> option Raised)
        (load_document : string -> option Raised)
        (context : Context) (exec_path args : string)
        (file_to_open : option string) (parent : Process Context) :
  truthy (serialize context) = true ->
  deserialize (serialize context) = inr context ->
  let info := fst (prepare_launch disk_location pathsep join serialize
                                  get_sgtk_module_path context exec_path args
                                  file_to_open parent) in
  let run := start_toolkit None deserialize start_engine load_document
                           (launched info parent) in
  let requested :=
    if truthy_opt file_to_open then file_to_open
    else environ parent !! "SGTK_FILE_TO_OPEN" in
  calls (snd run)
  = [InitializeBaseFileHandler "tk-rumba"; StartEngine "tk-rumba" context]
      ++ (if truthy_opt requested then [LoadDocument (default "" requested)] else []) /\
  (fst run = None ->
   environ (snd run) !! "RUMBA_USER_PLUGINS"
   = Some (default "" (environ parent !! "RUMBA_USER_PLUGINS") +:+ pathsep
             +:+ join disk_location "startup") /\
   List.Forall (fun k => environ (snd run) !! k = None) del_vars).
Proof.
  intros T D info run requested.
  destruct (launched_environment Context disk_location pathsep join serialize
              get_sgtk_module_path context exec_path args file_to_open parent)
    as (E1 & E2 & E3 & E4 & E5).
  fold info in E1, E2, E3, E4, E5. fold requested in E5.
  set (child := launched info parent) in *.
  subst run. unfold start_toolkit.
  set (p1 := call (InitializeBaseFileHandler ENGINE_NAME) child).
  destruct (start_toolkit_classic_effects Context deserialize start_engine p1)
    as [He Hc].
  set (p2 := start_toolkit_classic deserialize start_engine p1) in *.
  change (environ p1) with (environ child) in *.
  change (calls p1) with [@InitializeBaseFileHandler Context "tk-rumba"] in Hc.
  unfold engine_calls in Hc. rewrite E1, E2, T, D in Hc. simpl in Hc.
  rewrite He, E5.
  assert (K : forall p : Process Context,
             environ p = environ p2 ->
             environ (set_environ (clean_up (environ p)) p) !! "RUMBA_USER_PLUGINS"
             = Some (default "" (environ parent !! "RUMBA_USER_PLUGINS") +:+ pathsep
                       +:+ join disk_location "startup") /\
             List.Forall
               (fun k => environ (set_environ (clean_up (environ p)) p) !! k = None)
               del_vars).
  { intros p Hp. cbn [environ set_environ]. rewrite Hp, He, clean_up_deletes.
    split.
    - now rewrite without_launch_variables_lookup, E4.
    - repeat constructor; now rewrite without_launch_variables_lookup. }
  destruct requested as [f|]; simpl.
  - destruct (truthy f); simpl.
    + destruct (load_document f) as [e|]; simpl.
      * rewrite Hc. split; [reflexivity|]. discriminate.
      * rewrite Hc. split; [reflexivity|]. intros _. now apply K.
    + rewrite Hc. split; [reflexivity|]. intros _. now apply K.
  - rewrite Hc. split; [reflexivity|]. intros _. now apply K.
Qed.

Lemma launch_then_start_witness :
  calls (snd (start_toolkit None (fun s => inr s) (fun _ _ => None) (fun _ => None)
                (launched
                   (fst (prepare_launch "/engine" ":" slash (fun c => c) "/sgtk"
                                        "shot010" "/usr/bin/rumba" ""
                                        (Some "/work/shot010.rumba") desktop))
                   desktop)))
  = [InitializeBaseFileHandler "tk-rumba"; StartEngine "tk-rumba" "shot010";
     LoadDocument "/work/shot010.rumba"].
Proof.
  apply (launch_then_start string "/engine" ":" slash (fun c => c) "/sgtk"
           (fun s => inr s) (fun _ _ => None) (fun _ => None)
           "shot010" "/usr/bin/rumba" "" (Some "/work/shot010.rumba") desktop);
    reflexivity.
Defined.

End StartupFacts.

(** ** The scene operations *)

Module SceneOperationFacts.
Import SceneOperation.

(** X20: the snapshot hook is the workfiles hook cut down to three
    operations: on [current_path], [open] and [save] the two do the same, and
    on every other operation the snapshot hook returns [None] and calls
    nothing.  In both hooks the document is written to a file only by
    [save] and [save_as] with an active document, and [save] never writes an
    untitled document and never writes to [file_path]. *)
Theorem snapshot_is_workfiles_cut_down (operation file_path : string) (w : World) :
  snapshot_execute operation file_path w
  = (if str_in operation ["current_path"; "open"; "save"]
     then workfiles_execute operation file_path w
     else (ANone, [])) /\
  List.filter writes_file (snd (workfiles_execute operation file_path w))
  = (if has_document w then
       if String.eqb operation "save" then
         if String.eqb (active_document_filename w) "untitled" then []
         else [DocumentWrite (active_document_filename w)]
       else if String.eqb operation "save_as" then [SaveAt file_path]
       else []
     else []).
Proof.
  unfold snapshot_execute, workfiles_execute, str_in. cbn [existsb].
  destruct (String.eqb operation "current_path") eqn:E1.
  { apply String.eqb_eq in E1. subst operation. simpl. now destruct (has_document w). }
  destruct (String.eqb operation "open") eqn:E2.
  { apply String.eqb_eq in E2. subst operation. simpl. now destruct (has_document w). }
  destruct (String.eqb operation "save") eqn:E3.
  { cbn [orb]. split; [reflexivity|].
    destruct (has_document w); [|reflexivity].
    now destruct (String.eqb (active_document_filename w) "untitled"). }
  cbn [orb]. split; [reflexivity|].
  destruct (String.eqb operation "save_as") eqn:E4.
  { now destruct (has_document w). }
  destruct (String.eqb operation "reset") eqn:E5.
  { now destruct (has_document w). }
  destruct (String.eqb operation "prepare_new") eqn:E6; now destruct (has_document w).
Qed.

End SceneOperationFacts.

(** ** The dependencies of the session *)

Module DependencyFacts.
Import SessionDependencies.

(** The walk of [publish_session.py] is the walk of the breakdown hook. *)
Lemma _find_nodes_with_reference_breakdown (n : Node) :
  forall results,
    _find_nodes_with_reference n results = Breakdown.find_nodes_with_reference n results.
Proof.
  induction n as [n IH] using Node_forall_ind. intros results.
  destruct n as [nm ty rf pl cs]; simpl in *.
  generalize (if truthy rf then results ++ [mkNode nm ty rf pl cs] else results).
  induction IH as [|c cs Hc _ IHcs]; intros acc; simpl; [reflexivity|].
  now rewrite Hc, IHcs.
Qed.

Lemma for_nodes_referenced (nodes : list Node) :
  List.Forall (fun n => truthy (reference_filename n) = true) nodes ->
  forall acc, for_nodes nodes acc = acc ++ map reference_filename nodes.
Proof.
  induction 1 as [|n nodes Hn _ IH]; intros acc; simpl.
  - now rewrite app_nil_r.
  - rewrite Hn, IH, <- app_assoc. reflexivity.
Qed.

(** X21: the additional dependencies of the session are the reference
    filenames of the nodes of the active document that have one, in
    depth-first order, one for each such node: the test of the path inside
    the loop never drops a node, and no dependency is the empty string.
    They are the reference filenames of the first walk of the breakdown
    hook.  Without an active document there are none. *)
Theorem session_dependencies_are_references (w : World) :
  _rumba_find_additional_session_dependencies w
  = match active_document w with
    | Some d =>
        map reference_filename (Breakdown.find_nodes_with_reference (doc_node d) [])
    | None => []
    end /\
  _rumba_find_additional_session_dependencies w
  = match active_document w with
    | Some d =>
        List.filter truthy (map reference_filename (preorder (doc_node d)))
    | None => []
    end.
Proof.
  unfold _rumba_find_additional_session_dependencies.
  destruct (active_document w) as [d|]; [|now split].
  rewrite _find_nodes_with_reference_breakdown,
    BreakdownFacts.find_nodes_with_reference_walk. simpl.
  assert (F : List.Forall (fun n => truthy (reference_filename n) = true)
                          (List.filter BreakdownSpec.referenced (preorder (doc_node d)))).
  { apply List.Forall_forall. intros n Hn. apply List.filter_In in Hn. apply Hn. }
  rewrite (for_nodes_referenced _ F []). simpl. split; [reflexivity|].
  clear F. induction (preorder (doc_node d)) as [|n l IH]; simpl; [reflexivity|].
  unfold BreakdownSpec.referenced at 1.
  destruct (truthy (reference_filename n)); simpl; now rewrite IH.
Qed.

End DependencyFacts.

(** ** The export plugins *)

Module ExportFacts.
Import RumbaSessionCollector Session SessionSpec ExportPlugins ExportSpec.
Import CollectorSpec.

Lemma guarded_begins {Sample : Type} (raised_by : ExportCall Sample -> option exn)
      (path label : string) (c : ExportCall Sample) :
  begins (guarded raised_by path label c) label c /\
  no_runtime_error (guarded raised_by path label c).
Proof.
  unfold begins, no_runtime_error, guarded.
  destruct (raised_by c) as [[]|]; simpl; now split.
Qed.

(** X22: the setting "Export Namespaces" has no effect on the FBX export:
    whatever its value, and also when it is off, the export is the one made
    without the setting, and every call of the FBX exporter asks for all
    frames, a binary file and namespaces. *)
Theorem fbx_export_namespaces_always_on (Sample : Type)
        (raised_by : ExportCall Sample -> option exn) (namespace_setting : option bool)
        (item : PublishItem) (path : string) :
  fbx_export raised_by namespace_setting item path = fbx_export raised_by None item path /\
  List.Forall
    (fun c => match c with
              | FbxExportNodes _ _ frames ascii export_namespaces =>
                  frames = [] /\ ascii = false /\ export_namespaces = true
              | _ => True
              end)
    (snd (fbx_export raised_by namespace_setting item path)).
Proof.
  assert (E : fbx_export raised_by namespace_setting item path
              = fbx_export raised_by None item path).
  { unfold fbx_export. destruct (get_name item); [|reflexivity].
    now destruct namespace_setting as [[]|]. }
  split; [exact E|]. rewrite E. unfold fbx_export, guarded.
  destruct (get_name item) as [name|e]; simpl; [|constructor].
  destruct (raised_by _) as [[]|]; simpl; repeat constructor.
Qed.

(** What an item exports when it carries a group, and when it is bare. *)
Lemma get_carried (item : PublishItem) (name : string) (nodes : list Node) :
  carries item name nodes ->
  get_nodes item = PNodes nodes /\ get_name item = Ok name.
Proof.
  intros [Hn Hf]. unfold get_nodes, get_name. rewrite Hn, Hf. simpl. now split.
Qed.

Lemma get_bare (item : PublishItem) :
  bare item -> get_nodes item = PNodes [] /\ get_name item = Ok "scene".
Proof.
  intros [Hn Hf]. unfold get_nodes, get_name. rewrite Hn, Hf. simpl. now split.
Qed.

Lemma for_items_packs (body : string -> list Node -> M PublishItem) :
  packs body ->
  forall by_asset_node items w,
  exists more w',
    for_items body by_asset_node items w = (Ok (items ++ more), w') /\
    runtime w' = runtime w /\
    Forall2 (fun g item => carries item (keep_alnum (runtime w) (fst g)) (snd g))
            by_asset_node more.
Proof.
  intros Hb. induction by_asset_node as [|[asset_name nodes] rest IH]; intros items w.
  - exists [], w. simpl. rewrite app_nil_r. repeat split. constructor.
  - simpl. unfold bind.
    destruct (Hb asset_name nodes w) as (item & w1 & E & Hrt & Hc). rewrite E.
    destruct (IH (items ++ [item]) w1) as (more & w2 & E2 & Hrt2 & Hm).
    exists (item :: more), w2. rewrite E2, <- app_assoc. split; [reflexivity|].
    split; [congruence|]. constructor; [exact Hc|]. now rewrite <- Hrt.
Qed.

Ltac body_packs setting :=
  intros ? ? ?; unfold bind, emit, ret; simpl;
  eexists; eexists; split; [reflexivity|]; split; [reflexivity|];
  unfold carries, set_property; simpl;
  rewrite ?CollectorFacts.alphanumeric_sub_keeps;
  split;
  [ rewrite lookup_insert_ne by discriminate; now rewrite lookup_insert_eq
  | now rewrite lookup_insert_eq ].

Ltac collector_gathers :=
  intros setting by_asset_node w S;
  unfold bind at 1;
  destruct (SessionFacts.session_path_saved w) as (path & -> & T); rewrite T, S; simpl;
  unfold bind;
  match goal with
  | |- context [for_items ?body by_asset_node []] =>
      let Hb := fresh "Hb" in
      assert (Hb : packs body) by body_packs setting;
      destruct (for_items_packs body Hb by_asset_node [] w) as (more & w' & E & _ & Hm);
      rewrite E; simpl; unfold ret;
      exists more, w'; split; [reflexivity | exact Hm]
  end.

Lemma collect_rumba_usd_assets_gathers : gathers collect_rumba_usd_assets.
Proof. unfold gathers, collect_rumba_usd_assets. collector_gathers. Qed.

Lemma collect_rumba_fbx_assets_gathers : gathers collect_rumba_fbx_assets.
Proof. unfold gathers, collect_rumba_fbx_assets. collector_gathers. Qed.

Lemma collect_rumba_abc_assets_gathers : gathers collect_rumba_abc_assets.
Proof. unfold gathers, collect_rumba_abc_assets. collector_gathers. Qed.

Lemma collect_scene_bare (item_type' type_display display_name icon_file message : string)
      (settings : Settings) (w : World) :
  saved w = true ->
  exists item w',
    collect_scene item_type' type_display display_name icon_file message settings w
    = (Ok (Some item), w') /\ bare item.
Proof.
  intros S. unfold collect_scene, bind at 1.
  destruct (SessionFacts.session_path_saved w) as (path & -> & T). rewrite T, S. simpl.
  unfold with_work_template, bind, emit, ret, bare.
  destruct (work_template_setting settings);
    eexists; eexists; (split; [reflexivity|]);
    unfold set_property, set_icon, create_item; cbn [properties]; split;
    repeat (rewrite lookup_insert_ne by discriminate); apply lookup_empty.
Qed.

(** X23: the items of the per-asset collectors and the export plugins fit
    together.  On a saved session each collector makes one item for each
    group of nodes, in order, and the export of that item by the plugin of
    its type announces the progress under the name of the asset, without
    its characters that are not alphanumeric, and then calls the exporter on
    the path with exactly the nodes of the group: all frames for USD and
    FBX, a binary FBX file with namespaces, and for Alembic the configured
    sub-samples, cyclic, with a frame count of 0. *)
Theorem per_asset_items_export_their_group (Sample : Type)
        (raised_by : ExportCall Sample -> option exn)
        (namespace_setting : option bool) (samples_setting : option (list Sample))
        (setting : option (option string)) (by_asset_node : list (string * list Node))
        (path : string) (w : World) :
  saved w = true ->
  exists usd fbx abc w1 w2 w3,
    collect_rumba_usd_assets setting by_asset_node w = (Ok (Some usd), w1) /\
    collect_rumba_fbx_assets setting by_asset_node w = (Ok (Some fbx), w2) /\
    collect_rumba_abc_assets setting by_asset_node w = (Ok (Some abc), w3) /\
    Forall2 (fun g item =>
               begins (usd_export raised_by item path)
                      ("Exporting " +:+ keep_alnum (runtime w) (fst g) +:+ " to Usd...")
                      (ExportToUsd path (PNodes (snd g)) []))
            by_asset_node usd /\
    Forall2 (fun g item =>
               begins (fbx_export raised_by namespace_setting item path)
                      ("Exporting " +:+ keep_alnum (runtime w) (fst g) +:+ " as FBX...")
                      (FbxExportNodes path (PNodes (snd g)) [] false true))
            by_asset_node fbx /\
    Forall2 (fun g item =>
               begins (abc_export raised_by samples_setting item path)
                      ("Exporting " +:+ keep_alnum (runtime w) (fst g)
                         +:+ " as Alembic Cache...")
                      (AlembicExportNodes path (PNodes (snd g)) 0
                                          (default [] samples_setting) true))
            by_asset_node abc.
Proof.
  intros S.
  destruct (collect_rumba_usd_assets_gathers setting by_asset_node w S)
    as (usd & w1 & E1 & H1).
  destruct (collect_rumba_fbx_assets_gathers setting by_asset_node w S)
    as (fbx & w2 & E2 & H2).
  destruct (collect_rumba_abc_assets_gathers setting by_asset_node w S)
    as (abc & w3 & E3 & H3).
  exists usd, fbx, abc, w1, w2, w3.
  split; [exact E1|]. split; [exact E2|]. split; [exact E3|].
  split; [|split].
  - eapply Forall2_impl; [exact H1|]. intros g item Hc.
    destruct (get_carried _ _ _ Hc) as [Hn Hf].
    unfold usd_export. rewrite Hn, Hf. apply guarded_begins.
  - eapply Forall2_impl; [exact H2|]. intros g item Hc.
    destruct (get_carried _ _ _ Hc) as [Hn Hf].
    unfold fbx_export. rewrite Hn, Hf.
    destruct namespace_setting as [[]|]; apply guarded_begins.
  - eapply Forall2_impl; [exact H3|]. intros g item Hc.
    destruct (get_carried _ _ _ Hc) as [Hn Hf].
    unfold abc_export. rewrite Hn, Hf.
    destruct samples_setting as [[|x l]|]; apply guarded_begins.
Qed.

Lemma per_asset_items_export_their_group_witness :
  exists usd fbx abc w1 w2 w3,
    collect_rumba_usd_assets None [("hero_01", [MoreScenes.body])] MoreScenes.set_world
    = (Ok (Some usd), w1) /\
    collect_rumba_fbx_assets None [("hero_01", [MoreScenes.body])] MoreScenes.set_world
    = (Ok (Some fbx), w2) /\
    collect_rumba_abc_assets None [("hero_01", [MoreScenes.body])] MoreScenes.set_world
    = (Ok (Some abc), w3) /\
    Forall2 (fun g item =>
               begins (usd_export (Sample:=Z) (fun _ => None) item "/publish/hero.usd")
                      ("Exporting "
                         +:+ keep_alnum (runtime MoreScenes.set_world) (fst g)
                         +:+ " to Usd...")
                      (ExportToUsd "/publish/hero.usd" (PNodes (snd g)) []))
            [("hero_01", [MoreScenes.body])] usd /\
    Forall2 (fun g item =>
               begins (fbx_export (Sample:=Z) (fun _ => None) (Some false) item "/publish/hero.usd")
                      ("Exporting "
                         +:+ keep_alnum (runtime MoreScenes.set_world) (fst g)
                         +:+ " as FBX...")
                      (FbxExportNodes "/publish/hero.usd" (PNodes (snd g)) [] false true))
            [("hero_01", [MoreScenes.body])] fbx /\
    Forall2 (fun g item =>
               begins (abc_export (Sample:=Z) (fun _ => None) (Some [1%Z]) item "/publish/hero.usd")
                      ("Exporting "
                         +:+ keep_alnum (runtime MoreScenes.set_world) (fst g)
                         +:+ " as Alembic Cache...")
                      (AlembicExportNodes "/publish/hero.usd" (PNodes (snd g)) 0
                                          (default [] (Some [1%Z])) true))
            [("hero_01", [MoreScenes.body])] abc.
Proof.
  apply (per_asset_items_export_their_group Z (fun _ => None) (Some false) (Some [1%Z])
           None [("hero_01", [MoreScenes.body])] "/publish/hero.usd"
           MoreScenes.set_world).
  reflexivity.
Defined.

(** X24: the items of the whole-scene collectors carry no nodes and no
    name, and the export plugins then export everything: on a saved session
    the export of the item of each collector announces the progress under the
    name [scene] and calls the exporter with an empty list of nodes.  No
    export lets a [RuntimeError] of the exporter out, whatever the item. *)
Theorem scene_items_export_everything (Sample : Type)
        (raised_by : ExportCall Sample -> option exn)
        (namespace_setting : option bool) (samples_setting : option (list Sample))
        (settings : Settings) (path : string) (item : PublishItem) (w : World) :
  saved w = true ->
  (exists usd fbx abc w1 w2 w3,
     collect_rumba_usd_scene settings w = (Ok (Some usd), w1) /\
     collect_rumba_fbx_scene settings w = (Ok (Some fbx), w2) /\
     collect_rumba_abc_scene settings w = (Ok (Some abc), w3) /\
     begins (usd_export raised_by usd path) "Exporting scene to Usd..."
            (ExportToUsd path (PNodes []) []) /\
     begins (fbx_export raised_by namespace_setting fbx path) "Exporting scene as FBX..."
            (FbxExportNodes path (PNodes []) [] false true) /\
     begins (abc_export raised_by samples_setting abc path)
            "Exporting scene as Alembic Cache..."
            (AlembicExportNodes path (PNodes []) 0 (default [] samples_setting) true)) /\
  no_runtime_error (usd_export raised_by item path) /\
  no_runtime_error (fbx_export raised_by namespace_setting item path) /\
  no_runtime_error (abc_export raised_by samples_setting item path).
Proof.
  intros S. split.
  - unfold collect_rumba_usd_scene, collect_rumba_fbx_scene, collect_rumba_abc_scene.
    destruct (collect_scene_bare "rumba.animation.usd" "USD File" "Scene as USD"
                "usd.png" "Collected Rumba scene as USD for publishing." settings w S)
      as (usd & w1 & E1 & B1).
    destruct (collect_scene_bare "rumba.animation.fbx" "FBX File"
                "Scene Animation as FBX" "fbx.png"
                "Collected Rumba animation as FBX for publishing." settings w S)
      as (fbx & w2 & E2 & B2).
    destruct (collect_scene_bare "rumba.animation.alembic_cache" "Alembic Cache"
                "Scene Alembic Cache" "alembic.png"
                "Collected Rumba animation as Alembic Cache for publishing." settings w S)
      as (abc & w3 & E3 & B3).
    exists usd, fbx, abc, w1, w2, w3.
    split; [exact E1|]. split; [exact E2|]. split; [exact E3|].
    destruct (get_bare _ B1) as [N1 F1]. destruct (get_bare _ B2) as [N2 F2].
    destruct (get_bare _ B3) as [N3 F3].
    unfold usd_export, fbx_export, abc_export.
    rewrite N1, F1, N2, F2, N3, F3.
    split; [apply guarded_begins|]. split.
    + destruct namespace_setting as [[]|]; apply guarded_begins.
    + destruct samples_setting as [[|x l]|]; apply guarded_begins.
  - unfold usd_export, fbx_export, abc_export.
    unfold get_name.
    destruct (default (PFields []) (properties item !! "extra_fields")); simpl;
      repeat split; try apply guarded_begins; exact I.
Qed.

Lemma scene_items_export_everything_witness :
  (exists usd fbx abc w1 w2 w3,
     collect_rumba_usd_scene (mkSettings None false) MoreScenes.set_world
     = (Ok (Some usd), w1) /\
     collect_rumba_fbx_scene (mkSettings None false) MoreScenes.set_world
     = (Ok (Some fbx), w2) /\
     collect_rumba_abc_scene (mkSettings None false) MoreScenes.set_world
     = (Ok (Some abc), w3) /\
     begins (usd_export (Sample:=Z) (fun _ => None) usd "/publish/set.usd")
            "Exporting scene to Usd..."
            (ExportToUsd "/publish/set.usd" (PNodes []) []) /\
     begins (fbx_export (Sample:=Z) (fun _ => None) None fbx "/publish/set.usd")
            "Exporting scene as FBX..."
            (FbxExportNodes "/publish/set.usd" (PNodes []) [] false true) /\
     begins (abc_export (Sample:=Z) (fun _ => None) None abc "/publish/set.usd")
            "Exporting scene as Alembic Cache..."
            (AlembicExportNodes "/publish/set.usd" (PNodes []) 0 (default [] None) true)) /\
  no_runtime_error (usd_export (Sample:=Z) (fun _ => None) MoreScenes.session_item
                               "/publish/set.usd") /\
  no_runtime_error (fbx_export (Sample:=Z) (fun _ => None) None MoreScenes.session_item
                               "/publish/set.usd") /\
  no_runtime_error (abc_export (Sample:=Z) (fun _ => None) None MoreScenes.session_item
                               "/publish/set.usd").
Proof.
  apply (scene_items_export_everything Z (fun _ => None) None None (mkSettings None false)
           "/publish/set.usd" MoreScenes.session_item MoreScenes.set_world).
  reflexivity.
Defined.

End ExportFacts.

(** ** The publish path *)

Module PublishPathFacts.
Import PublishPath PublishPathSpec.

(** [get_publish_template] changes the item under [publish_template] at
    most. *)
Lemma get_publish_template_keeps (rt : Runtime) (setting : option (option string))
      (item item' : PublishItem) (r : option PropValue) (k : string) :
  RumbaSessionPublishPlugin.get_publish_template rt setting item = Returned (r, item') ->
  k <> "publish_template" ->
  properties item' !! k = properties item !! k.
Proof.
  unfold RumbaSessionPublishPlugin.get_publish_template. intros H N.
  destruct (match properties item !! "publish_template" with
            | Some v => prop_truthy v
            | None => false
            end).
  { now inversion H. }
  destruct (match setting with
            | Some (Some value) => if truthy value then Some value else None
            | _ => None
            end) as [value|].
  - destruct (get_template_by_name rt (Some value)); [|discriminate].
    inversion H. simpl. now rewrite lookup_insert_ne by congruence.
  - inversion H. simpl. now rewrite lookup_insert_ne by congruence.
Qed.

(** X25: [work_fields] starts as a list.  When the item has a work
    template and a publish template, the work template does not match the
    path and the item has extra fields, as every item of a per-asset
    collector has, [get_publish_path] does not fall back to the path: the
    call of [update] on the list raises [AttributeError], before anything
    is logged. *)
Theorem get_publish_path_unmatched_work_file
        (validate : string -> PropValue -> bool)
        (get_fields : string -> PropValue -> list (string * string))
        (missing_keys : string -> Fields -> list string)
        (apply_fields : string -> Fields -> string)
        (rt : Runtime) (setting : option (option string)) (item item' : PublishItem)
        (path v : PropValue) (wt : string) :
  truthy_value (properties item !! "publish_path") = false ->
  properties item !! "path" = Some path ->
  properties item !! "work_template" = Some (PTemplate (Some wt)) ->
  RumbaSessionPublishPlugin.get_publish_template rt setting item
  = Returned (Some v, item') ->
  prop_truthy v = true ->
  validate wt path = false ->
  truthy_value (properties item !! "extra_fields") = true ->
  get_publish_path validate get_fields missing_keys apply_fields rt setting item
  = (Crashes (Plugin (Python (AttributeError "update"))), item', []).
Proof.
  intros Hp Hpath Hw Ht Hv Hval Hx. unfold get_publish_path, get_publish_template.
  rewrite Hp, Hpath, Ht, Hw. simpl. rewrite Hv, Hval.
  rewrite (get_publish_template_keeps _ _ _ _ _ "extra_fields" Ht) by discriminate.
  now rewrite Hx.
Qed.

Lemma get_publish_path_unmatched_work_file_witness :
  get_publish_path strict (fun _ _ => []) (fun _ _ => []) (fun t _ => t)
                   MoreScenes.pipeline (Some (Some "rumba_shot_publish")) asset_item
  = (Crashes (Plugin (Python (AttributeError "update"))),
     set_property "publish_template"
                  (PTemplate (Some "shots/{Shot}/publish/{name}.v{version}.rumba"))
                  asset_item,
     []).
Proof.
  apply (get_publish_path_unmatched_work_file strict (fun _ _ => []) (fun _ _ => [])
           (fun t _ => t) MoreScenes.pipeline (Some (Some "rumba_shot_publish"))
           asset_item _ (PStr "/work/set.rumba")
           (PTemplate (Some "shots/{Shot}/publish/{name}.v{version}.rumba"))
           "shots/{Shot}/work/{name}.rumba");
    reflexivity.
Defined.

Lemma in_place_gives (publish_path : option PropValue) (path : PropValue)
      (logs : list PathLog) :
  prop_truthy (fst (in_place publish_path path logs)) = true \/
  fst (in_place publish_path path logs) = path.
Proof.
  unfold in_place. destruct publish_path as [v|]; simpl; [|now right].
  destruct (prop_truthy v) eqn:T; simpl; [now left | now right].
Qed.

(** X26: whenever [get_publish_path] returns, the value is one that
    counts as true, or it is the path of the item itself, "publishing in
    place": that is where a publish template with missing keys and a
    template that yields the empty string end.  The call leaves every
    property of the item but [publish_template] as it was. *)
Theorem get_publish_path_gives
        (validate : string -> PropValue -> bool)
        (get_fields : string -> PropValue -> list (string * string))
        (missing_keys : string -> Fields -> list string)
        (apply_fields : string -> Fields -> string)
        (rt : Runtime) (setting : option (option string)) (item item' : PublishItem)
        (v : PropValue) (logs : list PathLog) :
  get_publish_path validate get_fields missing_keys apply_fields rt setting item
  = (Gives v, item', logs) ->
  (prop_truthy v = true \/ properties item !! "path" = Some v) /\
  forall k, k <> "publish_template" -> properties item' !! k = properties item !! k.
Proof.
  unfold get_publish_path, get_publish_template.
  destruct (truthy_value (properties item !! "publish_path")) eqn:Hp.
  { intros H. inversion H; subst. split; [left|reflexivity].
    now destruct (properties item' !! "publish_path"). }
  destruct (properties item !! "path") as [path|]; [|discriminate].
  destruct (RumbaSessionPublishPlugin.get_publish_template rt setting item)
    as [[publish_template item1]|f] eqn:Ht; [|discriminate].
  pose proof (fun k => get_publish_template_keeps _ _ _ _ _ k Ht) as K.
  destruct (truthy_value (properties item !! "work_template")
            && truthy_value publish_template).
  - destruct (template_of (properties item !! "work_template")) as [wt|];
      [|discriminate].
    destruct (if truthy_value (properties item1 !! "extra_fields") then _ else _)
      as [c|work_fields]; [discriminate|].
    destruct (template_of publish_template) as [pt|]; [|discriminate].
    destruct (missing_keys pt work_fields) as [|m ms].
    + destruct (in_place _ path _) as [pp lg] eqn:I. intros H. inversion H; subst.
      split; [|exact K].
      pose proof (in_place_gives
                    (Some (PStr (apply_fields pt work_fields))) path
                    [mkPathLog Debug
                       "Used publish template to determine the publish path: %s"
                       [APath (PStr (apply_fields pt work_fields))]]) as G.
      rewrite I in G. simpl in G. destruct G as [G|G]; [now left | right; now subst].
    + destruct (in_place _ path _) as [pp lg] eqn:I. intros H. inversion H; subst.
      split; [|exact K].
      unfold in_place in I. simpl in I. inversion I. now right.
  - destruct (in_place _ path _) as [pp lg] eqn:I. intros H. inversion H; subst.
    split; [|exact K].
    unfold in_place in I. simpl in I. inversion I. now right.
Qed.

Lemma get_publish_path_gives_witness :
  (prop_truthy (PStr "/work/set.rumba") = true \/
   properties asset_item !! "path" = Some (PStr "/work/set.rumba")) /\
  forall k, k <> "publish_template" ->
    properties (set_property "publish_template" (PTemplate None) asset_item) !! k
    = properties asset_item !! k.
Proof.
  eapply (get_publish_path_gives strict (fun _ _ => []) (fun _ _ => []) (fun t _ => t)
            MoreScenes.pipeline None asset_item).
  reflexivity.
Defined.

End PublishPathFacts.

(** ** The frame range hook, further *)

Module FrameMoreFacts.
Import FrameOperation.

(** X10: with an active document, [set_frame_range] called with two
    integers sets the four frame plugs inside one bracket, the range plugs to
    the same values as the frame plugs, and changes nothing else; called
    with a default [None] for either frame it raises [TypeError] before the
    bracket is opened, so that the world is as before and no bracket is left
    open. *)
Theorem set_frame_range_with_document (w : World) (d : Document)
        (in_frame out_frame : value) :
  active_document w = Some d ->
  match in_frame, out_frame with
  | PyInt a, PyInt b =>
      set_frame_range in_frame out_frame w
      = (Ok tt,
         mkWorld (runtime w) (Some (mkDocument (doc_node d) a b a b))
                 (active_document_filename w) (current_frame w) (path_exists w)
                 (engine_apps w)
                 (journal w
                    ++ [ModifyBegin "Shotgun Update Frame Range";
                        SetFrameValue "start_frame" a; SetFrameValue "end_frame" b;
                        SetFrameValue "range_start_frame" a;
                        SetFrameValue "range_end_frame" b; ModifyEnd])
                 (log w))
  | _, _ =>
      exists msg, set_frame_range in_frame out_frame w = (Raise (TypeError msg), w)
  end.
Proof.
  intros Hd. unfold set_frame_range. rewrite Hd.
  destruct in_frame as [|a]; [destruct out_frame; eexists; reflexivity|].
  destruct out_frame as [|b]; [eexists; reflexivity|].
  unfold bind, lift, host, set_value, int, add_call, set_document, write_frame.
  cbn -[String.append]. rewrite Hd. cbn -[String.append].
  rewrite <- !app_assoc. reflexivity.
Qed.

Lemma set_frame_range_with_document_witness :
  exists msg,
    set_frame_range (PyInt 1001) PyNone (Scenes.world_of (Some Scenes.shot) "shot.rumba")
    = (Raise (TypeError msg), Scenes.world_of (Some Scenes.shot) "shot.rumba").
Proof.
  apply (set_frame_range_with_document
           (Scenes.world_of (Some Scenes.shot) "shot.rumba") Scenes.shot
           (PyInt 1001) PyNone).
  reflexivity.
Defined.

End FrameMoreFacts.
